(** * WebDB: the site store and the upload pipeline

    A shallow embedding of the storage backend used by the gateway
    ([FileStorage] in [db-chain.ts], [GolemDBClient] in
    [golem-db-client.ts]) and of the upload coordinator ([SiteUploader]).

    Conventions of the model:
    - JavaScript numbers that hold sizes, counts and timestamps are [Z];
      [Math.floor (x / 1000)] is [x / 1000] on [Z].
    - A [Uint8Array] is a [list byte]; a JavaScript string is a [string].
    - [Date.now ()] is an explicit argument [now] (milliseconds) of every
      operation; a [Date] is its millisecond timestamp.
    - The storage directory is a finite map from entry keys to entries:
      [storeLocally] writes one JSON file per key and [readLocally] parses
      it back. Whether [writeFile] succeeds on the file of a key is given
      by the environment (the directory of a nested path may be missing).
      The file of a key is [Path.storageFile]; [Disk] indexes the
      directory by file, and the two agree on the keys that [join]
      leaves as they are. A statement that needs two keys to name
      different files says so with [Path.storageFile].
    - All the clock reads of one operation give the same [now], the
      reading at its start. The code reads the clock again in each
      [storeFile], after the ledger calls before it: an entry written
      later in a batch expires no earlier than stated here.
    - [JSON.parse] of an entry value gives a site metadata record or
      throws; the ISO text of a [Date] is identified with the [Date].
    - A thrown [Error] is the [Throw] result. *)

From Stdlib Require Import ZArith String Ascii List Bool Lia.
From Stdlib Require Import Init.Byte.
From stdpp Require Import base option list gmap strings.

Import ListNotations.
Local Open Scope string_scope.
Local Open Scope Z_scope.

(** ** JavaScript string primitives used by the sources *)

Module JS.

(** [s.startsWith (p)] *)
Fixpoint startsWith (p s : string) : bool :=
  match p, s with
  | EmptyString, _ => true
  | String a p', String b s' => if Ascii.eqb a b then startsWith p' s' else false
  | String _ _, EmptyString => false
  end.

(** [s.includes (p)] *)
Fixpoint includes (p s : string) : bool :=
  startsWith p s ||
  match s with
  | EmptyString => false
  | String _ s' => includes p s'
  end.

(** [s.slice (1)] *)
Definition slice1 (s : string) : string :=
  match s with
  | EmptyString => EmptyString
  | String _ s' => s'
  end.

(** [s.replace (/\\/g, '/')] *)
Fixpoint replaceBackslashes (s : string) : string :=
  match s with
  | EmptyString => EmptyString
  | String c s' =>
      String (if Ascii.eqb c "\"%char then "/"%char else c) (replaceBackslashes s')
  end.

Definition lowerChar (c : ascii) : ascii :=
  let n := nat_of_ascii c in
  if (Nat.leb 65 n && Nat.leb n 90)%bool then ascii_of_nat (n + 32) else c.

(** [s.toLowerCase ()] on the ASCII letters. *)
Fixpoint toLowerCase (s : string) : string :=
  match s with
  | EmptyString => EmptyString
  | String c s' => String (lowerChar c) (toLowerCase s')
  end.

(** [s.split ('.').pop ()]: the text after the last dot, or all of [s]
    when it has no dot. The accumulator is the segment read so far. *)
Fixpoint lastDotSegment_from (acc s : string) : string :=
  match s with
  | EmptyString => acc
  | String c s' =>
      if Ascii.eqb c "."%char then lastDotSegment_from EmptyString s'
      else lastDotSegment_from (acc ++ String c EmptyString) s'
  end.

Definition lastDotSegment (s : string) : string := lastDotSegment_from EmptyString s.

(** [s.split ('/')] has an empty element. *)
Fixpoint hasEmptySegment_from (atStart : bool) (s : string) : bool :=
  match s with
  | EmptyString => atStart
  | String c s' =>
      if Ascii.eqb c "/"%char then atStart || hasEmptySegment_from true s'
      else hasEmptySegment_from false s'
  end.

Definition hasEmptySegment (s : string) : bool := hasEmptySegment_from true s.

Definition strlen (s : string) : Z := Z.of_nat (String.length s).

End JS.

(** ** types.ts *)

Record SiteFile := {
  sf_path : string;
  sf_content : list byte;
  sf_contentType : string;
  sf_size : Z;
  sf_lastModified : Z
}.

Record SiteMetadata := {
  sm_siteId : string;
  sm_name : string;
  sm_domain : string;
  sm_totalSize : Z;
  sm_fileCount : Z;
  sm_createdAt : Z;
  sm_btlExpiry : Z
}.

Record EntryMetadata := {
  em_contentType : string;
  em_path : string;
  em_siteId : string;
  em_size : Z;
  em_lastModified : Z
}.

Record DBChainEntry := {
  e_key : string;
  e_value : list byte;
  e_metadata : EntryMetadata;
  e_btl : Z
}.

Record UploadedFile := {
  uf_path : string;
  uf_size : Z;
  uf_key : string;
  uf_txHash : option string
}.

Record UploadResult := {
  ur_siteId : string;
  ur_domain : string;
  ur_files : list UploadedFile;
  ur_totalSize : Z;
  ur_indexTxHash : option string
}.

(** The messages of the [Error]s the sources throw. *)
Inductive Error :=
| InvalidUploadData
| SiteAlreadyExists (siteId : string)
| SiteDoesNotExist (siteId : string)
| SiteHasExpired (siteId : string)
| FileExceedsMaximumSize (path : string)
| SiteExceedsMaximumSize
| SiteWouldExceedMaximumSize
| InvalidFilePath (path : string)
| EmptyFilePath
| MissingIndexFile
| FileTypeNotAllowed (path : string)
| HiddenFileNotAllowed (path : string)
| FailedToGetNonce
| NonceError
| TransactionFailed
| GolemDBError
| FetchFailed
| WriteFileFailed (key : string).

Inductive Result (A : Type) :=
| Ok (a : A)
| Throw (e : Error).
Arguments Ok {A} a.
Arguments Throw {A} e.

Definition isOk {A} (r : Result A) : bool :=
  match r with Ok _ => true | Throw _ => false end.

(** ** golem-db-client.ts *)

Module GolemDBClient.

(** What one JSON-RPC round trip gives back to the client. *)
Inductive Response (A : Type) :=
| FetchRejects                (* [fetch] itself rejects: network error *)
| NotOk                       (* [!response.ok] *)
| RpcError                    (* [result.error] is set *)
| RpcResult (r : A).
Arguments FetchRejects {A}.
Arguments NotOk {A}.
Arguments RpcError {A}.
Arguments RpcResult {A} r.

Record TxParams := {
  tx_to : string;
  tx_value : Z;
  tx_data : string;
  tx_gasLimit : Z;
  tx_gasPrice : Z;
  tx_maxFeePerGas : Z;
  tx_maxPriorityFeePerGas : Z;
  tx_nonce : Z;
  tx_chainId : Z
}.

(** [wallet.signTransaction]: the envelope together with the signer. *)
Record SignedTx := {
  signer : string;
  signed : TxParams
}.

Record Receipt := { blockNumber : Z }.

(** The ledger endpoint as one [createEntity] call sees it; the receipt
    query may answer differently at each poll. *)
Record Endpoint := {
  eth_getTransactionCount : string -> Response Z;
  eth_sendRawTransaction : SignedTx -> Response string;
  eth_getTransactionReceipt : nat -> string -> Response (option Receipt)
}.

Record Client := {
  account : string;
  chainId : Z;
  storageContract : string;
  defaultGasLimit : Z;
  defaultBTL : Z
}.

Record Entity := {
  entityKey : string;
  transactionHash : string;
  entityBlockNumber : option Z
}.

Definition getNonce (c : Client) (ep : Endpoint) : Result Z :=
  match eth_getTransactionCount ep (account c) with
  | FetchRejects => Throw FetchFailed
  | NotOk => Throw FailedToGetNonce
  | RpcError => Throw NonceError
  | RpcResult n => Ok n
  end.

Definition txParams (c : Client) (nonce : Z) : TxParams :=
  {| tx_to := storageContract c;
     tx_value := 0;
     tx_data := "0x";
     tx_gasLimit := defaultGasLimit c;
     tx_gasPrice := 100000000;
     tx_maxFeePerGas := 100000000;
     tx_maxPriorityFeePerGas := 100000000;
     tx_nonce := nonce;
     tx_chainId := chainId c |}.

Definition signTransaction (c : Client) (p : TxParams) : SignedTx :=
  {| signer := account c; signed := p |}.

Definition maxRetries : nat := 10.

(** The polling loop of [waitForTransaction], from attempt [i] with
    [remaining] attempts left. *)
Fixpoint waitForTransaction_from (ep : Endpoint) (txHash : string)
    (i remaining : nat) : option Receipt :=
  match remaining with
  | O => None
  | S k =>
      match eth_getTransactionReceipt ep i txHash with
      | RpcResult (Some r) => Some r
      | RpcResult None => waitForTransaction_from ep txHash (S i) k
      | _ =>
          if Nat.eqb i (maxRetries - 1) then None
          else waitForTransaction_from ep txHash (S i) k
      end
  end.

Definition waitForTransaction (ep : Endpoint) (txHash : string) : option Receipt :=
  waitForTransaction_from ep txHash 0 maxRetries.

(** [createEntity (key, data, annotations, btl)]. The key, the data, the
    annotations and the lifetime are only logged: the envelope carries
    [data: "0x"]. *)
Definition createEntity (c : Client) (ep : Endpoint)
    (key : string) (data : list byte) (btl : Z) : Result Entity :=
  match getNonce c ep with
  | Throw e => Throw e
  | Ok nonce =>
      let signedTx := signTransaction c (txParams c nonce) in
      match eth_sendRawTransaction ep signedTx with
      | FetchRejects => Throw FetchFailed
      | NotOk => Throw TransactionFailed
      | RpcError => Throw GolemDBError
      | RpcResult txHash =>
          let receipt := waitForTransaction ep txHash in
          Ok {| entityKey := txHash;
                transactionHash := txHash;
                entityBlockNumber := option_map blockNumber receipt |}
      end
  end.

(** *** Interleaved calls

    [createEntity] suspends at each [await]. Between two suspension
    points of one call the event loop may run any other call. A call is
    therefore a small machine, resumed with the endpoint as it answers at
    that moment. Nothing is assumed of the ledger behind the endpoint:
    what it answers to a fetch and to a submission comes with the
    schedule. *)

Inductive Call :=
| AwaitingNonce                       (* suspended in [await this.getNonce ()] *)
| AwaitingSignature (nonce : Z)       (* suspended in [await this.wallet.signTransaction] *)
| AwaitingSend (signedTx : SignedTx)  (* suspended in [await fetch] of the raw transaction *)
| AwaitingReceipt (signedTx : SignedTx) (txHash : string)
                                      (* suspended in [await this.waitForTransaction] *)
| Returned (signedTx : SignedTx) (entity : Entity)
| Failed (e : Error).

Inductive Event :=
| NonceFetched (call : nat) (nonce : Z)
| Signed (call : nat) (nonce : Z)
| Submitted (call : nat) (nonce : Z)
| Resolved (call : nat)
| Thrown (call : nat) (e : Error).

Record System := {
  calls : list Call;        (* the calls in flight, by index *)
  trace : list Event        (* newest event first *)
}.

Definition advance (i : nat) (call : Call) (e : Event) (s : System) : System :=
  {| calls := <[i := call]> (calls s); trace := e :: trace s |}.

(** One resumption of call [i], with the endpoint as the call finds it. *)
Definition resume (c : Client) (i : nat) (ep : Endpoint) (s : System) : option System :=
  match calls s !! i with
  | Some AwaitingNonce =>
      match getNonce c ep with
      | Ok n => Some (advance i (AwaitingSignature n) (NonceFetched i n) s)
      | Throw e => Some (advance i (Failed e) (Thrown i e) s)
      end
  | Some (AwaitingSignature n) =>
      Some (advance i (AwaitingSend (signTransaction c (txParams c n))) (Signed i n) s)
  | Some (AwaitingSend t) =>
      match eth_sendRawTransaction ep t with
      | FetchRejects => Some (advance i (Failed FetchFailed) (Thrown i FetchFailed) s)
      | NotOk => Some (advance i (Failed TransactionFailed) (Thrown i TransactionFailed) s)
      | RpcError => Some (advance i (Failed GolemDBError) (Thrown i GolemDBError) s)
      | RpcResult txHash =>
          Some (advance i (AwaitingReceipt t txHash) (Submitted i (tx_nonce (signed t))) s)
      end
  | Some (AwaitingReceipt t txHash) =>
      let receipt := waitForTransaction ep txHash in
      Some (advance i
              (Returned t {| entityKey := txHash;
                             transactionHash := txHash;
                             entityBlockNumber := option_map blockNumber receipt |})
              (Resolved i) s)
  | _ => None
  end.

(** Running a schedule: the calls the event loop resumes, in order, each
    with the endpoint as it answers then. *)
Fixpoint run (c : Client) (schedule : list (nat * Endpoint)) (s : System) : option System :=
  match schedule with
  | [] => Some s
  | (i, ep) :: rest =>
      match resume c i ep s with
      | Some s' => run c rest s'
      | None => None
      end
  end.

Definition start (n : nat) : System :=
  {| calls := replicate n AwaitingNonce; trace := [] |}.

(** The sequence number call [i] signed, once it has signed. *)
Definition signedNonce (s : System) (i : nat) : option Z :=
  match calls s !! i with
  | Some (AwaitingSend t) | Some (AwaitingReceipt t _) | Some (Returned t _) =>
      Some (tx_nonce (signed t))
  | _ => None
  end.

(** What a call has settled to. *)
Definition outcome (call : Call) : option (Result Entity) :=
  match call with
  | Returned _ entity => Some (Ok entity)
  | Failed e => Some (Throw e)
  | _ => None
  end.

End GolemDBClient.

(** ** The environment of the store *)

(** [JSON.stringify] and [JSON.parse] on site metadata (with the [Date]
    fields revived, as [getSiteMetadata] does). [JSON_parse] is [None]
    where [JSON.parse] throws. *)
Class Json := {
  JSON_stringify : SiteMetadata -> string;
  JSON_parse : string -> option SiteMetadata;
  JSON_parse_stringify : forall m, JSON_parse (JSON_stringify m) = Some m
}.

(** The process state: the storage directory and the number of
    [createEntity] calls made so far. *)
Record World := {
  mirror : gmap string DBChainEntry;
  ledgerCalls : nat
}.

Definition M (A : Type) : Type := World -> Result A * World.

Definition ret {A} (a : A) : M A := fun w => (Ok a, w).
Definition throw {A} (e : Error) : M A := fun w => (Throw e, w).
Definition bind {A B} (m : M A) (k : A -> M B) : M B :=
  fun w =>
    match m w with
    | (Ok a, w') => k a w'
    | (Throw e, w') => (Throw e, w')
    end.

Notation "'do' x <- m ; k" := (bind m (fun x => k))
  (at level 10, x binder, m at level 100, k at level 200).

Record RawFile := {
  rf_path : string;
  rf_content : list byte
}.

Definition TextEncoder_encode (s : string) : list byte := list_byte_of_string s.
Definition TextDecoder_decode (b : list byte) : string := string_of_list_byte b.

(** [a || b] on a string that may be [null]. *)
Definition orString (a : option string) (b : string) : string :=
  match a with
  | Some EmptyString | None => b
  | Some s => s
  end.

(** [a || undefined] *)
Definition orUndefined (a : string) : option string :=
  match a with
  | EmptyString => None
  | _ => Some a
  end.

(** What the process finds around it: the ledger client of the store and
    the endpoint as its [k]-th [createEntity] call finds it, whether
    [writeFile] succeeds on the file of a key, [lookup] of mime-types
    ([None] is its [false]), and the limits the uploader is constructed
    with. *)
Record Env := {
  golemDB : GolemDBClient.Client;
  net : nat -> GolemDBClient.Endpoint;
  writeFile : string -> bool;
  lookup : string -> option string;
  maxFileSize : Z;
  maxSiteSize : Z
}.

Section Store.

Context {json : Json}.
Variable env : Env.

(** *** FileStorage *)

Definition generateFileKey (siteId path : string) : string :=
  let normalizedPath := if JS.startsWith "/" path then JS.slice1 path else path in
  "site:" ++ siteId ++ ":file:" ++ normalizedPath.

Definition generateMetadataKey (siteId : string) : string :=
  "site:" ++ siteId ++ ":metadata".

Definition isExpired (entry : DBChainEntry) (now : Z) : bool :=
  let now_s := now / 1000 in
  (0 <? e_btl entry) && (e_btl entry <? now_s).

Definition storeLocally (key : string) (entry : DBChainEntry) : M unit :=
  fun w =>
    if writeFile env key then
      (Ok tt, {| mirror := <[key := entry]> (mirror w); ledgerCalls := ledgerCalls w |})
    else (Throw (WriteFileFailed key), w).

Definition readLocally (key : string) (w : World) : option DBChainEntry :=
  mirror w !! key.

Definition writeToGolemDB (entry : DBChainEntry) : M (option string) :=
  fun w =>
    let w' := {| mirror := mirror w; ledgerCalls := S (ledgerCalls w) |} in
    match GolemDBClient.createEntity (golemDB env) (net env (ledgerCalls w))
            (e_key entry) (e_value entry) (e_btl entry) with
    | Ok result => (Ok (Some (GolemDBClient.entityKey result)), w')
    | Throw _ => (Ok None, w')
    end.

Definition fileEntry (now : Z) (siteId : string) (file : SiteFile) : DBChainEntry :=
  {| e_key := generateFileKey siteId (sf_path file);
     e_value := sf_content file;
     e_metadata :=
       {| em_contentType := sf_contentType file;
          em_path := sf_path file;
          em_siteId := siteId;
          em_size := sf_size file;
          em_lastModified := sf_lastModified file |};
     e_btl := now / 1000 + 30 * 24 * 60 * 60 |}.

Definition storeFile (now : Z) (siteId : string) (file : SiteFile) : M string :=
  let key := generateFileKey siteId (sf_path file) in
  let entry := fileEntry now siteId file in
  do txHash <- writeToGolemDB entry ;
  do _ <- storeLocally key entry ;
  ret (orString txHash key).

(** The loop of [storeSite] over the files, carrying [fileResults] and
    [indexTxHash]. *)
Fixpoint storeSite_files (now : Z) (siteId : string) (files : list SiteFile)
    (fileResults : list UploadedFile) (indexTxHash : option string)
    : M (list UploadedFile * option string) :=
  match files with
  | [] => ret (fileResults, indexTxHash)
  | file :: rest =>
      do txHash <- storeFile now siteId file ;
      let fileResults' :=
        (fileResults ++ [{| uf_path := sf_path file;
                            uf_size := sf_size file;
                            uf_key := generateFileKey siteId (sf_path file);
                            uf_txHash := orUndefined txHash |}])%list in
      let indexTxHash' :=
        if String.eqb (sf_path file) "index.html" then orUndefined txHash
        else indexTxHash in
      storeSite_files now siteId rest fileResults' indexTxHash'
  end.

Definition sumSizes (files : list SiteFile) : Z :=
  fold_left (fun sum file => sum + sf_size file) files 0.

Definition siteMetadata (now : Z) (siteId : string) (files : list SiteFile) : SiteMetadata :=
  {| sm_siteId := siteId;
     sm_name := siteId;
     sm_domain := siteId ++ ".webdb.site";
     sm_totalSize := sumSizes files;
     sm_fileCount := Z.of_nat (length files);
     sm_createdAt := now;
     sm_btlExpiry := now + 30 * 24 * 60 * 60 * 1000 |}.

Definition metadataEntry (now : Z) (siteId : string) (metadata : SiteMetadata) : DBChainEntry :=
  {| e_key := generateMetadataKey siteId;
     e_value := TextEncoder_encode (JSON_stringify metadata);
     e_metadata :=
       {| em_contentType := "application/json";
          em_path := "_metadata";
          em_siteId := siteId;
          em_size := JS.strlen (JSON_stringify metadata);
          em_lastModified := now |};
     e_btl := now / 1000 + 30 * 24 * 60 * 60 |}.

Record StoredSite := {
  ss_metadata : SiteMetadata;
  ss_files : list UploadedFile;
  ss_indexTxHash : option string
}.

Definition storeSite (now : Z) (siteId : string) (files : list SiteFile) : M StoredSite :=
  do r <- storeSite_files now siteId files [] None ;
  let metadata := siteMetadata now siteId files in
  let metadataKey := generateMetadataKey siteId in
  let entry := metadataEntry now siteId metadata in
  do _ <- writeToGolemDB entry ;
  do _ <- storeLocally metadataKey entry ;
  ret {| ss_metadata := metadata; ss_files := fst r; ss_indexTxHash := snd r |}.

Definition getFile (now : Z) (siteId path : string) (w : World) : option SiteFile :=
  let key := generateFileKey siteId path in
  match readLocally key w with
  | None => None
  | Some entry =>
      if isExpired entry now then None
      else Some {| sf_path := em_path (e_metadata entry);
                   sf_content := e_value entry;
                   sf_contentType := em_contentType (e_metadata entry);
                   sf_size := em_size (e_metadata entry);
                   sf_lastModified := em_lastModified (e_metadata entry) |}
  end.

Definition getSiteMetadata (now : Z) (siteId : string) (w : World) : option SiteMetadata :=
  let key := generateMetadataKey siteId in
  match readLocally key w with
  | None => None
  | Some entry =>
      if isExpired entry now then None
      else JSON_parse (TextDecoder_decode (e_value entry))
  end.

(** *** SiteUploader *)

Definition siteIdChar (c : ascii) : bool :=
  let n := nat_of_ascii c in
  ((97 <=? n) && (n <=? 122) || (65 <=? n) && (n <=? 90) || (48 <=? n) && (n <=? 57)
   || Ascii.eqb c "-" || Ascii.eqb c "_")%nat.

Fixpoint allChars (p : ascii -> bool) (s : string) : bool :=
  match s with
  | EmptyString => true
  | String c s' => p c && allChars p s'
  end.

(** [uploadSchema.safeParse ({ siteId, files }).success] *)
Definition uploadSchema (siteId : string) (files : list RawFile) : bool :=
  (1 <=? JS.strlen siteId) && (JS.strlen siteId <=? 64) && allChars siteIdChar siteId
  && (1 <=? Z.of_nat (length files)) && (Z.of_nat (length files) <=? 1000)
  && forallb (fun f => 1 <=? JS.strlen (rf_path f)) files.

Definition normalizePath (p : string) : string :=
  let path := JS.replaceBackslashes p in
  if JS.startsWith "/" path then JS.slice1 path else path.

Definition processFile (now : Z) (fileData : RawFile) : Result SiteFile :=
  let path := normalizePath (rf_path fileData) in
  if JS.includes ".." path || JS.includes "//" path then Throw (InvalidFilePath path)
  else if JS.strlen path =? 0 then Throw EmptyFilePath
  else
    let contentType := orString (lookup env path) "application/octet-stream" in
    Ok {| sf_path := path;
          sf_content := rf_content fileData;
          sf_contentType := contentType;
          sf_size := Z.of_nat (length (rf_content fileData));
          sf_lastModified := now |}.

Definition suspiciousExtensions : list string :=
  [".exe"; ".bat"; ".sh"; ".php"; ".asp"; ".jsp"].

Definition allowedHiddenFiles : list string := [".htaccess"; ".well-known"].

Definition inList (s : string) (l : list string) : bool :=
  existsb (String.eqb s) l.

(** The test of the loop over [suspiciousExtensions]. *)
Definition suspiciousPath (path : string) : bool :=
  let extension := JS.lastDotSegment (JS.toLowerCase path) in
  negb (String.eqb extension "") && inList ("." ++ extension) suspiciousExtensions.

(** The test of the loop over hidden files. *)
Definition forbiddenHiddenPath (path : string) : bool :=
  JS.startsWith "." path
  && negb (existsb (fun allowed =>
             String.eqb path allowed || JS.startsWith (allowed ++ "/") path)
           allowedHiddenFiles).

Definition isSuspicious (file : SiteFile) : bool := suspiciousPath (sf_path file).
Definition isForbiddenHidden (file : SiteFile) : bool := forbiddenHiddenPath (sf_path file).

Definition validateSiteStructure (files : list SiteFile) : Result unit :=
  let hasIndexHtml := existsb (fun f => String.eqb (sf_path f) "index.html") files in
  let hasIndexHtm := existsb (fun f => String.eqb (sf_path f) "index.htm") files in
  if negb hasIndexHtml && negb hasIndexHtm then Throw MissingIndexFile
  else
    match find isSuspicious files with
    | Some file => Throw (FileTypeNotAllowed (sf_path file))
    | None =>
        match find isForbiddenHidden files with
        | Some file => Throw (HiddenFileNotAllowed (sf_path file))
        | None => Ok tt
        end
    end.

(** The first loop of [uploadSite], carrying [siteFiles] and [totalSize]. *)
Fixpoint uploadSite_files (now : Z) (files : list RawFile)
    (siteFiles : list SiteFile) (totalSize : Z) : Result (list SiteFile * Z) :=
  match files with
  | [] => Ok (siteFiles, totalSize)
  | fileData :: rest =>
      match processFile now fileData with
      | Throw e => Throw e
      | Ok file =>
          if maxFileSize env <? sf_size file then Throw (FileExceedsMaximumSize (sf_path file))
          else
            let totalSize' := totalSize + sf_size file in
            if maxSiteSize env <? totalSize' then Throw SiteExceedsMaximumSize
            else uploadSite_files now rest (siteFiles ++ [file])%list totalSize'
      end
  end.

Definition uploadSite (now : Z) (siteId : string) (files : list RawFile) : M UploadResult :=
  fun w =>
    if negb (uploadSchema siteId files) then (Throw InvalidUploadData, w)
    else
      match getSiteMetadata now siteId w with
      | Some _ => (Throw (SiteAlreadyExists siteId), w)
      | None =>
          match uploadSite_files now files [] 0 with
          | Throw e => (Throw e, w)
          | Ok (siteFiles, totalSize) =>
              match validateSiteStructure siteFiles with
              | Throw e => (Throw e, w)
              | Ok _ =>
                  (do result <- storeSite now siteId siteFiles ;
                   ret {| ur_siteId := siteId;
                          ur_domain := sm_domain (ss_metadata result);
                          ur_files := ss_files result;
                          ur_totalSize := totalSize;
                          ur_indexTxHash := ss_indexTxHash result |}) w
              end
          end
      end.

(** The first loop of [uploadFiles]; it reads the store but writes
    nothing. *)
Fixpoint uploadFiles_files (now : Z) (siteId : string) (w : World) (files : list RawFile)
    (siteFiles : list SiteFile) (totalSize : Z) : Result (list SiteFile * Z) :=
  match files with
  | [] => Ok (siteFiles, totalSize)
  | fileData :: rest =>
      match processFile now fileData with
      | Throw e => Throw e
      | Ok file =>
          if maxFileSize env <? sf_size file then Throw (FileExceedsMaximumSize (sf_path file))
          else
            let totalSize1 :=
              match getFile now siteId (sf_path file) w with
              | Some existingFile => totalSize - sf_size existingFile
              | None => totalSize
              end in
            let totalSize2 := totalSize1 + sf_size file in
            if maxSiteSize env <? totalSize2 then Throw SiteWouldExceedMaximumSize
            else uploadFiles_files now siteId w rest (siteFiles ++ [file])%list totalSize2
      end
  end.

(** The second loop of [uploadFiles], carrying [keys]. *)
Fixpoint uploadFiles_store (now : Z) (siteId : string) (siteFiles : list SiteFile)
    (keys : list string) : M (list string) :=
  match siteFiles with
  | [] => ret keys
  | file :: rest =>
      do key <- storeFile now siteId file ;
      uploadFiles_store now siteId rest (keys ++ [key])%list
  end.

Definition uploadFiles (now : Z) (siteId : string) (files : list RawFile) : M UploadResult :=
  fun w =>
    match getSiteMetadata now siteId w with
    | None => (Throw (SiteDoesNotExist siteId), w)
    | Some metadata =>
        if sm_btlExpiry metadata <? now then (Throw (SiteHasExpired siteId), w)
        else
          match uploadFiles_files now siteId w files [] (sm_totalSize metadata) with
          | Throw e => (Throw e, w)
          | Ok (siteFiles, totalSize) =>
              (do keys <- uploadFiles_store now siteId siteFiles [] ;
               ret {| ur_siteId := siteId;
                      ur_domain := sm_domain metadata;
                      ur_files :=
                        imap (fun index file =>
                                {| uf_path := sf_path file;
                                   uf_size := sf_size file;
                                   uf_key := default "" (keys !! index);
                                   uf_txHash := None |}) siteFiles;
                      ur_totalSize := totalSize;
                      ur_indexTxHash := None |}) w
          end
    end.

End Store.

(** ** The gateway routes that read the store (index.ts) *)

Module Gateway.

(** [s.endsWith (suffix)] *)
Fixpoint endsWith (suffix s : string) : bool :=
  String.eqb s suffix ||
  match s with
  | EmptyString => false
  | String _ s' => endsWith suffix s'
  end.

Fixpoint dropChars (n : nat) (s : string) : string :=
  match n, s with
  | O, _ => s
  | S k, String _ s' => dropChars k s'
  | S _, EmptyString => EmptyString
  end.

(** [s.replace (pattern, '')] with a string pattern: the first occurrence
    is removed. *)
Fixpoint removeFirst (pattern s : string) : string :=
  if JS.startsWith pattern s then dropChars (String.length pattern) s
  else
    match s with
    | EmptyString => EmptyString
    | String c s' => String c (removeFirst pattern s')
    end.

Inductive Page :=
| NotFoundPage (message : string)
| ExpiredPage (siteId : string) (expiry : Z).

(** The headers [serveFile] sets and the body it sends. *)
Record Served := {
  h_contentType : string;
  h_contentLength : Z;
  h_lastModified : Z;
  h_cacheControl : string;
  h_contentTypeOptions : string;
  h_frameOptions : string;
  h_xssProtection : string;
  body : list byte
}.

Inductive Response :=
| Html (status : Z) (page : Page)
| File (served : Served).

Section Routes.

Context {json : Json}.
Variable env : Env.

Definition serveFile (file : SiteFile) : Response :=
  let contentType :=
    match sf_contentType file with
    | EmptyString => orString (lookup env (sf_path file)) "application/octet-stream"
    | t => t
    end in
  File {| h_contentType := contentType;
          h_contentLength := sf_size file;
          h_lastModified := sf_lastModified file;
          h_cacheControl := "public, max-age=3600";
          h_contentTypeOptions := "nosniff";
          h_frameOptions := "SAMEORIGIN";
          h_xssProtection := "1; mode=block";
          body := sf_content file |}.

(** [app.get ('/:siteId/*')], with [param] the value of
    [c.req.param ('*')] (empty when it is undefined). *)
Definition getSitePath (now : Z) (siteId param : string) (w : World) : Response :=
  let path := match param with EmptyString => "index.html" | _ => param end in
  match getSiteMetadata now siteId w with
  | None => Html 404 (NotFoundPage "Site not found")
  | Some metadata =>
      if sm_btlExpiry metadata <? now
      then Html 404 (ExpiredPage siteId (sm_btlExpiry metadata))
      else
        match getFile now siteId path w with
        | Some file => serveFile file
        | None =>
            if String.eqb path "index.html" then
              match getFile now siteId "index.htm" w with
              | Some indexHtm => serveFile indexHtm
              | None => Html 404 (NotFoundPage "File not found")
              end
            else Html 404 (NotFoundPage "File not found")
        end
  end.

(** The subdomain middleware; [None] is [await next ()]. *)
Definition subdomainHandler (domain host reqPath : string) (now : Z) (w : World)
    : option Response :=
  if negb (String.eqb host domain) && endsWith ("." ++ domain) host then
    let siteId := removeFirst ("." ++ domain) host in
    let path := if String.eqb reqPath "/" then "/index.html" else reqPath in
    Some
      match getSiteMetadata now siteId w with
      | None => Html 404 (NotFoundPage "Site not found")
      | Some metadata =>
          if sm_btlExpiry metadata <? now
          then Html 404 (ExpiredPage siteId (sm_btlExpiry metadata))
          else
            let filePath := if JS.startsWith "/" path then JS.slice1 path else path in
            match getFile now siteId
                    (match filePath with EmptyString => "index.html" | _ => filePath end) w with
            | Some file => serveFile file
            | None =>
                if String.eqb filePath "index.html" || String.eqb filePath "" then
                  match getFile now siteId "index.htm" w with
                  | Some indexHtm => serveFile indexHtm
                  | None => Html 404 (NotFoundPage "File not found")
                  end
                else Html 404 (NotFoundPage "File not found")
            end
      end
  else None.

End Routes.

End Gateway.

(** ** GolemDBStorage (db-chain.ts) *)

Module GolemDBStorage.
Import GolemDBClient.

Definition MAX_FILE_SIZE : Z := 2 * 1024 * 1024.
Definition MAX_SITE_SIZE : Z := 50 * 1024 * 1024.
Definition DEFAULT_BTL : Z := 30 * 24 * 60 * 60.

Inductive Failure :=
| FileTooLarge (path : string)
| SiteTooLarge
| WriteFailed
| RpcFailed
| FetchRejected.

Inductive Outcome (A : Type) :=
| Returned (a : A)
| Raised (e : Failure).
Arguments Returned {A} a.
Arguments Raised {A} e.

(** The endpoint as the [k]-th [fetch] of the process finds it. *)
Record Rpc := {
  eth_sendTransaction : nat -> DBChainEntry -> Response string;
  eth_call : nat -> string -> Response (option string)
}.

(** The state is [tempStorage] (the [mirror] field) and the number of
    [fetch] calls made. *)
Section Storage.

Context {json : Json}.
Variable rpc : Rpc.

Definition writeToGolemDB (entry : DBChainEntry) (w : World) : Outcome unit * World :=
  let w' := {| mirror := mirror w; ledgerCalls := S (ledgerCalls w) |} in
  match eth_sendTransaction rpc (ledgerCalls w) entry with
  | FetchRejects => (Raised FetchRejected, w')
  | NotOk => (Raised WriteFailed, w')
  | RpcError => (Raised RpcFailed, w')
  | RpcResult _ =>
      (Returned tt, {| mirror := <[e_key entry := entry]> (mirror w);
                       ledgerCalls := S (ledgerCalls w) |})
  end.

(** Every path of the remote read gives back [tempEntry]. *)
Definition readFromGolemDB (key : string) (w : World) : option DBChainEntry * World :=
  match mirror w !! key with
  | Some tempEntry => (Some tempEntry, w)
  | None =>
      let w' := {| mirror := mirror w; ledgerCalls := S (ledgerCalls w) |} in
      match eth_call rpc (ledgerCalls w) key with
      | FetchRejects => (None, w')
      | NotOk => (None, w')
      | RpcError => (None, w')
      | RpcResult None => (None, w')
      | RpcResult (Some _) => (None, w')
      end
  end.

Definition fileEntry (siteId : string) (file : SiteFile) : DBChainEntry :=
  {| e_key := generateFileKey siteId (sf_path file);
     e_value := sf_content file;
     e_metadata :=
       {| em_contentType := sf_contentType file;
          em_path := sf_path file;
          em_siteId := siteId;
          em_size := sf_size file;
          em_lastModified := sf_lastModified file |};
     e_btl := DEFAULT_BTL |}.

Definition storeFile (siteId : string) (file : SiteFile) (w : World)
    : Outcome string * World :=
  if MAX_FILE_SIZE <? sf_size file then (Raised (FileTooLarge (sf_path file)), w)
  else
    match writeToGolemDB (fileEntry siteId file) w with
    | (Returned _, w') => (Returned (generateFileKey siteId (sf_path file)), w')
    | (Raised e, w') => (Raised e, w')
    end.

Fixpoint storeSite_files (siteId : string) (files : list SiteFile) (keys : list string)
    (w : World) : Outcome (list string) * World :=
  match files with
  | [] => (Returned keys, w)
  | file :: rest =>
      match storeFile siteId file w with
      | (Returned key, w') => storeSite_files siteId rest (keys ++ [key])%list w'
      | (Raised e, w') => (Raised e, w')
      end
  end.

Definition siteMetadata (now : Z) (siteId : string) (files : list SiteFile) : SiteMetadata :=
  {| sm_siteId := siteId;
     sm_name := siteId;
     sm_domain := siteId ++ ".webdb.site";
     sm_totalSize := sumSizes files;
     sm_fileCount := Z.of_nat (length files);
     sm_createdAt := now;
     sm_btlExpiry := now + DEFAULT_BTL * 1000 |}.

Definition metadataEntry (now : Z) (siteId : string) (metadata : SiteMetadata) : DBChainEntry :=
  {| e_key := generateMetadataKey siteId;
     e_value := TextEncoder_encode (JSON_stringify metadata);
     e_metadata :=
       {| em_contentType := "application/json";
          em_path := "_metadata";
          em_siteId := siteId;
          em_size := JS.strlen (JSON_stringify metadata);
          em_lastModified := now |};
     e_btl := DEFAULT_BTL |}.

Definition storeSite (now : Z) (siteId : string) (files : list SiteFile) (w : World)
    : Outcome SiteMetadata * World :=
  if MAX_SITE_SIZE <? sumSizes files then (Raised SiteTooLarge, w)
  else
    match storeSite_files siteId files [] w with
    | (Raised e, w') => (Raised e, w')
    | (Returned _, w') =>
        let metadata := siteMetadata now siteId files in
        match writeToGolemDB (metadataEntry now siteId metadata) w' with
        | (Returned _, w'') => (Returned metadata, w'')
        | (Raised e, w'') => (Raised e, w'')
        end
    end.

Definition getFile (now : Z) (siteId path : string) (w : World) : option SiteFile * World :=
  match readFromGolemDB (generateFileKey siteId path) w with
  | (None, w') => (None, w')
  | (Some entry, w') =>
      if isExpired entry now then (None, w')
      else (Some {| sf_path := em_path (e_metadata entry);
                    sf_content := e_value entry;
                    sf_contentType := em_contentType (e_metadata entry);
                    sf_size := em_size (e_metadata entry);
                    sf_lastModified := em_lastModified (e_metadata entry) |}, w')
  end.

Definition getSiteMetadata (now : Z) (siteId : string) (w : World)
    : option SiteMetadata * World :=
  match readFromGolemDB (generateMetadataKey siteId) w with
  | (None, w') => (None, w')
  | (Some entry, w') =>
      if isExpired entry now then (None, w')
      else (JSON_parse (TextDecoder_decode (e_value entry)), w')
  end.

End Storage.

End GolemDBStorage.

(** ** DemoStorage (db-chain.ts) *)

Module DemoStorage.

(** The state is the [demoStorage] map. *)
Section Storage.

Context {json : Json}.

Definition storeFile (now : Z) (siteId : string) (file : SiteFile)
    (m : gmap string DBChainEntry) : string * gmap string DBChainEntry :=
  let key := generateFileKey siteId (sf_path file) in
  (key, <[key := fileEntry now siteId file]> m).

Fixpoint storeSite_files (now : Z) (siteId : string) (files : list SiteFile)
    (m : gmap string DBChainEntry) : gmap string DBChainEntry :=
  match files with
  | [] => m
  | file :: rest => storeSite_files now siteId rest (snd (storeFile now siteId file m))
  end.

Definition storeSite (now : Z) (siteId : string) (files : list SiteFile)
    (m : gmap string DBChainEntry) : SiteMetadata * gmap string DBChainEntry :=
  let m1 := storeSite_files now siteId files m in
  let metadata := siteMetadata now siteId files in
  (metadata, <[generateMetadataKey siteId := metadataEntry now siteId metadata]> m1).

Definition getFile (now : Z) (siteId path : string) (m : gmap string DBChainEntry)
    : option SiteFile * gmap string DBChainEntry :=
  let key := generateFileKey siteId path in
  match m !! key with
  | None => (None, m)
  | Some entry =>
      if isExpired entry now then (None, delete key m)
      else (Some {| sf_path := em_path (e_metadata entry);
                    sf_content := e_value entry;
                    sf_contentType := em_contentType (e_metadata entry);
                    sf_size := em_size (e_metadata entry);
                    sf_lastModified := em_lastModified (e_metadata entry) |}, m)
  end.

Definition getSiteMetadata (now : Z) (siteId : string) (m : gmap string DBChainEntry)
    : option SiteMetadata * gmap string DBChainEntry :=
  let key := generateMetadataKey siteId in
  match m !! key with
  | None => (None, m)
  | Some entry =>
      if isExpired entry now then (None, delete key m)
      else (JSON_parse (TextDecoder_decode (e_value entry)), m)
  end.

End Storage.

End DemoStorage.


(** ** The files of the storage directory (db-chain.ts, [path.join])

    [storeLocally] and [readLocally] reach the file
    [join (STORAGE_DIR, key + '.json')]. [join] normalizes the path it
    builds: two keys name one file when they differ by [.], [..] or empty
    segments only. The store above is indexed by key; where a statement
    depends on two keys naming different files, it says so with
    [storageFile]. *)

Module Path.

(** [s.split ('/')] *)
Fixpoint split (s : string) : list string :=
  match s with
  | EmptyString => [EmptyString]
  | String c s' =>
      if Ascii.eqb c "/" then EmptyString :: split s'
      else match split s' with
           | seg :: rest => String c seg :: rest
           | [] => [String c EmptyString]
           end
  end.

(** [normalize] on the segments of an absolute path: empty segments and
    [.] are skipped, [..] drops the last segment kept, if there is one.
    [kept] holds the segments kept so far, last first. *)
Fixpoint resolve (kept segs : list string) : list string :=
  match segs with
  | [] => rev kept
  | seg :: rest =>
      if String.eqb seg "" || String.eqb seg "." then resolve kept rest
      else if String.eqb seg ".." then resolve (tl kept) rest
      else resolve (seg :: kept) rest
  end.

Definition STORAGE_DIR : string := "/tmp/webdb-storage".

(** [join (STORAGE_DIR, key + '.json')], as the segments of the
    normalized path. *)
Definition storageFile (key : string) : list string :=
  resolve [] (split (STORAGE_DIR ++ "/" ++ key ++ ".json")).

End Path.

(** The storage directory indexed by file, as the code has it. *)

Module Disk.

(** The files of the machine are indexed by normalized path. *)

(** [storeLocally], once [writeFile] has succeeded. *)
Definition storeLocally (key : string) (entry : DBChainEntry) (files : gmap (list string) DBChainEntry)
    : gmap (list string) DBChainEntry :=
  <[Path.storageFile key := entry]> files.

Definition readLocally (key : string) (files : gmap (list string) DBChainEntry)
    : option DBChainEntry :=
  files !! Path.storageFile key.

End Disk.


(** ** A reference instance of the environment

    A concrete codec for site metadata (any injective printer with its
    parser is a [Json]), a ledger that is down, a ledger that answers, and
    a storage directory without subdirectories. *)

Module Reference.

Fixpoint printPositive (p : positive) : string :=
  match p with
  | xH => "."
  | xO q => String "0" (printPositive q)
  | xI q => String "1" (printPositive q)
  end.

Fixpoint readPositive (s : string) : option (positive * string) :=
  match s with
  | String c r =>
      if Ascii.eqb c "." then Some (xH, r)
      else if Ascii.eqb c "0" then
        match readPositive r with Some (q, r') => Some (xO q, r') | None => None end
      else if Ascii.eqb c "1" then
        match readPositive r with Some (q, r') => Some (xI q, r') | None => None end
      else None
  | EmptyString => None
  end.

Definition printNumber (z : Z) : string :=
  match z with
  | Z0 => "z"
  | Zpos p => String "+" (printPositive p)
  | Zneg p => String "-" (printPositive p)
  end.

Definition readNumber (s : string) : option (Z * string) :=
  match s with
  | String c r =>
      if Ascii.eqb c "z" then Some (Z0, r)
      else if Ascii.eqb c "+" then
        match readPositive r with Some (p, r') => Some (Zpos p, r') | None => None end
      else if Ascii.eqb c "-" then
        match readPositive r with Some (p, r') => Some (Zneg p, r') | None => None end
      else None
  | EmptyString => None
  end.

(** A string is printed with a quote before each character and a closing
    dollar sign. *)
Fixpoint printString (s : string) : string :=
  match s with
  | EmptyString => "$"
  | String c r => String "'" (String c (printString r))
  end.

Fixpoint readString (s : string) : option (string * string) :=
  match s with
  | String c r =>
      if Ascii.eqb c "$" then Some (EmptyString, r)
      else if Ascii.eqb c "'" then
        match r with
        | String d r' =>
            match readString r' with
            | Some (v, rest) => Some (String d v, rest)
            | None => None
            end
        | EmptyString => None
        end
      else None
  | EmptyString => None
  end.

Definition stringify (m : SiteMetadata) : string :=
  printString (sm_siteId m) ++ printString (sm_name m) ++ printString (sm_domain m)
  ++ printNumber (sm_totalSize m) ++ printNumber (sm_fileCount m)
  ++ printNumber (sm_createdAt m) ++ printNumber (sm_btlExpiry m).

Definition parse (s : string) : option SiteMetadata :=
  match readString s with
  | Some (siteId, s1) =>
  match readString s1 with
  | Some (name, s2) =>
  match readString s2 with
  | Some (domain, s3) =>
  match readNumber s3 with
  | Some (totalSize, s4) =>
  match readNumber s4 with
  | Some (fileCount, s5) =>
  match readNumber s5 with
  | Some (createdAt, s6) =>
  match readNumber s6 with
  | Some (btlExpiry, EmptyString) =>
      Some {| sm_siteId := siteId; sm_name := name; sm_domain := domain;
              sm_totalSize := totalSize; sm_fileCount := fileCount;
              sm_createdAt := createdAt; sm_btlExpiry := btlExpiry |}
  | _ => None end | None => None end | None => None end | None => None end
  | None => None end | None => None end | None => None end.

Lemma readPositive_print (p : positive) (rest : string) :
  readPositive (printPositive p ++ rest) = Some (p, rest).
Proof.
  induction p as [q IH | q IH |]; simpl; try rewrite IH; reflexivity.
Qed.

Lemma readNumber_print (z : Z) (rest : string) :
  readNumber (printNumber z ++ rest) = Some (z, rest).
Proof.
  destruct z as [| p | p]; simpl; try rewrite readPositive_print; reflexivity.
Qed.

Lemma readString_print (s rest : string) :
  readString (printString s ++ rest) = Some (s, rest).
Proof.
  induction s as [| c r IH]; simpl; [reflexivity |].
  rewrite IH. reflexivity.
Qed.

Lemma app_empty_r (s : string) : s ++ "" = s.
Proof.
  induction s as [| c r IH]; [reflexivity |].
  change (String c (r ++ "") = String c r). now rewrite IH.
Qed.

Lemma parse_stringify (m : SiteMetadata) : parse (stringify m) = Some m.
Proof.
  unfold parse, stringify.
  rewrite readString_print, readString_print, readString_print.
  rewrite readNumber_print, readNumber_print, readNumber_print.
  rewrite <- (app_empty_r (printNumber (sm_btlExpiry m))), readNumber_print.
  destruct m; reflexivity.
Qed.

#[export] Instance json : Json :=
  {| JSON_stringify := stringify;
     JSON_parse := parse;
     JSON_parse_stringify := parse_stringify |}.

(** A ledger that cannot be reached. *)
Definition offline : GolemDBClient.Endpoint :=
  {| GolemDBClient.eth_getTransactionCount := fun _ => GolemDBClient.FetchRejects;
     GolemDBClient.eth_sendRawTransaction := fun _ => GolemDBClient.FetchRejects;
     GolemDBClient.eth_getTransactionReceipt := fun _ _ => GolemDBClient.FetchRejects |}.

(** A ledger that answers and confirms at the third poll. *)
Definition online : GolemDBClient.Endpoint :=
  {| GolemDBClient.eth_getTransactionCount := fun _ => GolemDBClient.RpcResult 7;
     GolemDBClient.eth_sendRawTransaction := fun _ => GolemDBClient.RpcResult "0xfeed";
     GolemDBClient.eth_getTransactionReceipt := fun i _ =>
       GolemDBClient.RpcResult
         (if Nat.ltb i 2 then None else Some {| GolemDBClient.blockNumber := 42 |}) |}.

Definition client : GolemDBClient.Client :=
  {| GolemDBClient.account := "0xA11CE";
     GolemDBClient.chainId := 60138453025;
     GolemDBClient.storageContract := "0x0000000000000000000000000000000060138453";
     GolemDBClient.defaultGasLimit := 500000;
     GolemDBClient.defaultBTL := 86400 * 100 |}.

Definition mime (path : string) : option string :=
  let extension := JS.lastDotSegment path in
  if String.eqb extension "html" then Some "text/html"
  else if String.eqb extension "css" then Some "text/css"
  else if String.eqb extension "txt" then Some "text/plain"
  else None.

(** The gateway's limits, a flat storage directory and the given ledger. *)
Definition envWith (ledger : GolemDBClient.Endpoint) : Env :=
  {| golemDB := client;
     net := fun _ => ledger;
     writeFile := fun key => negb (JS.includes "/" key);
     lookup := mime;
     maxFileSize := 2 * 1024 * 1024;
     maxSiteSize := 50 * 1024 * 1024 |}.

Definition emptyWorld : World := {| mirror := ∅; ledgerCalls := 0 |}.

Definition bytes (s : string) : list byte := list_byte_of_string s.

Definition indexHtml : RawFile :=
  {| rf_path := "index.html"; rf_content := bytes "<h1>hello</h1>" |}.

End Reference.

(** * Properties *)

(** ** Keys *)

Lemma generateFileKey_not_metadata (siteId path : string) :
  generateFileKey siteId path ≠ generateMetadataKey siteId.
Proof.
  unfold generateFileKey, generateMetadataKey. intros H.
  apply (inj (String.app "site:")) in H.
  apply (inj (String.app siteId)) in H.
  destruct (JS.startsWith "/" path); discriminate H.
Qed.

Lemma generateFileKey_normalized (siteId path : string) :
  generateFileKey siteId path =
  "site:" ++ siteId ++ ":file:" ++ (if JS.startsWith "/" path then JS.slice1 path else path).
Proof. reflexivity. Qed.

(** ** The ledger client *)

Module GolemDBClientFacts.
Import GolemDBClient.

(** [createEntity] throws exactly when the sequence number cannot be
    fetched or the submission is not answered with a transaction hash; a
    missing receipt is not a failure. *)
Lemma createEntity_throws (c : Client) (ep : Endpoint) key data btl :
  isOk (createEntity c ep key data btl) = false <->
  (forall n, eth_getTransactionCount ep (account c) <> RpcResult n) \/
  (exists n, eth_getTransactionCount ep (account c) = RpcResult n /\
             forall h, eth_sendRawTransaction ep (signTransaction c (txParams c n)) <> RpcResult h).
Proof.
  unfold createEntity, getNonce.
  destruct (eth_getTransactionCount ep (account c)) as [| | | n] eqn:Hn; simpl;
    try (split; [intros _; left; intros n; discriminate | reflexivity]).
  destruct (eth_sendRawTransaction ep _) as [| | | h] eqn:Hs; simpl.
  1-3: split; [intros _; right; exists n; split; [reflexivity | intros h; rewrite Hs; discriminate] | reflexivity].
  split; [discriminate |].
  intros [Hno | (n' & Heq & Hno)].
  - exfalso. exact (Hno n eq_refl).
  - injection Heq as <-. exfalso. exact (Hno h Hs).
Qed.

Lemma waitForTransaction_from_step (ep : Endpoint) (txHash : string) (i k : nat) :
  waitForTransaction_from ep txHash i (S k) =
  match eth_getTransactionReceipt ep i txHash with
  | RpcResult (Some r) => Some r
  | RpcResult None => waitForTransaction_from ep txHash (S i) k
  | _ =>
      if Nat.eqb i (maxRetries - 1) then None
      else waitForTransaction_from ep txHash (S i) k
  end.
Proof. reflexivity. Qed.

(** The polling loop asks for the receipt at most [maxRetries] times: it
    is a structural recursion on the attempts left. A confirmed receipt
    at the first poll is returned as it is. *)
Lemma waitForTransaction_first (ep : Endpoint) (txHash : string) (r : Receipt) :
  eth_getTransactionReceipt ep 0%nat txHash = RpcResult (Some r) ->
  waitForTransaction ep txHash = Some r.
Proof.
  intros H. unfold waitForTransaction. change maxRetries with (S 9) at 1.
  rewrite waitForTransaction_from_step, H. reflexivity.
Qed.

(** A ledger that never shows a receipt makes the loop give up with
    [null]; [createEntity] still returns the transaction hash. *)
Lemma waitForTransaction_gives_up (ep : Endpoint) (txHash : string) :
  (forall i, eth_getTransactionReceipt ep i txHash = RpcResult None) ->
  waitForTransaction ep txHash = None.
Proof.
  intros H. unfold waitForTransaction. generalize 0%nat as i.
  induction maxRetries as [| k IH]; intros i; [reflexivity |].
  rewrite waitForTransaction_from_step, H. apply IH.
Qed.

(** Without a receipt [createEntity] still returns the transaction hash
    as the entity key. *)
Lemma createEntity_without_receipt (c : Client) (ep : Endpoint) key data btl n h :
  eth_getTransactionCount ep (account c) = RpcResult n ->
  eth_sendRawTransaction ep (signTransaction c (txParams c n)) = RpcResult h ->
  (forall i, eth_getTransactionReceipt ep i h = RpcResult None) ->
  createEntity c ep key data btl
  = Ok {| entityKey := h; transactionHash := h; entityBlockNumber := None |}.
Proof.
  intros Hn Hs Hr. unfold createEntity, getNonce. rewrite Hn, Hs.
  rewrite (waitForTransaction_gives_up ep h Hr). reflexivity.
Qed.

(** The sequence number of the signed envelope is the fetched one. *)
Lemma createEntity_nonce (c : Client) (n : Z) :
  tx_nonce (signed (signTransaction c (txParams c n))) = n.
Proof. reflexivity. Qed.

End GolemDBClientFacts.

(** ** Interleaved calls of the ledger client *)

Module Interleaving.
Import GolemDBClient.

(** In a trace (newest event first), [earlier] is older than [later]. *)
Definition happensBefore (earlier later : Event) (tr : list Event) : Prop :=
  exists newer between older, tr = (newer ++ later :: between ++ earlier :: older)%list.

(** Call [i] was resumed in [history] with an endpoint that answered its
    fetch with [n]. *)
Definition fetched (c : Client) (history : list (nat * Endpoint)) (i : nat) (n : Z) : Prop :=
  exists ep, In (i, ep) history /\ getNonce c ep = Ok n.

(** What the trace and the resumptions so far hold for a call in a given
    state. *)
Definition callInv (c : Client) (history : list (nat * Endpoint)) (i : nat)
    (tr : list Event) (call : Call) : Prop :=
  match call with
  | AwaitingSignature n => In (NonceFetched i n) tr /\ fetched c history i n
  | AwaitingSend t | AwaitingReceipt t _ | Returned t _ =>
      happensBefore (NonceFetched i (tx_nonce (signed t)))
                    (Signed i (tx_nonce (signed t))) tr
      /\ fetched c history i (tx_nonce (signed t))
  | AwaitingNonce | Failed _ => True
  end.

Definition inv (c : Client) (history : list (nat * Endpoint)) (s : System) : Prop :=
  forall i call, calls s !! i = Some call -> callInv c history i (trace s) call.

Lemma happensBefore_cons (e earlier later : Event) (tr : list Event) :
  happensBefore earlier later tr -> happensBefore earlier later (e :: tr).
Proof.
  intros (newer & between & older & ->).
  exists (e :: newer), between, older. reflexivity.
Qed.

Lemma happensBefore_intro (earlier later : Event) (tr : list Event) :
  In earlier tr -> happensBefore earlier later (later :: tr).
Proof.
  intros Hin. apply in_split in Hin as (between & older & ->).
  exists [], between, older. reflexivity.
Qed.

Lemma fetched_snoc (c : Client) (history : list (nat * Endpoint)) (j : nat)
    (ep : Endpoint) (i : nat) (n : Z) :
  fetched c history i n -> fetched c (history ++ [(j, ep)]) i n.
Proof.
  intros (ep' & Hin & Hn). exists ep'. split; [| exact Hn].
  apply in_or_app. left. exact Hin.
Qed.

Lemma callInv_step (c : Client) (history : list (nat * Endpoint)) (j : nat)
    (ep : Endpoint) (e : Event) (i : nat) (tr : list Event) (call : Call) :
  callInv c history i tr call -> callInv c (history ++ [(j, ep)]) i (e :: tr) call.
Proof.
  destruct call; simpl; try tauto;
    intros [H1 H2]; (split; [| apply fetched_snoc; exact H2]).
  - right. exact H1.
  - apply happensBefore_cons. exact H1.
  - apply happensBefore_cons. exact H1.
  - apply happensBefore_cons. exact H1.
Qed.

Lemma inv_start (c : Client) (n : nat) : inv c [] (start n).
Proof.
  intros i call Hcall. unfold start in Hcall. simpl in Hcall.
  apply lookup_replicate in Hcall as [-> _]. exact I.
Qed.

(** One resumption keeps the invariant: it changes the resumed call only
    and adds one event. *)
Lemma inv_resume (c : Client) (history : list (nat * Endpoint)) (i : nat)
    (ep : Endpoint) (s s' : System) :
  inv c history s -> resume c i ep s = Some s' -> inv c (history ++ [(i, ep)]) s'.
Proof.
  intros Hinv Hres. unfold resume in Hres.
  destruct (calls s !! i) as [call |] eqn:Hi; [| discriminate].
  pose proof (Hinv i call Hi) as Hcall.
  assert (Hlt : (i < length (calls s))%nat) by (eapply lookup_lt_Some; exact Hi).
  assert (Hstep : forall (call' : Call) (e : Event),
            callInv c (history ++ [(i, ep)]) i (e :: trace s) call' ->
            inv c (history ++ [(i, ep)]) (advance i call' e s)).
  { intros call' e Hnew j callj Hj. unfold advance in Hj |- *. simpl in Hj |- *.
    destruct (decide (i = j)) as [<- | Hne].
    - rewrite list_lookup_insert_eq in Hj by exact Hlt. injection Hj as <-. exact Hnew.
    - rewrite list_lookup_insert_ne in Hj by exact Hne.
      apply callInv_step. apply Hinv. exact Hj. }
  assert (Hhere : forall n, fetched c history i n -> fetched c (history ++ [(i, ep)]) i n)
    by (intros n; apply fetched_snoc).
  destruct call as [| n | t | t h | t e | e]; try discriminate.
  - destruct (getNonce c ep) as [n | e] eqn:Hn; injection Hres as <-; apply Hstep.
    + simpl. split; [left; reflexivity |].
      exists ep. split; [apply in_or_app; right; left; reflexivity | exact Hn].
    + exact I.
  - injection Hres as <-. apply Hstep. simpl. destruct Hcall as [Hin Hf].
    split; [apply happensBefore_intro; exact Hin | apply Hhere; exact Hf].
  - destruct Hcall as [Hb Hf].
    destruct (eth_sendRawTransaction ep t); injection Hres as <-; apply Hstep;
      try exact I.
    simpl. split; [apply happensBefore_cons; exact Hb | apply Hhere; exact Hf].
  - destruct Hcall as [Hb Hf]. injection Hres as <-. apply Hstep.
    simpl. split; [apply happensBefore_cons; exact Hb | apply Hhere; exact Hf].
Qed.

Lemma inv_run (c : Client) (schedule history : list (nat * Endpoint)) (s s' : System) :
  inv c history s -> run c schedule s = Some s' -> inv c (history ++ schedule) s'.
Proof.
  revert history s. induction schedule as [| [i ep] rest IH]; intros history s Hinv; simpl.
  - intros [= <-]. rewrite app_nil_r. exact Hinv.
  - destruct (resume c i ep s) as [s1 |] eqn:Hres; [| discriminate].
    intros Hrun.
    change ((i, ep) :: rest) with ([(i, ep)] ++ rest)%list.
    rewrite app_assoc. eapply IH; [| exact Hrun].
    eapply inv_resume; eassumption.
Qed.

(** A call that no other call interleaves with, against an endpoint that
    answers the same throughout, settles to what [createEntity] returns. *)
Lemma call_alone (c : Client) (ep : Endpoint) key data btl :
  exists (k : nat) (s : System) (call : Call),
    run c (replicate k (0%nat, ep)) (start 1) = Some s
    /\ calls s !! 0%nat = Some call
    /\ outcome call = Some (createEntity c ep key data btl).
Proof.
  unfold createEntity.
  destruct (getNonce c ep) as [n | e] eqn:Hn.
  - destruct (eth_sendRawTransaction ep (signTransaction c (txParams c n)))
      as [| | | txHash] eqn:Hsend.
    + exists 3%nat. eexists. eexists. simpl. unfold resume. simpl.
      rewrite Hn. simpl. rewrite Hsend. simpl. repeat split.
    + exists 3%nat. eexists. eexists. simpl. unfold resume. simpl.
      rewrite Hn. simpl. rewrite Hsend. simpl. repeat split.
    + exists 3%nat. eexists. eexists. simpl. unfold resume. simpl.
      rewrite Hn. simpl. rewrite Hsend. simpl. repeat split.
    + exists 4%nat. eexists. eexists. simpl. unfold resume. simpl.
      rewrite Hn. simpl. rewrite Hsend. simpl. repeat split.
  - exists 1%nat. eexists. eexists. simpl. unfold resume. simpl.
    rewrite Hn. simpl. repeat split.
Qed.

(** C9, as the code has it. In every interleaving of any number of
    [createEntity] calls, whatever the endpoint answers, a call that has
    signed an envelope fetched the sequence number of that envelope before
    it signed, and that number is what the endpoint answered to one of
    its own resumptions. *)
Theorem nonce_fetched_before_signing (c : Client) (k : nat)
    (schedule : list (nat * Endpoint)) (s : System) (i : nat) (n : Z) :
  run c schedule (start k) = Some s ->
  signedNonce s i = Some n ->
  happensBefore (NonceFetched i n) (Signed i n) (trace s)
  /\ exists ep, In (i, ep) schedule /\ getNonce c ep = Ok n.
Proof.
  intros Hrun Hsigned.
  pose proof (inv_run c schedule [] _ s (inv_start c k) Hrun) as Hinv.
  unfold signedNonce in Hsigned.
  destruct (calls s !! i) as [call |] eqn:Hi; [| discriminate].
  specialize (Hinv i call Hi).
  destruct call; try discriminate; injection Hsigned as <-; exact Hinv.
Qed.

End Interleaving.

(** ** The store *)

Section StoreFacts.

Context {json : Json}.
Implicit Types (env : Env) (w : World) (now : Z) (siteId path key : string).

(** What the ledger gave for an entry at the [k]-th call: the [txHash]
    of [writeToGolemDB]. *)
Definition ledgerRef env (k : nat) (entry : DBChainEntry) : option string :=
  match GolemDBClient.createEntity (golemDB env) (net env k)
          (e_key entry) (e_value entry) (e_btl entry) with
  | Ok result => Some (GolemDBClient.entityKey result)
  | Throw _ => None
  end.

Definition written (key : string) (entry : DBChainEntry) w : World :=
  {| mirror := <[key := entry]> (mirror w); ledgerCalls := S (ledgerCalls w) |}.

Definition submitted w : World :=
  {| mirror := mirror w; ledgerCalls := S (ledgerCalls w) |}.

Lemma writeToGolemDB_eq env entry w :
  writeToGolemDB env entry w = (Ok (ledgerRef env (ledgerCalls w) entry), submitted w).
Proof.
  unfold writeToGolemDB, ledgerRef, submitted.
  destruct (GolemDBClient.createEntity _ _ _ _ _); reflexivity.
Qed.

Lemma storeFile_eq env now siteId file w :
  storeFile env now siteId file w =
  let key := generateFileKey siteId (sf_path file) in
  let entry := fileEntry now siteId file in
  if writeFile env key
  then (Ok (orString (ledgerRef env (ledgerCalls w) entry) key), written key entry w)
  else (Throw (WriteFileFailed key), submitted w).
Proof.
  unfold storeFile, bind. rewrite writeToGolemDB_eq.
  unfold storeLocally, written, submitted. simpl.
  destruct (writeFile env _); reflexivity.
Qed.

Lemma isExpired_false_iff entry now :
  isExpired entry now = false <-> (e_btl entry <= 0 \/ now / 1000 <= e_btl entry).
Proof.
  unfold isExpired. rewrite andb_false_iff, !Z.ltb_ge. reflexivity.
Qed.

Lemma isExpired_true_iff entry now :
  isExpired entry now = true <-> (0 < e_btl entry /\ e_btl entry < now / 1000).
Proof.
  unfold isExpired. rewrite andb_true_iff, !Z.ltb_lt. reflexivity.
Qed.

(** An entry written at [now] is not expired at [later] while [later] is
    within thirty days, counted in whole seconds. *)
Lemma fileEntry_not_expired now later siteId file :
  later / 1000 <= now / 1000 + 30 * 24 * 60 * 60 ->
  isExpired (fileEntry now siteId file) later = false.
Proof. intros H. apply isExpired_false_iff. right. exact H. Qed.

Lemma getFile_written now siteId path key entry w :
  key = generateFileKey siteId path ->
  getFile now siteId path (written key entry w) =
  if isExpired entry now then None
  else Some {| sf_path := em_path (e_metadata entry);
               sf_content := e_value entry;
               sf_contentType := em_contentType (e_metadata entry);
               sf_size := em_size (e_metadata entry);
               sf_lastModified := em_lastModified (e_metadata entry) |}.
Proof.
  intros ->. unfold getFile, readLocally, written. simpl.
  rewrite lookup_insert_eq. reflexivity.
Qed.

(** C1. When the ledger write fails, [storeFile] still succeeds as long as
    the local write does: it inserts the entry in the mirror and returns
    the mirror key, not a ledger reference. Whatever the ledger does, the
    only error [storeFile] can throw is the failure of the local write. *)
Theorem storeFile_ledger_failure env now siteId file w :
  let key := generateFileKey siteId (sf_path file) in
  let entry := fileEntry now siteId file in
  (forall e w', storeFile env now siteId file w = (Throw e, w') ->
     e = WriteFileFailed key /\ writeFile env key = false) /\
  (isOk (GolemDBClient.createEntity (golemDB env) (net env (ledgerCalls w))
           (e_key entry) (e_value entry) (e_btl entry)) = false ->
   writeFile env key = true ->
   storeFile env now siteId file w = (Ok key, written key entry w) /\
   mirror (written key entry w) !! key = Some entry).
Proof.
  intros key entry. rewrite storeFile_eq. cbv zeta. fold key entry. split.
  - intros e w'. destruct (writeFile env key); [discriminate |].
    intros [= <- _]. split; reflexivity.
  - intros Hledger Hwrite. rewrite Hwrite.
    unfold ledgerRef.
    destruct (GolemDBClient.createEntity _ _ _ _ _); [discriminate Hledger |].
    split; [reflexivity |].
    unfold written. simpl. apply lookup_insert_eq.
Qed.

(** *** What the loops over [storeFile] leave in the mirror *)

Definition fileKey siteId (file : SiteFile) : string :=
  generateFileKey siteId (sf_path file).

(** The world after every file of the list has been stored. *)
Fixpoint storeAll now siteId (files : list SiteFile) w : World :=
  match files with
  | [] => w
  | file :: rest =>
      storeAll now siteId rest (written (fileKey siteId file) (fileEntry now siteId file) w)
  end.

Lemma storeFile_frame env now siteId file w res w' key :
  storeFile env now siteId file w = (res, w') ->
  key <> fileKey siteId file ->
  mirror w' !! key = mirror w !! key.
Proof.
  rewrite storeFile_eq. cbv zeta. unfold fileKey.
  destruct (writeFile env _); intros [= _ <-] Hne; simpl; [| reflexivity].
  apply lookup_insert_ne. congruence.
Qed.

Lemma storeAll_frame now siteId files w key :
  Forall (fun file => fileKey siteId file <> key) files ->
  mirror (storeAll now siteId files w) !! key = mirror w !! key.
Proof.
  revert w. induction files as [| file rest IH]; intros w Hall; [reflexivity |].
  inversion Hall as [| ? ? Hne Hrest]; subst. simpl.
  rewrite IH by assumption. simpl. now apply lookup_insert_ne.
Qed.

Lemma storeAll_app now siteId pre post w :
  storeAll now siteId (pre ++ post)%list w = storeAll now siteId post (storeAll now siteId pre w).
Proof. revert w. induction pre as [| f pre IH]; intros w; simpl; [reflexivity | apply IH]. Qed.

(** The last write to a key wins. *)
Lemma storeAll_last now siteId pre file post w :
  Forall (fun later => fileKey siteId later <> fileKey siteId file) post ->
  mirror (storeAll now siteId (pre ++ file :: post)%list w) !! fileKey siteId file
  = Some (fileEntry now siteId file).
Proof.
  intros Hpost. rewrite storeAll_app. simpl.
  rewrite storeAll_frame by assumption. simpl. apply lookup_insert_eq.
Qed.

Lemma storeSite_files_world env now siteId files acc idx w r w' :
  storeSite_files env now siteId files acc idx w = (Ok r, w') ->
  w' = storeAll now siteId files w /\
  Forall (fun file => writeFile env (fileKey siteId file) = true) files.
Proof.
  revert acc idx w. induction files as [| file rest IH]; intros acc idx w; simpl.
  - intros [= _ <-]. split; [reflexivity | constructor].
  - unfold bind at 1. rewrite storeFile_eq. cbv zeta. fold (fileKey siteId file).
    destruct (writeFile env (fileKey siteId file)) eqn:Hw; [| discriminate].
    intros H. apply IH in H as [-> Hall]. split; [reflexivity | now constructor].
Qed.

Lemma storeSite_files_succeeds env now siteId files acc idx w :
  Forall (fun file => writeFile env (fileKey siteId file) = true) files ->
  exists r, storeSite_files env now siteId files acc idx w = (Ok r, storeAll now siteId files w).
Proof.
  revert acc idx w. induction files as [| file rest IH]; intros acc idx w Hall; simpl.
  - eexists. reflexivity.
  - inversion Hall as [| ? ? Hw Hrest]; subst.
    unfold bind at 1. rewrite storeFile_eq. cbv zeta. fold (fileKey siteId file).
    rewrite Hw. apply IH. assumption.
Qed.

Lemma storeSite_files_frame env now siteId files acc idx w res w' key :
  storeSite_files env now siteId files acc idx w = (res, w') ->
  Forall (fun file => fileKey siteId file <> key) files ->
  mirror w' !! key = mirror w !! key.
Proof.
  revert acc idx w. induction files as [| file rest IH]; intros acc idx w; simpl.
  - intros [= _ <-] _. reflexivity.
  - intros H Hall. inversion Hall as [| ? ? Hne Hrest]; subst.
    unfold bind at 1 in H.
    destruct (storeFile env now siteId file w) as [[txHash | e] w1] eqn:Hstore.
    + apply IH in H; [| assumption]. rewrite H.
      eapply storeFile_frame; [exact Hstore | congruence].
    + injection H as _ <-. eapply storeFile_frame; [exact Hstore | congruence].
Qed.

Lemma uploadFiles_store_world env now siteId files keys w r w' :
  uploadFiles_store env now siteId files keys w = (Ok r, w') ->
  w' = storeAll now siteId files w.
Proof.
  revert keys w. induction files as [| file rest IH]; intros keys w; simpl.
  - intros [= _ <-]. reflexivity.
  - unfold bind at 1. rewrite storeFile_eq. cbv zeta. fold (fileKey siteId file).
    destruct (writeFile env (fileKey siteId file)); [| discriminate].
    intros H. now apply IH in H.
Qed.

Lemma uploadFiles_store_succeeds env now siteId files keys w :
  Forall (fun file => writeFile env (fileKey siteId file) = true) files ->
  exists r, uploadFiles_store env now siteId files keys w = (Ok r, storeAll now siteId files w).
Proof.
  revert keys w. induction files as [| file rest IH]; intros keys w Hall; simpl.
  - eexists. reflexivity.
  - inversion Hall as [| ? ? Hw Hrest]; subst.
    unfold bind at 1. rewrite storeFile_eq. cbv zeta. fold (fileKey siteId file).
    rewrite Hw. apply IH. assumption.
Qed.

Lemma uploadFiles_store_frame env now siteId files keys w res w' key :
  uploadFiles_store env now siteId files keys w = (res, w') ->
  Forall (fun file => fileKey siteId file <> key) files ->
  mirror w' !! key = mirror w !! key.
Proof.
  revert keys w. induction files as [| file rest IH]; intros keys w; simpl.
  - intros [= _ <-] _. reflexivity.
  - intros H Hall. inversion Hall as [| ? ? Hne Hrest]; subst.
    unfold bind at 1 in H.
    destruct (storeFile env now siteId file w) as [[txHash | e] w1] eqn:Hstore.
    + apply IH in H; [| assumption]. rewrite H.
      eapply storeFile_frame; [exact Hstore | congruence].
    + injection H as _ <-. eapply storeFile_frame; [exact Hstore | congruence].
Qed.

Lemma storeSite_eq env now siteId files w :
  storeSite env now siteId files w =
  match storeSite_files env now siteId files [] None w with
  | (Ok r, w1) =>
      let metadata := siteMetadata now siteId files in
      let entry := metadataEntry now siteId metadata in
      if writeFile env (generateMetadataKey siteId)
      then (Ok {| ss_metadata := metadata; ss_files := fst r; ss_indexTxHash := snd r |},
            written (generateMetadataKey siteId) entry w1)
      else (Throw (WriteFileFailed (generateMetadataKey siteId)), submitted w1)
  | (Throw e, w1) => (Throw e, w1)
  end.
Proof.
  unfold storeSite, bind at 1.
  destruct (storeSite_files env now siteId files [] None w) as [[r | e] w1]; [| reflexivity].
  unfold bind. rewrite writeToGolemDB_eq.
  unfold storeLocally, written, submitted. simpl.
  destruct (writeFile env _); reflexivity.
Qed.

Lemma getSiteMetadata_written now later siteId metadata w :
  later / 1000 <= now / 1000 + 30 * 24 * 60 * 60 ->
  getSiteMetadata later siteId
    (written (generateMetadataKey siteId) (metadataEntry now siteId metadata) w)
  = Some metadata.
Proof.
  intros Hlater. unfold getSiteMetadata, readLocally, written. simpl.
  rewrite lookup_insert_eq.
  replace (isExpired _ later) with false
    by (symmetry; apply isExpired_false_iff; right; exact Hlater).
  simpl. unfold TextDecoder_decode, TextEncoder_encode.
  rewrite string_of_list_byte_of_string. apply JSON_parse_stringify.
Qed.

Lemma sumSizes_from (files : list SiteFile) (start : Z) :
  fold_left (fun sum file => sum + sf_size file) files start = start + sumSizes files.
Proof.
  unfold sumSizes. revert start. induction files as [| f rest IH]; intros start; simpl.
  - lia.
  - rewrite IH, (IH (0 + sf_size f)). lia.
Qed.

Lemma sumSizes_cons (file : SiteFile) (rest : list SiteFile) :
  sumSizes (file :: rest) = sf_size file + sumSizes rest.
Proof. unfold sumSizes at 1. simpl. rewrite sumSizes_from. lia. Qed.

(** What [storeSite] records is what [getSiteMetadata] reads back. *)
Lemma storeSite_then_getSiteMetadata env now later siteId (sfs : list SiteFile) w r w' :
  storeSite env now siteId sfs w = (Ok r, w') ->
  later / 1000 <= now / 1000 + 30 * 24 * 60 * 60 ->
  getSiteMetadata later siteId w' = Some (ss_metadata r)
  /\ sm_fileCount (ss_metadata r) = Z.of_nat (length sfs)
  /\ sm_totalSize (ss_metadata r) = sumSizes sfs.
Proof.
  rewrite storeSite_eq.
  destruct (storeSite_files env now siteId sfs [] None w) as [[r1 | e1] w1]; [| discriminate].
  cbv zeta. destruct (writeFile env _); [| discriminate].
  intros [= <- <-] Hlater. simpl.
  split; [apply getSiteMetadata_written; exact Hlater | split; reflexivity].
Qed.

End StoreFacts.

(** ** The upload coordinator *)

Section UploaderFacts.

Context {json : Json}.
Implicit Types (env : Env) (w : World) (now : Z) (siteId : string).
Implicit Types (files : list RawFile) (f : RawFile).

(** *** The words of the specification *)

Definition rawSize f : Z := Z.of_nat (length (rf_content f)).

Definition totalBytes files : Z :=
  fold_right (fun f total => rawSize f + total) 0 files.

(** The normalized path is refused by [processFile]. *)
Definition badPath (p : string) : bool :=
  let path := normalizePath p in
  JS.includes ".." path || JS.includes "//" path || (JS.strlen path =? 0).

Definition isEntryPoint (p : string) : Prop :=
  normalizePath p = "index.html" \/ normalizePath p = "index.htm".

(** The [SiteFile] that [processFile] makes of an accepted file. *)
Definition processed env now f : SiteFile :=
  {| sf_path := normalizePath (rf_path f);
     sf_content := rf_content f;
     sf_contentType :=
       orString (lookup env (normalizePath (rf_path f))) "application/octet-stream";
     sf_size := rawSize f;
     sf_lastModified := now |}.

(** The size [uploadFiles] subtracts for a path: the recorded size of the
    unexpired entry at that path, if there is one. *)
Definition existingSize now siteId w (path : string) : Z :=
  match getFile now siteId path w with
  | Some existingFile => sf_size existingFile
  | None => 0
  end.

(** A batch that the first loop of [uploadSite] or its structure check
    refuses on a path, a size, the total or the entry point. *)
Definition failsValidation env files : Prop :=
  Exists (fun f => badPath (rf_path f) = true) files
  \/ Exists (fun f => maxFileSize env < rawSize f) files
  \/ maxSiteSize env < totalBytes files
  \/ Forall (fun f => ~ isEntryPoint (rf_path f)) files.

Definition validBatch env files : Prop :=
  Forall (fun f => badPath (rf_path f) = false /\ rawSize f <= maxFileSize env) files
  /\ totalBytes files <= maxSiteSize env
  /\ Exists (fun f => isEntryPoint (rf_path f)) files
  /\ Forall (fun f => suspiciousPath (normalizePath (rf_path f)) = false
                      /\ forbiddenHiddenPath (normalizePath (rf_path f)) = false) files.

(** *** [processFile] *)

Lemma processFile_good env now f :
  badPath (rf_path f) = false -> processFile env now f = Ok (processed env now f).
Proof.
  unfold badPath, processFile. cbv zeta. intros H.
  apply orb_false_iff in H as [H1 H2]. rewrite H1, H2. reflexivity.
Qed.

Lemma processFile_bad env now f :
  badPath (rf_path f) = true -> exists e, processFile env now f = Throw e.
Proof.
  unfold badPath, processFile. cbv zeta. intros H.
  destruct (JS.includes ".." _ || JS.includes "//" _); [eexists; reflexivity |].
  simpl in H. rewrite H. eexists; reflexivity.
Qed.

Lemma processFile_inv env now f file :
  processFile env now f = Ok file ->
  badPath (rf_path f) = false /\ file = processed env now f.
Proof.
  intros H. destruct (badPath (rf_path f)) eqn:Hbad.
  - destruct (processFile_bad env now f Hbad) as [e He]. congruence.
  - rewrite (processFile_good env now f Hbad) in H. split; congruence.
Qed.

Lemma totalBytes_nonneg files : 0 <= totalBytes files.
Proof. induction files as [| f rest IH]; simpl; unfold rawSize; lia. Qed.

Lemma sumSizes_processed env now files :
  sumSizes (map (processed env now) files) = totalBytes files.
Proof.
  induction files as [| f rest IH]; [reflexivity |].
  simpl map. rewrite sumSizes_cons, IH. reflexivity.
Qed.

(** *** The first loop of [uploadSite] *)

Lemma uploadSite_files_inv env now files acc total sfs t :
  uploadSite_files env now files acc total = Ok (sfs, t) ->
  sfs = (acc ++ map (processed env now) files)%list
  /\ t = total + totalBytes files
  /\ Forall (fun f => badPath (rf_path f) = false /\ rawSize f <= maxFileSize env) files
  /\ (files <> [] -> t <= maxSiteSize env).
Proof.
  revert acc total. induction files as [| f rest IH]; intros acc total; simpl.
  - intros [= <- <-]. rewrite app_nil_r. repeat split; [lia | constructor | congruence].
  - destruct (processFile env now f) as [file | e] eqn:Hp; [| discriminate].
    apply processFile_inv in Hp as [Hbad ->]. simpl.
    destruct (maxFileSize env <? rawSize f) eqn:Hfile; [discriminate |].
    destruct (maxSiteSize env <? total + rawSize f) eqn:Hsite; [discriminate |].
    apply Z.ltb_ge in Hfile, Hsite.
    intros H. apply IH in H as (-> & -> & Hall & Hmax).
    rewrite <- app_assoc. repeat split; [lia | constructor; auto |].
    intros _. destruct rest as [| g rest']; [simpl; lia |].
    apply Hmax. discriminate.
Qed.

Lemma uploadSite_files_complete env now files acc total :
  Forall (fun f => badPath (rf_path f) = false /\ rawSize f <= maxFileSize env) files ->
  total + totalBytes files <= maxSiteSize env ->
  uploadSite_files env now files acc total
  = Ok ((acc ++ map (processed env now) files)%list, total + totalBytes files).
Proof.
  revert acc total. induction files as [| f rest IH]; intros acc total Hall Hmax; simpl.
  - rewrite app_nil_r. do 2 f_equal. lia.
  - inversion Hall as [| ? ? [Hbad Hsize] Hrest]; subst.
    rewrite (processFile_good env now f Hbad). simpl in Hmax |- *.
    pose proof (totalBytes_nonneg rest) as Hnn.
    replace (maxFileSize env <? rawSize f) with false by (symmetry; apply Z.ltb_ge; lia).
    replace (maxSiteSize env <? total + rawSize f) with false
      by (symmetry; apply Z.ltb_ge; lia).
    rewrite IH by (assumption || lia).
    rewrite <- app_assoc. simpl. do 2 f_equal. lia.
Qed.

(** *** [validateSiteStructure] *)

Lemma find_none_Forall {A} (p : A -> bool) (l : list A) :
  find p l = None <-> Forall (fun x => p x = false) l.
Proof.
  induction l as [| x l IH]; simpl.
  - split; [constructor | reflexivity].
  - destruct (p x) eqn:Hp.
    + split; [discriminate |]. intros H. inversion H; congruence.
    + rewrite IH. split; [now constructor | intros H; now inversion H].
Qed.

Lemma existsb_path env now (name : string) files :
  existsb (fun file => String.eqb (sf_path file) name) (map (processed env now) files) = true
  <-> Exists (fun f => normalizePath (rf_path f) = name) files.
Proof.
  induction files as [| f rest IH]; simpl.
  - split; [discriminate | intros H; inversion H].
  - rewrite orb_true_iff, IH, String.eqb_eq. split.
    + intros [H | H]; [now left | now right].
    + intros H. inversion H; subst; [now left | now right].
Qed.

Lemma validateSiteStructure_no_entry env now files :
  Forall (fun f => ~ isEntryPoint (rf_path f)) files ->
  validateSiteStructure (map (processed env now) files) = Throw MissingIndexFile.
Proof.
  intros Hall. unfold validateSiteStructure. cbv zeta.
  assert (Hhtml : existsb (fun file => String.eqb (sf_path file) "index.html")
                    (map (processed env now) files) = false).
  { apply not_true_is_false. rewrite existsb_path. intros Hex.
    apply Exists_exists in Hex as (f & Hin & Hf).
    rewrite Forall_forall in Hall. apply (Hall f Hin). now left. }
  assert (Hhtm : existsb (fun file => String.eqb (sf_path file) "index.htm")
                   (map (processed env now) files) = false).
  { apply not_true_is_false. rewrite existsb_path. intros Hex.
    apply Exists_exists in Hex as (f & Hin & Hf).
    rewrite Forall_forall in Hall. apply (Hall f Hin). now right. }
  rewrite Hhtml, Hhtm. reflexivity.
Qed.

Lemma validateSiteStructure_valid env now files :
  Exists (fun f => isEntryPoint (rf_path f)) files ->
  Forall (fun f => suspiciousPath (normalizePath (rf_path f)) = false
                   /\ forbiddenHiddenPath (normalizePath (rf_path f)) = false) files ->
  validateSiteStructure (map (processed env now) files) = Ok tt.
Proof.
  intros Hentry Hclean. unfold validateSiteStructure. cbv zeta.
  assert (Hindex : existsb (fun file => String.eqb (sf_path file) "index.html")
                     (map (processed env now) files) = true
                   \/ existsb (fun file => String.eqb (sf_path file) "index.htm")
                        (map (processed env now) files) = true).
  { rewrite !existsb_path. apply Exists_exists in Hentry as (f & Hin & [Hf | Hf]);
      [left | right]; apply Exists_exists; exists f; split; assumption. }
  replace (negb _ && negb _) with false
    by (destruct Hindex as [-> | ->]; simpl; [reflexivity | symmetry; apply andb_false_r]).
  replace (find isSuspicious _) with (@None SiteFile).
  2:{ symmetry. apply find_none_Forall. apply List.Forall_map.
      eapply List.Forall_impl; [| exact Hclean]. intros f [H _]. exact H. }
  replace (find isForbiddenHidden _) with (@None SiteFile).
  2:{ symmetry. apply find_none_Forall. apply List.Forall_map.
      eapply List.Forall_impl; [| exact Hclean]. intros f [_ H]. exact H. }
  reflexivity.
Qed.

(** A denied extension or a forbidden hidden file makes the structure
    check throw. *)
Lemma validateSiteStructure_denies (siteFiles : list SiteFile) :
  Exists (fun file => isSuspicious file = true \/ isForbiddenHidden file = true) siteFiles ->
  exists e, validateSiteStructure siteFiles = Throw e.
Proof.
  intros Hex. unfold validateSiteStructure. cbv zeta.
  destruct (negb _ && negb _); [eexists; reflexivity |].
  destruct (find isSuspicious siteFiles) eqn:Hs; [eexists; reflexivity |].
  destruct (find isForbiddenHidden siteFiles) eqn:Hh; [eexists; reflexivity |].
  exfalso. apply find_none_Forall in Hs, Hh.
  apply Exists_exists in Hex as (file & Hin & Hfile).
  rewrite Forall_forall in Hs, Hh.
  specialize (Hs file Hin). specialize (Hh file Hin).
  destruct Hfile; congruence.
Qed.

(** *** The first loop of [uploadFiles] *)

Lemma uploadFiles_files_inv env now siteId w files acc total sfs t :
  uploadFiles_files env now siteId w files acc total = Ok (sfs, t) ->
  sfs = (acc ++ map (processed env now) files)%list
  /\ t = fold_left (fun total f =>
                      total - existingSize now siteId w (normalizePath (rf_path f)) + rawSize f)
           files total
  /\ Forall (fun f => badPath (rf_path f) = false /\ rawSize f <= maxFileSize env) files.
Proof.
  revert acc total. induction files as [| f rest IH]; intros acc total; simpl.
  - intros [= <- <-]. rewrite app_nil_r. repeat split. constructor.
  - destruct (processFile env now f) as [file | e] eqn:Hp; [| discriminate].
    apply processFile_inv in Hp as [Hbad ->]. simpl.
    destruct (maxFileSize env <? rawSize f) eqn:Hfile; [discriminate |].
    apply Z.ltb_ge in Hfile.
    assert (Htotal :
      match getFile now siteId (normalizePath (rf_path f)) w with
      | Some existingFile => total - sf_size existingFile
      | None => total
      end = total - existingSize now siteId w (normalizePath (rf_path f))).
    { unfold existingSize. destruct (getFile _ _ _ _); lia. }
    rewrite Htotal.
    destruct (maxSiteSize env <? _); [discriminate |].
    intros H. apply IH in H as (-> & -> & Hall).
    rewrite <- app_assoc. repeat split. constructor; auto.
Qed.

(** *** Only a failed local write throws once the writes have begun *)

Lemma storeSite_files_throw env now siteId sfs acc idx w e w' :
  storeSite_files env now siteId sfs acc idx w = (Throw e, w') ->
  exists key, e = WriteFileFailed key.
Proof.
  revert acc idx w. induction sfs as [| file rest IH]; intros acc idx w; simpl.
  - discriminate.
  - unfold bind at 1. rewrite storeFile_eq. cbv zeta.
    destruct (writeFile env _).
    + apply IH.
    + intros [= <- _]. eexists; reflexivity.
Qed.

Lemma uploadFiles_store_throw env now siteId sfs keys w e w' :
  uploadFiles_store env now siteId sfs keys w = (Throw e, w') ->
  exists key, e = WriteFileFailed key.
Proof.
  revert keys w. induction sfs as [| file rest IH]; intros keys w; simpl.
  - discriminate.
  - unfold bind at 1. rewrite storeFile_eq. cbv zeta.
    destruct (writeFile env _).
    + apply IH.
    + intros [= <- _]. eexists; reflexivity.
Qed.

Lemma storeSite_throw env now siteId sfs w e w' :
  storeSite env now siteId sfs w = (Throw e, w') ->
  exists key, e = WriteFileFailed key.
Proof.
  rewrite storeSite_eq.
  destruct (storeSite_files env now siteId sfs [] None w) as [[r | e1] w1] eqn:Hfiles.
  - cbv zeta. destruct (writeFile env _); [discriminate |].
    intros [= <- _]. eexists; reflexivity.
  - intros [= <- _]. eapply storeSite_files_throw. exact Hfiles.
Qed.

(** A throw of [uploadSite] that is not a failed local write comes before
    the first write. *)
Lemma uploadSite_throw_frame env now siteId files w e w' :
  uploadSite env now siteId files w = (Throw e, w') ->
  (forall key, e <> WriteFileFailed key) ->
  w' = w.
Proof.
  unfold uploadSite.
  destruct (negb (uploadSchema siteId files)); [intros [= _ <-]; reflexivity |].
  destruct (getSiteMetadata now siteId w); [intros [= _ <-]; reflexivity |].
  destruct (uploadSite_files env now files [] 0) as [[sfs t] | e1]; [| intros [= _ <-]; reflexivity].
  destruct (validateSiteStructure sfs); [| intros [= _ <-]; reflexivity].
  unfold bind.
  destruct (storeSite env now siteId sfs w) as [[r | e1] w1] eqn:Hstore; [discriminate |].
  intros [= <- _] Hne. apply storeSite_throw in Hstore as [key ->].
  exfalso. exact (Hne key eq_refl).
Qed.

Lemma uploadFiles_throw_frame env now siteId files w e w' :
  uploadFiles env now siteId files w = (Throw e, w') ->
  (forall key, e <> WriteFileFailed key) ->
  w' = w.
Proof.
  unfold uploadFiles.
  destruct (getSiteMetadata now siteId w) as [metadata |]; [| intros [= _ <-]; reflexivity].
  destruct (sm_btlExpiry metadata <? now); [intros [= _ <-]; reflexivity |].
  destruct (uploadFiles_files env now siteId w files [] (sm_totalSize metadata))
    as [[sfs t] | e1]; [| intros [= _ <-]; reflexivity].
  unfold bind.
  destruct (uploadFiles_store env now siteId sfs [] w) as [[r | e1] w1] eqn:Hstore;
    [discriminate |].
  intros [= <- _] Hne. apply uploadFiles_store_throw in Hstore as [key ->].
  exfalso. exact (Hne key eq_refl).
Qed.

(** *** Rejected batches *)

Lemma uploadSite_rejects env now siteId files w :
  failsValidation env files ->
  exists e, uploadSite env now siteId files w = (Throw e, w).
Proof.
  intros Hfail. unfold uploadSite.
  destruct (negb (uploadSchema siteId files)); [eexists; reflexivity |].
  destruct (getSiteMetadata now siteId w); [eexists; reflexivity |].
  destruct (uploadSite_files env now files [] 0) as [[sfs t] | e1] eqn:Hloop;
    [| eexists; reflexivity].
  apply uploadSite_files_inv in Hloop as (-> & -> & Hall & Hmax). simpl.
  assert (Hthrow : exists e, validateSiteStructure (map (processed env now) files) = Throw e).
  { rewrite Forall_forall in Hall.
    destruct Hfail as [Hbad | [Hbig | [Htotal | Hentry]]].
    - apply Exists_exists in Hbad as (f & Hin & Hf).
      destruct (Hall f Hin) as [Hgood _]. congruence.
    - apply Exists_exists in Hbig as (f & Hin & Hf).
      destruct (Hall f Hin) as [_ Hsmall]. lia.
    - destruct files as [| f rest]; [eexists; reflexivity |].
      assert (f :: rest <> []) as Hne by discriminate.
      specialize (Hmax Hne). lia.
    - eexists. apply validateSiteStructure_no_entry. exact Hentry. }
  destruct Hthrow as [e ->]. eexists; reflexivity.
Qed.

Lemma uploadFiles_rejects env now siteId files w :
  Exists (fun f => badPath (rf_path f) = true) files
  \/ Exists (fun f => maxFileSize env < rawSize f) files ->
  exists e, uploadFiles env now siteId files w = (Throw e, w).
Proof.
  intros Hfail. unfold uploadFiles.
  destruct (getSiteMetadata now siteId w) as [metadata |]; [| eexists; reflexivity].
  destruct (sm_btlExpiry metadata <? now); [eexists; reflexivity |].
  destruct (uploadFiles_files env now siteId w files [] (sm_totalSize metadata))
    as [[sfs t] | e1] eqn:Hloop; [| eexists; reflexivity].
  exfalso. apply uploadFiles_files_inv in Hloop as (_ & _ & Hall).
  rewrite Forall_forall in Hall.
  destruct Hfail as [Hbad | Hbig].
  - apply Exists_exists in Hbad as (f & Hin & Hf).
    destruct (Hall f Hin) as [Hgood _]. congruence.
  - apply Exists_exists in Hbig as (f & Hin & Hf).
    destruct (Hall f Hin) as [_ Hsmall]. lia.
Qed.

(** The running total of [uploadFiles] after each file of the batch is
    within the site limit when its first loop completes. *)
Lemma uploadFiles_files_within env now siteId w files acc total sfs t :
  uploadFiles_files env now siteId w files acc total = Ok (sfs, t) ->
  forall pre f post,
    files = (pre ++ f :: post)%list ->
    fold_left (fun total g =>
                 total - existingSize now siteId w (normalizePath (rf_path g)) + rawSize g)
      (pre ++ [f])%list total <= maxSiteSize env.
Proof.
  revert acc total. induction files as [| g rest IH]; intros acc total Hloop pre f post Hsplit.
  - destruct pre; discriminate Hsplit.
  - simpl in Hloop.
    destruct (processFile env now g) as [file | e] eqn:Hp; [| discriminate].
    apply processFile_inv in Hp as [_ ->]. simpl in Hloop.
    destruct (maxFileSize env <? rawSize g); [discriminate |].
    assert (Htotal :
      match getFile now siteId (normalizePath (rf_path g)) w with
      | Some existingFile => total - sf_size existingFile
      | None => total
      end = total - existingSize now siteId w (normalizePath (rf_path g))).
    { unfold existingSize. destruct (getFile _ _ _ _); lia. }
    rewrite Htotal in Hloop.
    destruct (maxSiteSize env <? _) eqn:Hsite; [discriminate |].
    apply Z.ltb_ge in Hsite.
    destruct pre as [| g' pre].
    + injection Hsplit as <- _. simpl. exact Hsite.
    + injection Hsplit as <- ->. simpl. eapply IH; [exact Hloop | reflexivity].
Qed.

(** And the first loop completes when every file passes the path and
    size checks and the running total stays within the site limit. *)
Lemma uploadFiles_files_complete env now siteId w files acc total :
  Forall (fun f => badPath (rf_path f) = false /\ rawSize f <= maxFileSize env) files ->
  (forall pre f post,
     files = (pre ++ f :: post)%list ->
     fold_left (fun total g =>
                  total - existingSize now siteId w (normalizePath (rf_path g)) + rawSize g)
       (pre ++ [f])%list total <= maxSiteSize env) ->
  uploadFiles_files env now siteId w files acc total
  = Ok ((acc ++ map (processed env now) files)%list,
        fold_left (fun total f =>
                     total - existingSize now siteId w (normalizePath (rf_path f)) + rawSize f)
          files total).
Proof.
  revert acc total. induction files as [| g rest IH]; intros acc total Hall Hwithin.
  - simpl. rewrite app_nil_r. reflexivity.
  - apply Forall_cons_1 in Hall as [[Hbad Hsmall] Hall].
    simpl. rewrite (processFile_good env now g Hbad). simpl.
    fold (rawSize g).
    replace (maxFileSize env <? rawSize g) with false by (symmetry; apply Z.ltb_ge; exact Hsmall).
    assert (Htotal :
      match getFile now siteId (normalizePath (rf_path g)) w with
      | Some existingFile => total - sf_size existingFile
      | None => total
      end = total - existingSize now siteId w (normalizePath (rf_path g))).
    { unfold existingSize. destruct (getFile _ _ _ _); lia. }
    rewrite Htotal.
    pose proof (Hwithin [] g rest eq_refl) as Hfirst. simpl in Hfirst.
    replace (maxSiteSize env <? _) with false by (symmetry; apply Z.ltb_ge; exact Hfirst).
    rewrite IH.
    + rewrite <- app_assoc. reflexivity.
    + exact Hall.
    + intros pre f post ->. apply (Hwithin (g :: pre) f post). reflexivity.
Qed.

Lemma uploadFiles_rejects_total env now siteId files w metadata pre f post :
  getSiteMetadata now siteId w = Some metadata ->
  files = (pre ++ f :: post)%list ->
  maxSiteSize env <
    fold_left (fun total g =>
                 total - existingSize now siteId w (normalizePath (rf_path g)) + rawSize g)
      (pre ++ [f])%list (sm_totalSize metadata) ->
  exists e, uploadFiles env now siteId files w = (Throw e, w).
Proof.
  intros Hmeta Hsplit Hover. unfold uploadFiles. rewrite Hmeta.
  destruct (sm_btlExpiry metadata <? now); [eexists; reflexivity |].
  destruct (uploadFiles_files env now siteId w files [] (sm_totalSize metadata))
    as [[sfs t] | e1] eqn:Hloop; [| eexists; reflexivity].
  exfalso.
  pose proof (uploadFiles_files_within _ _ _ _ _ _ _ _ _ Hloop pre f post Hsplit). lia.
Qed.

(** C2, as the code has it. A batch with a file whose normalized path
    contains [..] or [//] or is empty, with a file over the per-file
    limit, with a total over the site limit, or without an entry point, is
    refused by [uploadSite] before any write: it throws and the world is
    the one it started from, so every [getFile] answers as before. The
    path and per-file checks do the same for [uploadFiles], and so does
    its running total: when the total it keeps (the recorded total of the
    site, less the size found at each path, plus each new size) passes
    the site limit after some file of the batch, it throws and the world
    is the one it started from. *)
Theorem rejected_batch_writes_nothing env now siteId files w :
  (failsValidation env files ->
   (exists e, uploadSite env now siteId files w = (Throw e, w))
   /\ (forall w' later path,
         w' = snd (uploadSite env now siteId files w) ->
         getFile later siteId path w' = getFile later siteId path w))
  /\ (Exists (fun f => badPath (rf_path f) = true) files
      \/ Exists (fun f => maxFileSize env < rawSize f) files ->
      exists e, uploadFiles env now siteId files w = (Throw e, w))
  /\ (forall metadata pre f post,
        getSiteMetadata now siteId w = Some metadata ->
        files = (pre ++ f :: post)%list ->
        maxSiteSize env <
          fold_left (fun total g =>
                       total - existingSize now siteId w (normalizePath (rf_path g))
                       + rawSize g)
            (pre ++ [f])%list (sm_totalSize metadata) ->
        exists e, uploadFiles env now siteId files w = (Throw e, w)).
Proof.
  split; [| split].
  - intros Hfail. destruct (uploadSite_rejects env now siteId files w Hfail) as [e He].
    split; [exists e; exact He |].
    intros w' later path ->. rewrite He. reflexivity.
  - apply uploadFiles_rejects.
  - intros metadata pre f post. apply uploadFiles_rejects_total.
Qed.

(** C3, as the code has it. When the metadata of [siteId] is there and
    unexpired, [uploadSite] throws and leaves the world as it was: the
    error is the existing site when the request passes the schema, and
    the invalid upload otherwise. *)
Theorem uploadSite_existing_site env now siteId files w metadata :
  getSiteMetadata now siteId w = Some metadata ->
  exists e, uploadSite env now siteId files w = (Throw e, w)
    /\ (uploadSchema siteId files = true -> e = SiteAlreadyExists siteId)
    /\ (uploadSchema siteId files = false -> e = InvalidUploadData).
Proof.
  intros Hmeta. unfold uploadSite. rewrite Hmeta.
  destruct (uploadSchema siteId files); simpl; eexists; (split; [reflexivity |]);
    split; congruence.
Qed.

(** A valid batch with an entry point, uploaded to a free site
    identifier, is stored when the file of each of its keys and of the
    metadata key can be written, and the metadata read back then counts
    the files of the batch and sums their byte lengths. *)
Theorem uploadSite_then_getSiteMetadata env now later siteId files w :
  uploadSchema siteId files = true ->
  getSiteMetadata now siteId w = None ->
  validBatch env files ->
  Forall (fun f => writeFile env (generateFileKey siteId (normalizePath (rf_path f))) = true)
    files ->
  writeFile env (generateMetadataKey siteId) = true ->
  later / 1000 <= now / 1000 + 30 * 24 * 60 * 60 ->
  exists r w' metadata,
    uploadSite env now siteId files w = (Ok r, w')
    /\ getSiteMetadata later siteId w' = Some metadata
    /\ sm_fileCount metadata = Z.of_nat (length files)
    /\ sm_totalSize metadata = totalBytes files
    /\ ur_totalSize r = totalBytes files.
Proof.
  intros Hschema Hfree (Hgood & Htotal & Hentry & Hclean) Hwritable Hmeta Hlater.
  unfold uploadSite. rewrite Hschema, Hfree. simpl.
  rewrite uploadSite_files_complete by (assumption || lia). simpl.
  rewrite validateSiteStructure_valid by assumption.
  unfold bind. rewrite storeSite_eq.
  destruct (storeSite_files_succeeds env now siteId (map (processed env now) files) [] None w)
    as [r Hr].
  { apply List.Forall_map. exact Hwritable. }
  rewrite Hr. cbv zeta. rewrite Hmeta. unfold ret.
  do 3 eexists. split; [reflexivity |].
  split; [apply getSiteMetadata_written; exact Hlater |].
  simpl. rewrite length_map, sumSizes_processed. repeat split.
Qed.

(** What a successful [uploadFiles] found and did. *)
Lemma uploadFiles_ok_inv env now siteId files w r w' :
  uploadFiles env now siteId files w = (Ok r, w') ->
  exists metadata,
    getSiteMetadata now siteId w = Some metadata
    /\ now <= sm_btlExpiry metadata
    /\ ur_totalSize r =
       fold_left (fun total f =>
                    total - existingSize now siteId w (normalizePath (rf_path f)) + rawSize f)
         files (sm_totalSize metadata)
    /\ w' = storeAll now siteId (map (processed env now) files) w.
Proof.
  unfold uploadFiles.
  destruct (getSiteMetadata now siteId w) as [metadata |]; [| discriminate].
  destruct (sm_btlExpiry metadata <? now) eqn:Hexp; [discriminate |].
  apply Z.ltb_ge in Hexp.
  destruct (uploadFiles_files env now siteId w files [] (sm_totalSize metadata))
    as [[sfs t] | e1] eqn:Hloop; [| discriminate].
  apply uploadFiles_files_inv in Hloop as (-> & -> & _). simpl.
  unfold bind.
  destruct (uploadFiles_store env now siteId _ [] w) as [[keys | e1] w1] eqn:Hstore;
    [| discriminate].
  apply uploadFiles_store_world in Hstore as ->.
  intros [= <- <-]. exists metadata. repeat split. exact Hexp.
Qed.

(** The total that [uploadFiles] returns starts from the recorded total
    of the site and, file by file, subtracts the size found at the path
    in the store as it was before the call and adds the size of the new
    content. *)
Lemma uploadFiles_totalSize env now siteId files w r w' :
  uploadFiles env now siteId files w = (Ok r, w') ->
  exists metadata,
    getSiteMetadata now siteId w = Some metadata
    /\ ur_totalSize r =
       fold_left (fun total f =>
                    total - existingSize now siteId w (normalizePath (rf_path f)) + rawSize f)
         files (sm_totalSize metadata).
Proof.
  intros Hup. apply uploadFiles_ok_inv in Hup as (metadata & Hm & _ & Htotal & _).
  exists metadata. split; assumption.
Qed.

(** Replacing one stored file: the returned total is the recorded total
    less the old size plus the new one. *)
Lemma uploadFiles_replace_one env now siteId f old w r w' :
  uploadFiles env now siteId [f] w = (Ok r, w') ->
  getFile now siteId (normalizePath (rf_path f)) w = Some old ->
  exists metadata,
    getSiteMetadata now siteId w = Some metadata
    /\ ur_totalSize r = sm_totalSize metadata - sf_size old + rawSize f.
Proof.
  intros Hup Hold. apply uploadFiles_ok_inv in Hup as (metadata & Hm & _ & Htotal & _).
  exists metadata. split; [exact Hm |].
  rewrite Htotal. simpl. unfold existingSize. rewrite Hold. reflexivity.
Qed.

(** *** Reading back what was stored *)

Lemma getFile_fileEntry now later siteId file w :
  later / 1000 <= now / 1000 + 30 * 24 * 60 * 60 ->
  mirror w !! fileKey siteId file = Some (fileEntry now siteId file) ->
  getFile later siteId (sf_path file) w = Some file.
Proof.
  intros Hlater Hlookup. unfold getFile, readLocally.
  fold (fileKey siteId file). rewrite Hlookup.
  rewrite fileEntry_not_expired by exact Hlater.
  destruct file; reflexivity.
Qed.

Lemma storeFile_then_getFile env now later siteId file w r w' :
  storeFile env now siteId file w = (Ok r, w') ->
  later / 1000 <= now / 1000 + 30 * 24 * 60 * 60 ->
  getFile later siteId (sf_path file) w' = Some file.
Proof.
  rewrite storeFile_eq. cbv zeta. destruct (writeFile env _); [| discriminate].
  intros [= _ <-] Hlater. apply (getFile_fileEntry now); [exact Hlater |].
  unfold written, fileKey. simpl. apply lookup_insert_eq.
Qed.

Lemma storeSite_then_getFile env now later siteId pre file post w r w' :
  storeSite env now siteId (pre ++ file :: post)%list w = (Ok r, w') ->
  Forall (fun other => fileKey siteId other <> fileKey siteId file) post ->
  later / 1000 <= now / 1000 + 30 * 24 * 60 * 60 ->
  getFile later siteId (sf_path file) w' = Some file.
Proof.
  rewrite storeSite_eq.
  destruct (storeSite_files env now siteId _ [] None w) as [[r1 | e1] w1] eqn:Hfiles;
    [| discriminate].
  apply storeSite_files_world in Hfiles as [-> _].
  cbv zeta. destruct (writeFile env _); [| discriminate].
  intros [= _ <-] Hpost Hlater. apply (getFile_fileEntry now); [exact Hlater |].
  unfold written. simpl.
  rewrite lookup_insert_ne by (apply not_eq_sym, generateFileKey_not_metadata).
  apply storeAll_last. exact Hpost.
Qed.

(** A file is stored by [storeFile], or by [storeSite] when no later
    write of the call, of a later file of the batch or of the metadata,
    goes to the file of the storage directory that holds it. *)
Definition storedBy env now siteId (file : SiteFile) w w' : Prop :=
  (exists r, storeFile env now siteId file w = (Ok r, w'))
  \/ (exists pre post r,
        storeSite env now siteId (pre ++ file :: post)%list w = (Ok r, w')
        /\ Forall (fun other => Path.storageFile (fileKey siteId other)
                                <> Path.storageFile (fileKey siteId file)) post
        /\ Path.storageFile (generateMetadataKey siteId)
           <> Path.storageFile (fileKey siteId file)).

(** C4. A submitted file that [processFile] accepts and the store has
    stored is read back by [getFile], within its lifetime, with the bytes
    that were submitted and with the content type that [lookup] gives for
    its path (the default type when it gives none). *)
Theorem stored_file_round_trip env now later siteId f file w w' :
  processFile env now f = Ok file ->
  storedBy env now siteId file w w' ->
  later / 1000 <= now / 1000 + 30 * 24 * 60 * 60 ->
  exists got,
    getFile later siteId (sf_path file) w' = Some got
    /\ sf_content got = rf_content f
    /\ sf_contentType got = orString (lookup env (sf_path file)) "application/octet-stream"
    /\ sf_size got = Z.of_nat (length (rf_content f)).
Proof.
  intros Hp Hstored Hlater. exists file.
  apply processFile_inv in Hp as [_ ->].
  split; [| repeat split].
  destruct Hstored as [[r Hstore] | (pre & post & r & Hstore & Hpost & _)].
  - eapply storeFile_then_getFile; eassumption.
  - eapply storeSite_then_getFile; [exact Hstore | | exact Hlater].
    eapply List.Forall_impl; [| exact Hpost]. intros other Hfiles Hkeys.
    apply Hfiles. rewrite Hkeys. reflexivity.
Qed.

(** *** Expiry *)

(** C7, as the code has it. Expiry is kept entry by entry. An entry
    whose [btl] (positive in every entry the store writes) is before the
    current second is absent for the read of its own key, while the
    record is still in the storage directory: a file entry for
    [getFile], the metadata entry for [getSiteMetadata], and with it for
    [uploadFiles] and for the path route of the gateway, which answer
    that there is no such site. *)
Theorem expired_entry_absent env now siteId path entry w :
  0 < e_btl entry ->
  e_btl entry < now / 1000 ->
  (mirror w !! generateFileKey siteId path = Some entry ->
   getFile now siteId path w = None)
  /\ (mirror w !! generateMetadataKey siteId = Some entry ->
      getSiteMetadata now siteId w = None
      /\ (forall files,
            uploadFiles env now siteId files w = (Throw (SiteDoesNotExist siteId), w))
      /\ (forall param,
            Gateway.getSitePath env now siteId param w
            = Gateway.Html 404 (Gateway.NotFoundPage "Site not found"))).
Proof.
  intros Hpos Hpast.
  assert (Hexp : isExpired entry now = true) by (apply isExpired_true_iff; lia).
  split.
  - intros Hlookup. unfold getFile, readLocally. rewrite Hlookup, Hexp. reflexivity.
  - intros Hlookup.
    assert (Hnone : getSiteMetadata now siteId w = None).
    { unfold getSiteMetadata, readLocally. rewrite Hlookup, Hexp. reflexivity. }
    split; [exact Hnone |]. split.
    + intros files. unfold uploadFiles. rewrite Hnone. reflexivity.
    + intros param. unfold Gateway.getSitePath. cbv zeta. rewrite Hnone. reflexivity.
Qed.

(** An entry written by [storeFile] when the clock is not before the
    epoch has a positive [btl]. *)
Lemma fileEntry_btl_positive now siteId file :
  0 <= now -> 0 < e_btl (fileEntry now siteId file).
Proof.
  intros Hnow. simpl. pose proof (Z.div_pos now 1000 Hnow ltac:(lia)). lia.
Qed.

(** *** What [uploadFiles] leaves alone *)

Lemma uploadFiles_frame env now siteId files w res w' key :
  uploadFiles env now siteId files w = (res, w') ->
  Forall (fun f => generateFileKey siteId (normalizePath (rf_path f)) <> key) files ->
  mirror w' !! key = mirror w !! key.
Proof.
  unfold uploadFiles.
  destruct (getSiteMetadata now siteId w) as [metadata |]; [| intros [= _ <-]; reflexivity].
  destruct (sm_btlExpiry metadata <? now); [intros [= _ <-]; reflexivity |].
  destruct (uploadFiles_files env now siteId w files [] (sm_totalSize metadata))
    as [[sfs t] | e1] eqn:Hloop; [| intros [= _ <-]; reflexivity].
  apply uploadFiles_files_inv in Hloop as (-> & _ & _). simpl.
  unfold bind.
  destruct (uploadFiles_store env now siteId _ [] w) as [[keys | e1] w1] eqn:Hstore;
    intros [= _ <-] Hkeys;
    (eapply uploadFiles_store_frame; [exact Hstore |]);
    apply List.Forall_map; exact Hkeys.
Qed.

(** C10. A successful [uploadFiles] leaves the metadata entry of the site
    as it was: [getSiteMetadata] answers afterwards what it answered
    before, at any time, and at the time of the call that is the metadata
    the call found. Only the entries at the file keys of the batch can
    differ. *)
Theorem uploadFiles_keeps_metadata env now siteId files w r w' :
  uploadFiles env now siteId files w = (Ok r, w') ->
  mirror w' !! generateMetadataKey siteId = mirror w !! generateMetadataKey siteId
  /\ (forall later, getSiteMetadata later siteId w' = getSiteMetadata later siteId w)
  /\ (exists metadata, getSiteMetadata now siteId w = Some metadata
                       /\ getSiteMetadata now siteId w' = Some metadata)
  /\ (forall key,
        Forall (fun f => generateFileKey siteId (normalizePath (rf_path f)) <> key) files ->
        mirror w' !! key = mirror w !! key).
Proof.
  intros Hup.
  assert (Hkey : mirror w' !! generateMetadataKey siteId
                 = mirror w !! generateMetadataKey siteId).
  { eapply uploadFiles_frame; [exact Hup |].
    apply Forall_forall. intros f _. apply generateFileKey_not_metadata. }
  assert (Hread : forall later,
            getSiteMetadata later siteId w' = getSiteMetadata later siteId w).
  { intros later. unfold getSiteMetadata, readLocally. rewrite Hkey. reflexivity. }
  split; [exact Hkey |]. split; [exact Hread |]. split.
  - destruct (uploadFiles_ok_inv env now siteId files w r w' Hup) as (metadata & Hm & _).
    exists metadata. split; [exact Hm |]. rewrite Hread. exact Hm.
  - intros key Hkeys. eapply uploadFiles_frame; eassumption.
Qed.

(** *** The structure check of [uploadSite] *)

(** [uploadSite] applies the extension denylist and the hidden-file
    policy to every file of the batch before it writes. *)
Lemma uploadSite_denies env now siteId files w :
  Exists (fun f => suspiciousPath (normalizePath (rf_path f)) = true
                   \/ forbiddenHiddenPath (normalizePath (rf_path f)) = true) files ->
  exists e, uploadSite env now siteId files w = (Throw e, w).
Proof.
  intros Hex. unfold uploadSite.
  destruct (negb (uploadSchema siteId files)); [eexists; reflexivity |].
  destruct (getSiteMetadata now siteId w); [eexists; reflexivity |].
  destruct (uploadSite_files env now files [] 0) as [[sfs t] | e1] eqn:Hloop;
    [| eexists; reflexivity].
  apply uploadSite_files_inv in Hloop as (-> & _ & _ & _). simpl.
  destruct (validateSiteStructure_denies (map (processed env now) files)) as [e ->].
  { apply List.Exists_map. exact Hex. }
  eexists; reflexivity.
Qed.


End UploaderFacts.


(** ** More on the keys *)

Module KeyFacts.

Definition notColon (c : ascii) : bool := negb (Ascii.eqb c ":").
Definition notDot (c : ascii) : bool := negb (Ascii.eqb c ".").

Lemma append_cons (c : ascii) (a b : string) : String c a ++ b = String c (a ++ b).
Proof. reflexivity. Qed.

Lemma siteIdChar_plain (c : ascii) :
  siteIdChar c = true -> notColon c = true /\ notDot c = true.
Proof.
  destruct c as [[] [] [] [] [] [] [] []]; vm_compute; intros H;
    (discriminate H || (split; reflexivity)).
Qed.

Lemma allChars_impl (p q : ascii -> bool) (s : string) :
  (forall c, p c = true -> q c = true) -> allChars p s = true -> allChars q s = true.
Proof.
  intros Hpq. induction s as [| c s IH]; simpl; [reflexivity |].
  intros H. apply andb_true_iff in H as [Hc Hs].
  rewrite (Hpq c Hc), (IH Hs). reflexivity.
Qed.

Lemma siteId_no_colon (siteId : string) :
  allChars siteIdChar siteId = true -> allChars notColon siteId = true.
Proof. apply allChars_impl. intros c H. apply siteIdChar_plain, H. Qed.

Lemma siteId_no_dot (siteId : string) :
  allChars siteIdChar siteId = true -> allChars notDot siteId = true.
Proof. apply allChars_impl. intros c H. apply siteIdChar_plain, H. Qed.

(** Two texts without a colon that are followed by a colon split a string
    at the same place. *)
Lemma append_colon_inj (a b x y : string) :
  allChars notColon a = true -> allChars notColon b = true ->
  a ++ String ":" x = b ++ String ":" y -> a = b /\ x = y.
Proof.
  revert b. induction a as [| c a IH]; intros [| d b] Ha Hb H.
  - injection H as ->. split; reflexivity.
  - rewrite append_cons in H. simpl in Hb. change ("" ++ String ":" x) with (String ":" x) in H.
    injection H as <- _. discriminate Hb.
  - rewrite append_cons in H. simpl in Ha. change ("" ++ String ":" y) with (String ":" y) in H.
    injection H as -> _. discriminate Ha.
  - rewrite !append_cons in H. injection H as -> H.
    simpl in Ha, Hb. apply andb_true_iff in Ha as [_ Ha], Hb as [_ Hb].
    destruct (IH b Ha Hb H) as [-> ->]. split; reflexivity.
Qed.

Lemma fileKey_site_inj (s1 s2 p1 p2 : string) :
  allChars notColon s1 = true -> allChars notColon s2 = true ->
  generateFileKey s1 p1 = generateFileKey s2 p2 -> s1 = s2.
Proof.
  intros H1 H2 H. unfold generateFileKey in H. cbv zeta in H.
  apply (inj (String.app "site:")) in H.
  change (?s ++ ":file:" ++ ?p) with (s ++ String ":" ("file:" ++ p)) in H.
  apply append_colon_inj in H as [-> _]; auto.
Qed.

Lemma metadataKey_site_inj (s1 s2 : string) :
  allChars notColon s1 = true -> allChars notColon s2 = true ->
  generateMetadataKey s1 = generateMetadataKey s2 -> s1 = s2.
Proof.
  intros H1 H2 H. unfold generateMetadataKey in H.
  apply (inj (String.app "site:")) in H.
  change (?s ++ ":metadata") with (s ++ String ":" "metadata") in H.
  apply append_colon_inj in H as [-> _]; auto.
Qed.

Lemma fileKey_not_other_metadata (s1 s2 p : string) :
  allChars notColon s1 = true -> allChars notColon s2 = true ->
  generateFileKey s1 p <> generateMetadataKey s2.
Proof.
  intros H1 H2 H. unfold generateFileKey, generateMetadataKey in H. cbv zeta in H.
  apply (inj (String.app "site:")) in H.
  change (?s ++ ":file:" ++ ?p) with (s ++ String ":" ("file:" ++ p)) in H.
  change (?s ++ ":metadata") with (s ++ String ":" "metadata") in H.
  apply append_colon_inj in H as [_ H]; auto.
  destruct (JS.startsWith "/" p); discriminate H.
Qed.

(** A text without a dot in front does not bring a [..] with it. *)
Lemma includes_dots_append (a b : string) :
  allChars notDot a = true -> JS.includes ".." (a ++ b) = JS.includes ".." b.
Proof.
  induction a as [| c a IH]; intros Ha; [reflexivity |].
  rewrite append_cons. simpl in Ha. apply andb_true_iff in Ha as [Hc Ha].
  cbn [JS.includes]. rewrite (IH Ha).
  replace (JS.startsWith ".." (String c (a ++ b))) with false; [reflexivity |].
  change (JS.startsWith ".." (String c (a ++ b)))
    with (if Ascii.eqb "." c then JS.startsWith "." (a ++ b) else false).
  unfold notDot in Hc. rewrite Ascii.eqb_sym.
  destruct (Ascii.eqb c "."); [discriminate Hc | reflexivity].
Qed.

Lemma includes_tail (p : string) (c : ascii) (s : string) :
  JS.includes p (String c s) = false -> JS.includes p s = false.
Proof. cbn [JS.includes]. intros H. apply orb_false_iff in H as [_ H]. exact H. Qed.

(** The key of a path without [..], under a site identifier of the
    schema, has no [..]. *)
Lemma fileKey_no_dots (siteId path : string) :
  allChars siteIdChar siteId = true ->
  JS.includes ".." path = false ->
  JS.includes ".." (generateFileKey siteId path) = false.
Proof.
  intros Hsite Hpath. unfold generateFileKey. cbv zeta.
  rewrite (includes_dots_append "site:") by reflexivity.
  rewrite includes_dots_append by (apply siteId_no_dot; exact Hsite).
  rewrite (includes_dots_append ":file:") by reflexivity.
  destruct (JS.startsWith "/" path); [| exact Hpath].
  destruct path as [| c s]; [reflexivity |]. simpl JS.slice1.
  eapply includes_tail. exact Hpath.
Qed.

End KeyFacts.


(** ** The files of the storage directory *)

Module PathFacts.
Import Path.

Definition noSlash (c : ascii) : bool := negb (Ascii.eqb c "/").

(** The segments that [resolve] keeps. *)
Definition keeps (seg : string) : bool := negb (String.eqb seg "" || String.eqb seg ".").

Lemma append_assoc (a b c : string) : (a ++ b) ++ c = a ++ (b ++ c).
Proof.
  induction a as [| x a IH]; [reflexivity |].
  change (String x ((a ++ b) ++ c) = String x (a ++ (b ++ c))). now rewrite IH.
Qed.

Lemma split_hd_tl (s : string) : split s = hd "" (split s) :: tl (split s).
Proof.
  destruct s as [| c s]; [reflexivity |].
  cbn [split]. destruct (Ascii.eqb c "/"); [reflexivity |].
  destruct (split s); reflexivity.
Qed.

Lemma split_cons_plain (c : ascii) (s : string) :
  noSlash c = true ->
  split (String c s) = String c (hd "" (split s)) :: tl (split s).
Proof.
  intros Hc. unfold noSlash in Hc. cbn [split].
  destruct (Ascii.eqb c "/"); [discriminate Hc |].
  destruct (split s); reflexivity.
Qed.

(** A text without a slash in front joins the first segment. *)
Lemma split_app_plain (a b : string) :
  allChars noSlash a = true ->
  split (a ++ b) = (a ++ hd "" (split b)) :: tl (split b).
Proof.
  induction a as [| c a IH]; intros Ha.
  - apply split_hd_tl.
  - cbn [allChars] in Ha. apply andb_true_iff in Ha as [Hc Ha].
    rewrite !KeyFacts.append_cons, (split_cons_plain c _ Hc), (IH Ha). reflexivity.
Qed.

(** Without [..] nothing is dropped. *)
Lemma resolve_plain (kept segs : list string) :
  Forall (fun seg => seg <> "..") segs ->
  resolve kept segs = (rev kept ++ List.filter keeps segs)%list.
Proof.
  revert kept. induction segs as [| seg rest IH]; intros kept Hsegs.
  - cbn [resolve List.filter]. now rewrite app_nil_r.
  - apply Forall_cons_1 in Hsegs as [Hseg Hrest].
    cbn [resolve List.filter]. unfold keeps at 1.
    destruct (String.eqb seg "" || String.eqb seg ".")%bool; cbn [negb].
    + apply IH, Hrest.
    + destruct (String.eqb_spec seg "..") as [-> | _]; [contradiction |].
      rewrite (IH _ Hrest). cbn [rev]. now rewrite <- app_assoc.
Qed.

Lemma split_first_char (s seg : string) (d : ascii) (rest : list string) :
  split s = String d seg :: rest -> exists s', s = String d s'.
Proof.
  destruct s as [| c s]; [discriminate |].
  cbn [split]. destruct (Ascii.eqb c "/"); [discriminate |].
  destruct (split s); intros [= -> _ _]; eexists; reflexivity.
Qed.

(** No segment of a key's file name is [..] when the key has no [..]:
    the last segment ends in [.json]. *)
Lemma split_json_no_parent (k : string) :
  JS.includes ".." k = false ->
  Forall (fun seg => seg <> "..") (split (k ++ ".json")).
Proof.
  induction k as [| c k IH]; intros Hk.
  - repeat constructor. discriminate.
  - pose proof (IH (KeyFacts.includes_tail _ _ _ Hk)) as Hrest.
    rewrite KeyFacts.append_cons. cbn [split].
    destruct (Ascii.eqb c "/") eqn:Hc.
    + constructor; [discriminate | exact Hrest].
    + rewrite (split_hd_tl (k ++ ".json")) in Hrest |- *.
      apply Forall_cons_1 in Hrest as [_ Hrest].
      constructor; [| exact Hrest].
      intros Heq. injection Heq as -> Hhd.
      pose proof (split_hd_tl (k ++ ".json")) as Hsplit. rewrite Hhd in Hsplit.
      apply split_first_char in Hsplit as (s' & Hs').
      destruct k as [| d k].
      * vm_compute in Hhd. discriminate Hhd.
      * rewrite KeyFacts.append_cons in Hs'. injection Hs' as -> _.
        cbn [JS.includes] in Hk. apply orb_false_iff in Hk as [Hk _].
        discriminate Hk.
Qed.

Lemma siteIdChar_noSlash (c : ascii) : siteIdChar c = true -> noSlash c = true.
Proof.
  destruct c as [[] [] [] [] [] [] [] []]; vm_compute; intros H;
    (discriminate H || reflexivity).
Qed.

Lemma allChars_app (p : ascii -> bool) (a b : string) :
  allChars p a = true -> allChars p b = true -> allChars p (a ++ b) = true.
Proof.
  intros Ha Hb. induction a as [| c a IH]; [exact Hb |].
  rewrite KeyFacts.append_cons. cbn [allChars] in Ha |- *.
  apply andb_true_iff in Ha as [Hc Ha]. rewrite Hc, (IH Ha). reflexivity.
Qed.

(** Under the storage directory nothing of a key without [..] is
    dropped. *)
Lemma storageFile_plain (key : string) :
  JS.includes ".." key = false ->
  storageFile key
  = "tmp" :: "webdb-storage" :: List.filter keeps (split (key ++ ".json")).
Proof.
  intros Hkey. unfold storageFile.
  change (split (STORAGE_DIR ++ "/" ++ key ++ ".json"))
    with ("" :: "tmp" :: "webdb-storage" :: split (key ++ ".json")).
  change (resolve [] ("" :: "tmp" :: "webdb-storage" :: split (key ++ ".json")))
    with (resolve ["webdb-storage"; "tmp"] (split (key ++ ".json"))).
  rewrite resolve_plain by (apply split_json_no_parent; exact Hkey).
  reflexivity.
Qed.

(** The file of a key that begins with [site:], a site identifier of the
    schema and a colon lies in the storage directory or below, and its
    first segment begins in the same way. *)
Lemma storageFile_site (siteId x : string) :
  allChars siteIdChar siteId = true ->
  JS.includes ".." ("site:" ++ siteId ++ String ":" x) = false ->
  exists (y : string) (rest : list string),
    storageFile ("site:" ++ siteId ++ String ":" x)
    = "tmp" :: "webdb-storage" :: ("site:" ++ siteId ++ String ":" y) :: rest.
Proof.
  intros Hsite Hkey. rewrite (storageFile_plain _ Hkey).
  replace (("site:" ++ siteId ++ String ":" x) ++ ".json")
    with (("site:" ++ siteId) ++ String ":" (x ++ ".json"))
    by (now rewrite !append_assoc).
  rewrite split_app_plain.
  2:{ apply allChars_app; [reflexivity |].
      eapply KeyFacts.allChars_impl; [exact siteIdChar_noSlash | exact Hsite]. }
  rewrite (split_cons_plain ":") by reflexivity.
  cbn [hd tl List.filter].
  exists (hd "" (split (x ++ ".json"))), (List.filter keeps (tl (split (x ++ ".json")))).
  rewrite append_assoc. reflexivity.
Qed.

(** Keys of two sites of the schema never name one file. *)
Lemma storageFile_site_inj (s1 s2 x1 x2 : string) :
  allChars siteIdChar s1 = true -> allChars siteIdChar s2 = true ->
  JS.includes ".." ("site:" ++ s1 ++ String ":" x1) = false ->
  JS.includes ".." ("site:" ++ s2 ++ String ":" x2) = false ->
  storageFile ("site:" ++ s1 ++ String ":" x1) = storageFile ("site:" ++ s2 ++ String ":" x2) ->
  s1 = s2.
Proof.
  intros H1 H2 Hk1 Hk2 Heq.
  destruct (storageFile_site s1 x1 H1 Hk1) as (y1 & r1 & E1).
  destruct (storageFile_site s2 x2 H2 Hk2) as (y2 & r2 & E2).
  rewrite E1, E2 in Heq. injection Heq as Heq _.
  change (s1 ++ String ":" y1 = s2 ++ String ":" y2) in Heq.
  apply KeyFacts.append_colon_inj in Heq as [-> _];
    [reflexivity | apply KeyFacts.siteId_no_colon; assumption ..].
Qed.

(** A key that the store builds for [siteId]: its metadata key, or the
    key of a path without [..]. *)
Definition keyOfSite (siteId key : string) : Prop :=
  key = generateMetadataKey siteId
  \/ exists path, JS.includes ".." path = false /\ key = generateFileKey siteId path.

Lemma keyOfSite_shape (siteId key : string) :
  allChars siteIdChar siteId = true ->
  keyOfSite siteId key ->
  exists x, key = "site:" ++ siteId ++ String ":" x /\ JS.includes ".." key = false.
Proof.
  intros Hsite [-> | (path & Hpath & ->)].
  - exists "metadata". split; [reflexivity |].
    unfold generateMetadataKey.
    rewrite (KeyFacts.includes_dots_append "site:") by reflexivity.
    rewrite KeyFacts.includes_dots_append by (apply KeyFacts.siteId_no_dot; exact Hsite).
    reflexivity.
  - eexists. split; [reflexivity |]. apply KeyFacts.fileKey_no_dots; assumption.
Qed.

(** Keys of two sites of the schema are held in different files of the
    storage directory. *)
Lemma keyOfSite_files_differ (s1 s2 k1 k2 : string) :
  allChars siteIdChar s1 = true -> allChars siteIdChar s2 = true ->
  s1 <> s2 ->
  keyOfSite s1 k1 -> keyOfSite s2 k2 ->
  storageFile k1 <> storageFile k2.
Proof.
  intros H1 H2 Hne Hk1 Hk2 Heq.
  destruct (keyOfSite_shape s1 k1 H1 Hk1) as (x1 & -> & Hd1).
  destruct (keyOfSite_shape s2 k2 H2 Hk2) as (x2 & -> & Hd2).
  apply Hne. eapply storageFile_site_inj; eassumption.
Qed.

End PathFacts.

(** ** The directory by key and the directory by file *)

Section DiskFacts.

Context {json : Json}.
Import Path PathFacts.

(** [segs.join ('/')] *)
Fixpoint joinSlash (segs : list string) : string :=
  match segs with
  | [] => ""
  | [seg] => seg
  | seg :: rest => seg ++ String "/" (joinSlash rest)
  end.

Lemma joinSlash_split (s : string) : joinSlash (split s) = s.
Proof.
  induction s as [| c s IH]; [reflexivity |].
  cbn [split]. pose proof (split_hd_tl s) as Hsplit.
  destruct (split s) as [| h t]; [discriminate Hsplit |].
  destruct (Ascii.eqb_spec c "/") as [-> | Hc].
  - change (joinSlash ("" :: h :: t)) with (String "/" (joinSlash (h :: t))).
    rewrite IH. reflexivity.
  - destruct t as [| h2 t2].
    + cbn [joinSlash] in IH |- *. rewrite IH. reflexivity.
    + change (joinSlash (String c h :: h2 :: t2))
        with (String c (h ++ String "/" (joinSlash (h2 :: t2)))).
      change (joinSlash (h :: h2 :: t2)) with (h ++ String "/" (joinSlash (h2 :: t2))) in IH.
      rewrite IH. reflexivity.
Qed.

Lemma split_inj (a b : string) : split a = split b -> a = b.
Proof.
  intros H. rewrite <- (joinSlash_split a), <- (joinSlash_split b), H. reflexivity.
Qed.

Lemma string_length_app (a b : string) :
  String.length (a ++ b) = (String.length a + String.length b)%nat.
Proof.
  induction a as [| c a IH]; [reflexivity |].
  rewrite KeyFacts.append_cons. simpl. rewrite IH. reflexivity.
Qed.

Lemma append_inv_tail (a b c : string) : a ++ c = b ++ c -> a = b.
Proof.
  revert b. induction a as [| x a IH]; intros [| y b] H.
  - reflexivity.
  - apply (f_equal String.length) in H. rewrite !string_length_app in H.
    simpl in H. lia.
  - apply (f_equal String.length) in H. rewrite !string_length_app in H.
    simpl in H. lia.
  - rewrite !KeyFacts.append_cons in H. injection H as -> H.
    rewrite (IH b H). reflexivity.
Qed.

(** A key that [join] leaves as it is: no segment of its file name is
    dropped. *)
Definition canonical (key : string) : Prop :=
  JS.includes ".." key = false
  /\ Forall (fun seg => keeps seg = true) (split (key ++ ".json")).

Lemma filter_all {A} (p : A -> bool) (l : list A) :
  Forall (fun a => p a = true) l -> List.filter p l = l.
Proof.
  induction 1 as [| a l Ha _ IH]; [reflexivity |].
  cbn [List.filter]. rewrite Ha, IH. reflexivity.
Qed.

Lemma storageFile_canonical (key : string) :
  canonical key ->
  storageFile key = "tmp" :: "webdb-storage" :: split (key ++ ".json").
Proof.
  intros [Hdots Hsegs]. rewrite (storageFile_plain key Hdots), (filter_all _ _ Hsegs).
  reflexivity.
Qed.

Lemma storageFile_inj (k1 k2 : string) :
  canonical k1 -> canonical k2 -> storageFile k1 = storageFile k2 -> k1 = k2.
Proof.
  intros H1 H2 Heq.
  rewrite (storageFile_canonical k1 H1), (storageFile_canonical k2 H2) in Heq.
  injection Heq as Heq. apply split_inj in Heq. eapply append_inv_tail. exact Heq.
Qed.

Lemma split_plain (s : string) : allChars noSlash s = true -> split s = [s].
Proof.
  intros Hs. rewrite <- (Reference.app_empty_r s) at 1.
  rewrite (split_app_plain s "" Hs). cbn [split hd tl].
  rewrite Reference.app_empty_r. reflexivity.
Qed.

(** The metadata key of a site of the schema is canonical, and so is the
    key of a file at the top level of the site. *)
Lemma canonical_flat (siteId x : string) :
  allChars siteIdChar siteId = true ->
  allChars noSlash x = true ->
  JS.includes ".." x = false ->
  canonical ("site:" ++ siteId ++ String ":" x).
Proof.
  intros Hsite Hx Hdots. split.
  - rewrite (KeyFacts.includes_dots_append "site:") by reflexivity.
    rewrite KeyFacts.includes_dots_append by (apply KeyFacts.siteId_no_dot; exact Hsite).
    change (JS.includes ".." (":" ++ x) = false).
    rewrite (KeyFacts.includes_dots_append ":" x) by reflexivity. exact Hdots.
  - rewrite split_plain.
    + constructor; [reflexivity | constructor].
    + apply allChars_app; [| reflexivity].
      apply (allChars_app noSlash "site:"); [reflexivity |].
      apply allChars_app;
        [eapply KeyFacts.allChars_impl; [exact siteIdChar_noSlash | exact Hsite] |].
      cbn [allChars]. rewrite Hx. reflexivity.
Qed.

(** The directory indexed by file holds, at the file of each canonical
    key, what the directory indexed by key holds at the key. *)
Definition agree (byKey : gmap string DBChainEntry) (files : gmap (list string) DBChainEntry)
    : Prop :=
  forall key, canonical key -> files !! storageFile key = byKey !! key.

(** X20. On canonical keys the directory indexed by key is the directory
    of files: a read gives the same entry in both, and a write keeps
    them in agreement. Without that, two keys can name one file. *)
Theorem directory_by_key env key entry w files :
  canonical key ->
  agree (mirror w) files ->
  readLocally key w = Disk.readLocally key files
  /\ (forall w', storeLocally env key entry w = (Ok tt, w') ->
                 agree (mirror w') (Disk.storeLocally key entry files))
  /\ (exists other,
        other <> "site:s:file:index.html"
        /\ storageFile other = storageFile "site:s:file:index.html").
Proof.
  intros Hkey Hagree. split; [| split].
  - unfold readLocally, Disk.readLocally. symmetry. apply Hagree, Hkey.
  - intros w'. unfold storeLocally, Disk.storeLocally.
    destruct (writeFile env key); [| discriminate].
    intros [= <-] k Hk. cbn [mirror].
    destruct (decide (key = k)) as [<- | Hne].
    + rewrite !lookup_insert_eq. reflexivity.
    + rewrite (lookup_insert_ne (mirror w)) by exact Hne.
      rewrite lookup_insert_ne; [apply Hagree, Hk |].
      intros Heq. apply Hne. apply storageFile_inj; assumption.
  - exists "site:t:file:x/../site:s:file:index.html".
    split; [discriminate | vm_compute; reflexivity].
Qed.

End DiskFacts.


(** ** More on the store and the uploader *)

Section UploadExtras.

Context {json : Json}.
Implicit Types (env : Env) (w : World) (now : Z) (siteId : string).
Implicit Types (files : list RawFile) (f : RawFile) (sfs : list SiteFile).

Lemma uploadSchema_siteId siteId files :
  uploadSchema siteId files = true -> allChars siteIdChar siteId = true.
Proof.
  unfold uploadSchema. rewrite !andb_true_iff. intros H. apply H.
Qed.

Lemma fileKey_nonempty siteId (file : SiteFile) :
  orUndefined (fileKey siteId file) = Some (fileKey siteId file).
Proof. reflexivity. Qed.

Lemma orString_nonempty (a : option string) (b : string) :
  b <> "" -> orString a b <> "".
Proof. intros Hb. destruct a as [[| c s] |]; simpl; congruence. Qed.

Lemma orUndefined_Some (s : string) : s <> "" -> orUndefined s = Some s.
Proof. destruct s; [congruence | reflexivity]. Qed.

(** What [storeSite] pushes for the file stored by the [k]-th ledger
    call. *)
Definition fileResult env now siteId (k : nat) (file : SiteFile) : UploadedFile :=
  {| uf_path := sf_path file;
     uf_size := sf_size file;
     uf_key := fileKey siteId file;
     uf_txHash :=
       orUndefined (orString (ledgerRef env k (fileEntry now siteId file))
                      (fileKey siteId file)) |}.

Fixpoint fileResults env now siteId (k : nat) sfs : list UploadedFile :=
  match sfs with
  | [] => []
  | file :: rest => fileResult env now siteId k file :: fileResults env now siteId (S k) rest
  end.

Fixpoint indexTxHashFrom env now siteId (k : nat) sfs (idx : option string)
    : option string :=
  match sfs with
  | [] => idx
  | file :: rest =>
      indexTxHashFrom env now siteId (S k) rest
        (if String.eqb (sf_path file) "index.html"
         then uf_txHash (fileResult env now siteId k file) else idx)
  end.

Lemma storeSite_files_results env now siteId sfs acc idx w r w' :
  storeSite_files env now siteId sfs acc idx w = (Ok r, w') ->
  fst r = (acc ++ fileResults env now siteId (ledgerCalls w) sfs)%list
  /\ snd r = indexTxHashFrom env now siteId (ledgerCalls w) sfs idx.
Proof.
  revert acc idx w. induction sfs as [| file rest IH]; intros acc idx w; simpl.
  - intros [= <- _]. simpl. rewrite app_nil_r. split; reflexivity.
  - unfold bind at 1. rewrite storeFile_eq. cbv zeta. fold (fileKey siteId file).
    destruct (writeFile env (fileKey siteId file)); [| discriminate].
    intros H. apply IH in H as [Hfst Hsnd]. simpl in Hfst, Hsnd.
    rewrite Hfst, Hsnd, <- app_assoc. split; reflexivity.
Qed.

Lemma storeAll_ledgerCalls now siteId sfs w :
  ledgerCalls (storeAll now siteId sfs w) = (ledgerCalls w + length sfs)%nat.
Proof.
  revert w. induction sfs as [| file rest IH]; intros w; simpl; [lia |].
  rewrite IH. simpl. lia.
Qed.

(** What a successful [uploadSite] checked, wrote and returned. *)
Lemma uploadSite_ok_inv env now siteId files w r w' :
  uploadSite env now siteId files w = (Ok r, w') ->
  uploadSchema siteId files = true
  /\ getSiteMetadata now siteId w = None
  /\ Forall (fun f => badPath (rf_path f) = false /\ rawSize f <= maxFileSize env) files
  /\ w' = written (generateMetadataKey siteId)
            (metadataEntry now siteId
               (siteMetadata now siteId (map (processed env now) files)))
            (storeAll now siteId (map (processed env now) files) w)
  /\ r = {| ur_siteId := siteId;
            ur_domain := siteId ++ ".webdb.site";
            ur_files := fileResults env now siteId (ledgerCalls w)
                          (map (processed env now) files);
            ur_totalSize := totalBytes files;
            ur_indexTxHash := indexTxHashFrom env now siteId (ledgerCalls w)
                                (map (processed env now) files) None |}.
Proof.
  unfold uploadSite.
  destruct (uploadSchema siteId files); [| discriminate]. simpl.
  destruct (getSiteMetadata now siteId w); [discriminate |].
  destruct (uploadSite_files env now files [] 0) as [[sfs t] | e1] eqn:Hloop; [| discriminate].
  apply uploadSite_files_inv in Hloop as (-> & -> & Hall & _). simpl.
  destruct (validateSiteStructure _); [| discriminate].
  unfold bind. rewrite storeSite_eq.
  destruct (storeSite_files env now siteId _ [] None w) as [[r1 | e1] w1] eqn:Hfiles;
    [| discriminate].
  pose proof (storeSite_files_results _ _ _ _ _ _ _ _ _ Hfiles) as [Hfst Hsnd].
  apply storeSite_files_world in Hfiles as [-> _].
  cbv zeta. destruct (writeFile env _); [| discriminate].
  unfold ret. intros [= <- <-]. rewrite Hfst, Hsnd.
  repeat split. exact Hall.
Qed.

(** *** The ledger has no say in what is stored *)

(** The same environment with another ledger client and endpoint. *)
Definition withLedger env (c : GolemDBClient.Client) (n : nat -> GolemDBClient.Endpoint)
    : Env :=
  {| golemDB := c; net := n; writeFile := writeFile env; lookup := lookup env;
     maxFileSize := maxFileSize env; maxSiteSize := maxSiteSize env |}.

Lemma storeFile_ledger env c n now siteId file w :
  snd (storeFile (withLedger env c n) now siteId file w) = snd (storeFile env now siteId file w)
  /\ isOk (fst (storeFile (withLedger env c n) now siteId file w))
     = isOk (fst (storeFile env now siteId file w)).
Proof.
  rewrite !storeFile_eq. cbv zeta. simpl writeFile.
  destruct (writeFile env _); split; reflexivity.
Qed.

Lemma storeSite_files_ledger env c n now siteId sfs acc idx acc' idx' w :
  snd (storeSite_files (withLedger env c n) now siteId sfs acc' idx' w)
  = snd (storeSite_files env now siteId sfs acc idx w)
  /\ isOk (fst (storeSite_files (withLedger env c n) now siteId sfs acc' idx' w))
     = isOk (fst (storeSite_files env now siteId sfs acc idx w)).
Proof.
  revert acc idx acc' idx' w. induction sfs as [| file rest IH]; intros acc idx acc' idx' w.
  - split; reflexivity.
  - simpl. unfold bind. rewrite !storeFile_eq. cbv zeta. simpl writeFile.
    destruct (writeFile env _); [apply IH | split; reflexivity].
Qed.

Lemma uploadFiles_store_ledger env c n now siteId sfs keys keys' w :
  snd (uploadFiles_store (withLedger env c n) now siteId sfs keys' w)
  = snd (uploadFiles_store env now siteId sfs keys w)
  /\ isOk (fst (uploadFiles_store (withLedger env c n) now siteId sfs keys' w))
     = isOk (fst (uploadFiles_store env now siteId sfs keys w)).
Proof.
  revert keys keys' w. induction sfs as [| file rest IH]; intros keys keys' w.
  - split; reflexivity.
  - simpl. unfold bind. rewrite !storeFile_eq. cbv zeta. simpl writeFile.
    destruct (writeFile env _); [apply IH | split; reflexivity].
Qed.

Lemma storeSite_ledger env c n now siteId sfs w :
  snd (storeSite (withLedger env c n) now siteId sfs w) = snd (storeSite env now siteId sfs w)
  /\ isOk (fst (storeSite (withLedger env c n) now siteId sfs w))
     = isOk (fst (storeSite env now siteId sfs w)).
Proof.
  rewrite !storeSite_eq.
  pose proof (storeSite_files_ledger env c n now siteId sfs [] None [] None w) as [Hw Hok].
  destruct (storeSite_files (withLedger env c n) now siteId sfs [] None w) as [[r1 | e1] w1];
    destruct (storeSite_files env now siteId sfs [] None w) as [[r2 | e2] w2];
    simpl in Hw, Hok; subst; try discriminate; [| split; reflexivity].
  cbv zeta. simpl writeFile. destruct (writeFile env _); split; reflexivity.
Qed.

Lemma processFile_ledger env c n now f :
  processFile (withLedger env c n) now f = processFile env now f.
Proof. reflexivity. Qed.

Lemma uploadSite_files_ledger env c n now files acc total :
  uploadSite_files (withLedger env c n) now files acc total
  = uploadSite_files env now files acc total.
Proof.
  revert acc total. induction files as [| f rest IH]; intros acc total; [reflexivity |].
  simpl. rewrite processFile_ledger.
  destruct (processFile env now f) as [file | e]; [| reflexivity].
  simpl maxFileSize. simpl maxSiteSize.
  destruct (maxFileSize env <? sf_size file); [reflexivity |].
  destruct (maxSiteSize env <? total + sf_size file); [reflexivity | apply IH].
Qed.

Lemma uploadFiles_files_ledger env c n now siteId w files acc total :
  uploadFiles_files (withLedger env c n) now siteId w files acc total
  = uploadFiles_files env now siteId w files acc total.
Proof.
  revert acc total. induction files as [| f rest IH]; intros acc total; [reflexivity |].
  simpl. rewrite processFile_ledger.
  destruct (processFile env now f) as [file | e]; [| reflexivity].
  simpl maxFileSize. simpl maxSiteSize.
  destruct (maxFileSize env <? sf_size file); [reflexivity |].
  destruct (maxSiteSize env <? _); [reflexivity | apply IH].
Qed.

(** With the clock read alike at each [storeFile], whatever the ledger
    client and the endpoint do, [uploadSite] and [uploadFiles] succeed or
    fail alike and leave the same world. *)
Lemma uploads_ledger env c n now siteId files w :
  snd (uploadSite (withLedger env c n) now siteId files w)
  = snd (uploadSite env now siteId files w)
  /\ isOk (fst (uploadSite (withLedger env c n) now siteId files w))
     = isOk (fst (uploadSite env now siteId files w))
  /\ snd (uploadFiles (withLedger env c n) now siteId files w)
     = snd (uploadFiles env now siteId files w)
  /\ isOk (fst (uploadFiles (withLedger env c n) now siteId files w))
     = isOk (fst (uploadFiles env now siteId files w)).
Proof.
  assert (Hsite :
    snd (uploadSite (withLedger env c n) now siteId files w)
    = snd (uploadSite env now siteId files w)
    /\ isOk (fst (uploadSite (withLedger env c n) now siteId files w))
       = isOk (fst (uploadSite env now siteId files w))).
  { unfold uploadSite.
    destruct (negb (uploadSchema siteId files)); [split; reflexivity |].
    destruct (getSiteMetadata now siteId w); [split; reflexivity |].
    rewrite uploadSite_files_ledger.
    destruct (uploadSite_files env now files [] 0) as [[sfs t] | e1]; [| split; reflexivity].
    destruct (validateSiteStructure sfs); [| split; reflexivity].
    unfold bind.
    pose proof (storeSite_ledger env c n now siteId sfs w) as [Hw Hok].
    destruct (storeSite (withLedger env c n) now siteId sfs w) as [[r1 | e1] w1];
      destruct (storeSite env now siteId sfs w) as [[r2 | e2] w2];
      simpl in Hw, Hok; subst; try discriminate; split; reflexivity. }
  assert (Hfiles :
    snd (uploadFiles (withLedger env c n) now siteId files w)
    = snd (uploadFiles env now siteId files w)
    /\ isOk (fst (uploadFiles (withLedger env c n) now siteId files w))
       = isOk (fst (uploadFiles env now siteId files w))).
  { unfold uploadFiles.
    destruct (getSiteMetadata now siteId w) as [metadata |]; [| split; reflexivity].
    destruct (sm_btlExpiry metadata <? now); [split; reflexivity |].
    rewrite uploadFiles_files_ledger.
    destruct (uploadFiles_files env now siteId w files [] (sm_totalSize metadata))
      as [[sfs t] | e1]; [| split; reflexivity].
    unfold bind.
    pose proof (uploadFiles_store_ledger env c n now siteId sfs [] [] w) as [Hw Hok].
    destruct (uploadFiles_store (withLedger env c n) now siteId sfs [] w) as [[r1 | e1] w1];
      destruct (uploadFiles_store env now siteId sfs [] w) as [[r2 | e2] w2];
      simpl in Hw, Hok; subst; try discriminate; split; reflexivity. }
  destruct Hsite as [H1 H2]. destruct Hfiles as [H3 H4]. repeat split; assumption.
Qed.

(** X1. Whatever the ledger client and the endpoint do, a [storeFile]
    call succeeds or fails alike and leaves the same storage directory:
    the entry, its expiry included, is made before the ledger is called.
    [uploadSite] and [uploadFiles] succeed or fail alike and leave
    entries under the same keys. *)
Theorem ledger_has_no_say env c n now siteId file files w :
  (snd (storeFile (withLedger env c n) now siteId file w)
   = snd (storeFile env now siteId file w)
   /\ isOk (fst (storeFile (withLedger env c n) now siteId file w))
      = isOk (fst (storeFile env now siteId file w)))
  /\ (isOk (fst (uploadSite (withLedger env c n) now siteId files w))
      = isOk (fst (uploadSite env now siteId files w))
      /\ dom (mirror (snd (uploadSite (withLedger env c n) now siteId files w)))
         =@{gset string} dom (mirror (snd (uploadSite env now siteId files w))))
  /\ (isOk (fst (uploadFiles (withLedger env c n) now siteId files w))
      = isOk (fst (uploadFiles env now siteId files w))
      /\ dom (mirror (snd (uploadFiles (withLedger env c n) now siteId files w)))
         =@{gset string} dom (mirror (snd (uploadFiles env now siteId files w)))).
Proof.
  destruct (uploads_ledger env c n now siteId files w) as (Hw1 & Hok1 & Hw2 & Hok2).
  split; [apply storeFile_ledger |].
  split; (split; [assumption |]); [rewrite Hw1 | rewrite Hw2]; reflexivity.
Qed.

(** *** A creation that fails leaves no metadata *)

Lemma storeSite_keeps_metadata_on_throw env now siteId sfs w e w' :
  storeSite env now siteId sfs w = (Throw e, w') ->
  mirror w' !! generateMetadataKey siteId = mirror w !! generateMetadataKey siteId.
Proof.
  rewrite storeSite_eq.
  destruct (storeSite_files env now siteId sfs [] None w) as [[r1 | e1] w1] eqn:Hfiles.
  - cbv zeta. destruct (writeFile env _); [discriminate |].
    intros [= _ <-]. simpl.
    eapply storeSite_files_frame; [exact Hfiles |].
    apply Forall_forall. intros file _. apply generateFileKey_not_metadata.
  - intros [= _ <-].
    eapply storeSite_files_frame; [exact Hfiles |].
    apply Forall_forall. intros file _. apply generateFileKey_not_metadata.
Qed.

(** X2. When [uploadSite] throws, at whatever point, the metadata entry of the
    site is what it was: a creation that failed after some files were
    written does not make the site visible, and the gateway keeps
    answering that the site is not found. *)
Theorem failed_uploadSite_keeps_metadata env now siteId files w e w' :
  uploadSite env now siteId files w = (Throw e, w') ->
  mirror w' !! generateMetadataKey siteId = mirror w !! generateMetadataKey siteId
  /\ (forall later, getSiteMetadata later siteId w' = getSiteMetadata later siteId w)
  /\ (forall later param,
        getSiteMetadata later siteId w = None ->
        Gateway.getSitePath env later siteId param w'
        = Gateway.Html 404 (Gateway.NotFoundPage "Site not found")).
Proof.
  intros Hup.
  assert (Hkey : mirror w' !! generateMetadataKey siteId
                 = mirror w !! generateMetadataKey siteId).
  { revert Hup. unfold uploadSite.
    destruct (negb (uploadSchema siteId files)); [intros [= _ <-]; reflexivity |].
    destruct (getSiteMetadata now siteId w); [intros [= _ <-]; reflexivity |].
    destruct (uploadSite_files env now files [] 0) as [[sfs t] | e1];
      [| intros [= _ <-]; reflexivity].
    destruct (validateSiteStructure sfs); [| intros [= _ <-]; reflexivity].
    unfold bind.
    destruct (storeSite env now siteId sfs w) as [[r | e1] w1] eqn:Hstore; [discriminate |].
    intros [= _ <-]. eapply storeSite_keeps_metadata_on_throw. exact Hstore. }
  assert (Hread : forall later,
            getSiteMetadata later siteId w' = getSiteMetadata later siteId w).
  { intros later. unfold getSiteMetadata, readLocally. rewrite Hkey. reflexivity. }
  split; [exact Hkey |]. split; [exact Hread |].
  intros later param Hnone. unfold Gateway.getSitePath. cbv zeta.
  rewrite Hread, Hnone. reflexivity.
Qed.

(** *** The transaction hashes that [uploadSite] reports *)

Lemma fileKey_not_empty siteId (file : SiteFile) : fileKey siteId file <> "".
Proof.
  intros H. pose proof (fileKey_nonempty siteId file) as Hk. rewrite H in Hk. discriminate Hk.
Qed.

Lemma fileResults_Forall env now siteId (P : UploadedFile -> Prop) sfs (k : nat) :
  (forall j file, P (fileResult env now siteId j file)) ->
  Forall P (fileResults env now siteId k sfs).
Proof.
  intros HP. revert k. induction sfs as [| file rest IH]; intros k; simpl; constructor; auto.
Qed.

Lemma indexTxHashFrom_ledger_down env now siteId sfs (k : nat) (idx : option string) :
  (forall j entry, ledgerRef env j entry = None) ->
  indexTxHashFrom env now siteId k sfs idx =
  if existsb (fun file => String.eqb (sf_path file) "index.html") sfs
  then Some (generateFileKey siteId "index.html") else idx.
Proof.
  intros Hdown. revert k idx. induction sfs as [| file rest IH]; intros k idx; simpl;
    [reflexivity |].
  rewrite IH, Hdown. simpl orString.
  destruct (String.eqb (sf_path file) "index.html") eqn:Hpath; simpl; [| reflexivity].
  apply String.eqb_eq in Hpath. unfold fileKey. rewrite Hpath.
  destruct (existsb _ rest); reflexivity.
Qed.

(** X3. Every file that a successful [uploadSite] reports carries a
    [txHash]. When every ledger call fails, that hash is the mirror key
    of the file, and the hash reported for the index page is the mirror
    key of [index.html]. *)
Theorem uploadSite_reported_hashes env now siteId files w r w' :
  uploadSite env now siteId files w = (Ok r, w') ->
  Forall (fun u => exists h, uf_txHash u = Some h /\ h <> "") (ur_files r)
  /\ ((forall k key data btl,
         isOk (GolemDBClient.createEntity (golemDB env) (net env k) key data btl) = false) ->
      Forall (fun u => uf_txHash u = Some (uf_key u)) (ur_files r)
      /\ (Exists (fun f => normalizePath (rf_path f) = "index.html") files ->
          ur_indexTxHash r = Some (generateFileKey siteId "index.html"))).
Proof.
  intros Hup. apply uploadSite_ok_inv in Hup as (_ & _ & _ & _ & ->). simpl. split.
  - apply fileResults_Forall. intros j file. simpl.
    exists (orString (ledgerRef env j (fileEntry now siteId file)) (fileKey siteId file)).
    assert (Hne : orString (ledgerRef env j (fileEntry now siteId file))
                    (fileKey siteId file) <> "")
      by (apply orString_nonempty, fileKey_not_empty).
    split; [apply orUndefined_Some; exact Hne | exact Hne].
  - intros Hdown.
    assert (Hnone : forall j entry, ledgerRef env j entry = None).
    { intros j entry. unfold ledgerRef.
      specialize (Hdown j (e_key entry) (e_value entry) (e_btl entry)).
      destruct (GolemDBClient.createEntity _ _ _ _ _); [discriminate Hdown | reflexivity]. }
    split.
    + apply fileResults_Forall. intros j file. simpl. rewrite Hnone. reflexivity.
    + intros Hindex. rewrite indexTxHashFrom_ledger_down by exact Hnone.
      replace (existsb _ _) with true; [reflexivity |].
      symmetry. apply existsb_path. exact Hindex.
Qed.

(** *** What an upload can touch *)

Lemma uploadSite_frame env now siteId files w res w' key :
  uploadSite env now siteId files w = (res, w') ->
  key <> generateMetadataKey siteId ->
  Forall (fun f => generateFileKey siteId (normalizePath (rf_path f)) <> key) files ->
  mirror w' !! key = mirror w !! key.
Proof.
  unfold uploadSite.
  destruct (negb (uploadSchema siteId files)); [intros [= _ <-]; reflexivity |].
  destruct (getSiteMetadata now siteId w); [intros [= _ <-]; reflexivity |].
  destruct (uploadSite_files env now files [] 0) as [[sfs t] | e1] eqn:Hloop;
    [| intros [= _ <-]; reflexivity].
  apply uploadSite_files_inv in Hloop as (-> & _ & _ & _). simpl.
  destruct (validateSiteStructure _); [| intros [= _ <-]; reflexivity].
  unfold bind. rewrite storeSite_eq.
  destruct (storeSite_files env now siteId _ [] None w) as [[r1 | e1] w1] eqn:Hfiles.
  - cbv zeta. intros Hres Hmeta Hkeys.
    assert (Hw1 : mirror w1 !! key = mirror w !! key).
    { eapply storeSite_files_frame; [exact Hfiles |]. apply List.Forall_map. exact Hkeys. }
    destruct (writeFile env _); injection Hres as _ <-; simpl; [| exact Hw1].
    rewrite lookup_insert_ne by congruence. exact Hw1.
  - intros [= _ <-] Hmeta Hkeys.
    eapply storeSite_files_frame; [exact Hfiles |]. apply List.Forall_map. exact Hkeys.
Qed.

(** An upload either leaves the world alone or has passed the schema and
    the path checks. *)
Lemma uploadSite_checked env now siteId files w :
  snd (uploadSite env now siteId files w) = w
  \/ (uploadSchema siteId files = true
      /\ Forall (fun f => badPath (rf_path f) = false /\ rawSize f <= maxFileSize env) files).
Proof.
  unfold uploadSite.
  destruct (uploadSchema siteId files); [| left; reflexivity]. simpl.
  destruct (getSiteMetadata now siteId w); [left; reflexivity |].
  destruct (uploadSite_files env now files [] 0) as [[sfs t] | e1] eqn:Hloop;
    [| left; reflexivity].
  apply uploadSite_files_inv in Hloop as (_ & _ & Hall & _).
  right. split; [reflexivity | exact Hall].
Qed.

(** An entry that [uploadSite] changes is under a key of the site, and
    the site identifier is of the schema. *)
Lemma uploadSite_changes_own_keys env now siteId files w key :
  mirror (snd (uploadSite env now siteId files w)) !! key <> mirror w !! key ->
  allChars siteIdChar siteId = true /\ PathFacts.keyOfSite siteId key.
Proof.
  intros Hdiff.
  destruct (uploadSite_checked env now siteId files w) as [Hsame | [Hschema Hall]];
    [rewrite Hsame in Hdiff; contradiction |].
  split; [exact (uploadSchema_siteId _ _ Hschema) |].
  destruct (decide (key = generateMetadataKey siteId)) as [-> | Hmeta]; [left; reflexivity |].
  right.
  destruct (List.Exists_dec
              (fun f => generateFileKey siteId (normalizePath (rf_path f)) = key) files
              (fun f => string_dec _ _)) as [Hex | Hnone].
  - apply List.Exists_exists in Hex as (f & Hin & <-).
    exists (normalizePath (rf_path f)). split; [| reflexivity].
    rewrite List.Forall_forall in Hall. destruct (Hall f Hin) as [Hbad _].
    unfold badPath in Hbad. cbv zeta in Hbad.
    apply orb_false_iff in Hbad as [Hbad _]. apply orb_false_iff in Hbad as [Hbad _].
    exact Hbad.
  - exfalso. apply Hdiff.
    eapply uploadSite_frame; [apply surjective_pairing | exact Hmeta |].
    apply List.Forall_Exists_neg. exact Hnone.
Qed.

(** [uploadFiles] leaves the world alone or has passed the path checks. *)
Lemma uploadFiles_checked env now siteId files w :
  snd (uploadFiles env now siteId files w) = w
  \/ Forall (fun f => badPath (rf_path f) = false /\ rawSize f <= maxFileSize env) files.
Proof.
  unfold uploadFiles.
  destruct (getSiteMetadata now siteId w) as [metadata |]; [| left; reflexivity].
  destruct (sm_btlExpiry metadata <? now); [left; reflexivity |].
  destruct (uploadFiles_files env now siteId w files [] (sm_totalSize metadata))
    as [[sfs t] | e1] eqn:Hloop; [| left; reflexivity].
  apply uploadFiles_files_inv in Hloop as (_ & _ & Hall).
  right. exact Hall.
Qed.

Lemma uploadFiles_changes_own_keys env now siteId files w key :
  mirror (snd (uploadFiles env now siteId files w)) !! key <> mirror w !! key ->
  PathFacts.keyOfSite siteId key.
Proof.
  intros Hdiff.
  destruct (uploadFiles_checked env now siteId files w) as [Hsame | Hall];
    [rewrite Hsame in Hdiff; contradiction |].
  right.
  destruct (List.Exists_dec
              (fun f => generateFileKey siteId (normalizePath (rf_path f)) = key) files
              (fun f => string_dec _ _)) as [Hex | Hnone].
  - apply List.Exists_exists in Hex as (f & Hin & <-).
    exists (normalizePath (rf_path f)). split; [| reflexivity].
    rewrite List.Forall_forall in Hall. destruct (Hall f Hin) as [Hbad _].
    unfold badPath in Hbad. cbv zeta in Hbad.
    apply orb_false_iff in Hbad as [Hbad _]. apply orb_false_iff in Hbad as [Hbad _].
    exact Hbad.
  - exfalso. apply Hdiff.
    eapply uploadFiles_frame; [apply surjective_pairing |].
    apply List.Forall_Exists_neg. exact Hnone.
Qed.

(** X4. An upload to one site leaves every other site of the schema as it
    was: its metadata and its files at paths without [..] read the same
    before and after, and no entry that the upload changes is held in a
    file of the storage directory that such a read opens. For
    [uploadFiles], which does not check the identifier it is given, this
    holds when that identifier is of the schema too. *)
Theorem uploads_touch_one_site env now siteId other files w :
  allChars siteIdChar other = true ->
  other <> siteId ->
  (forall later path,
     JS.includes ".." path = false ->
     getFile later other path (snd (uploadSite env now siteId files w))
     = getFile later other path w)
  /\ (forall later,
        getSiteMetadata later other (snd (uploadSite env now siteId files w))
        = getSiteMetadata later other w)
  /\ (allChars siteIdChar siteId = true ->
      (forall later path,
         JS.includes ".." path = false ->
         getFile later other path (snd (uploadFiles env now siteId files w))
         = getFile later other path w)
      /\ (forall later,
            getSiteMetadata later other (snd (uploadFiles env now siteId files w))
            = getSiteMetadata later other w))
  /\ (forall key read,
        mirror (snd (uploadSite env now siteId files w)) !! key <> mirror w !! key
        \/ (allChars siteIdChar siteId = true
            /\ mirror (snd (uploadFiles env now siteId files w)) !! key <> mirror w !! key) ->
        PathFacts.keyOfSite other read ->
        Path.storageFile key <> Path.storageFile read).
Proof.
  intros Hother Hne.
  pose proof (KeyFacts.siteId_no_colon other Hother) as Hoc.
  assert (Hsite : forall key,
            allChars siteIdChar siteId = true ->
            (exists path, key = generateFileKey other path) \/ key = generateMetadataKey other ->
            key <> generateMetadataKey siteId
            /\ Forall (fun f => generateFileKey siteId (normalizePath (rf_path f)) <> key) files).
  { intros key Hvalid Hkey.
    pose proof (KeyFacts.siteId_no_colon siteId Hvalid) as Hsc.
    destruct Hkey as [[path ->] | ->]; split.
    - apply KeyFacts.fileKey_not_other_metadata; assumption.
    - apply Forall_forall. intros f _ Heq.
      apply KeyFacts.fileKey_site_inj in Heq; [congruence | assumption | assumption].
    - intros Heq. apply KeyFacts.metadataKey_site_inj in Heq; [congruence | |]; assumption.
    - apply Forall_forall. intros f _.
      apply KeyFacts.fileKey_not_other_metadata; assumption. }
  assert (Hup : forall key,
            (exists path, key = generateFileKey other path) \/ key = generateMetadataKey other ->
            mirror (snd (uploadSite env now siteId files w)) !! key = mirror w !! key).
  { intros key Hkey.
    destruct (uploadSite_checked env now siteId files w) as [-> | [Hschema _]];
      [reflexivity |].
    destruct (Hsite key (uploadSchema_siteId _ _ Hschema) Hkey) as [Hmeta Hfiles].
    eapply uploadSite_frame; [apply surjective_pairing | exact Hmeta | exact Hfiles]. }
  split; [| split; [| split]].
  - intros later path _. unfold getFile, readLocally.
    rewrite Hup by (left; eexists; reflexivity). reflexivity.
  - intros later. unfold getSiteMetadata, readLocally. rewrite Hup by (right; reflexivity).
    reflexivity.
  - intros Hvalid.
    assert (Hadd : forall key,
              (exists path, key = generateFileKey other path)
              \/ key = generateMetadataKey other ->
              mirror (snd (uploadFiles env now siteId files w)) !! key = mirror w !! key).
    { intros key Hkey. destruct (Hsite key Hvalid Hkey) as [_ Hfiles].
      eapply uploadFiles_frame; [apply surjective_pairing | exact Hfiles]. }
    split.
    + intros later path _. unfold getFile, readLocally.
      rewrite Hadd by (left; eexists; reflexivity). reflexivity.
    + intros later. unfold getSiteMetadata, readLocally.
      rewrite Hadd by (right; reflexivity). reflexivity.
  - intros key read Hchanged Hread.
    assert (Hown : allChars siteIdChar siteId = true /\ PathFacts.keyOfSite siteId key).
    { destruct Hchanged as [Hdiff | [Hvalid Hdiff]].
      - apply (uploadSite_changes_own_keys env now siteId files w key Hdiff).
      - split; [exact Hvalid |].
        apply (uploadFiles_changes_own_keys env now siteId files w key Hdiff). }
    destruct Hown as [Hvalid Hkey].
    apply (PathFacts.keyOfSite_files_differ siteId other); auto.
Qed.

Lemma badPath_no_dots (p : string) :
  badPath p = false -> JS.includes ".." (normalizePath p) = false.
Proof.
  unfold badPath. cbv zeta. intros H.
  apply orb_false_iff in H as [H _]. apply orb_false_iff in H as [H _]. exact H.
Qed.

(** X5. No write of [uploadSite] lands on a key that contains [..]: an entry
    of the storage directory that differs after the call, whether the call
    succeeded or threw, has a key without [..]. *)
Theorem uploadSite_writes_no_traversal_key env now siteId files w key :
  mirror (snd (uploadSite env now siteId files w)) !! key <> mirror w !! key ->
  JS.includes ".." key = false.
Proof.
  intros Hdiff. destruct (JS.includes ".." key) eqn:Hdots; [| reflexivity].
  exfalso. apply Hdiff.
  destruct (uploadSite_checked env now siteId files w) as [-> | [Hschema Hall]];
    [reflexivity |].
  pose proof (uploadSchema_siteId _ _ Hschema) as Hvalid.
  eapply uploadSite_frame; [apply surjective_pairing | |].
  - intros ->. unfold generateMetadataKey in Hdots.
    rewrite (KeyFacts.includes_dots_append "site:") in Hdots by reflexivity.
    rewrite KeyFacts.includes_dots_append in Hdots
      by (apply KeyFacts.siteId_no_dot; exact Hvalid).
    discriminate Hdots.
  - eapply List.Forall_impl; [| exact Hall]. intros f [Hbad _] Heq.
    rewrite <- Heq in Hdots.
    rewrite KeyFacts.fileKey_no_dots in Hdots;
      [discriminate Hdots | exact Hvalid | apply badPath_no_dots; exact Hbad].
Qed.


(** *** What [uploadSite] returns *)

Lemma fileResults_map env now siteId sfs (k : nat) :
  map uf_path (fileResults env now siteId k sfs) = map sf_path sfs
  /\ map uf_size (fileResults env now siteId k sfs) = map sf_size sfs
  /\ map uf_key (fileResults env now siteId k sfs) = map (fileKey siteId) sfs.
Proof.
  revert k. induction sfs as [| file rest IH]; intros k; simpl; [repeat split |].
  destruct (IH (S k)) as (-> & -> & ->). repeat split.
Qed.

Lemma totalBytes_sum files : totalBytes files = fold_right Z.add 0 (map rawSize files).
Proof. induction files as [| f rest IH]; simpl; [reflexivity | now rewrite IH]. Qed.

(** X6. The result of a successful [uploadSite] lists the batch file by file
    and in order, with the normalized path, the byte length and the mirror
    key of each file; its total is the sum of the listed sizes and its
    domain is the site identifier under [webdb.site]. *)
Theorem uploadSite_result_lists_batch env now siteId files w r w' :
  uploadSite env now siteId files w = (Ok r, w') ->
  map uf_path (ur_files r) = map (fun f => normalizePath (rf_path f)) files
  /\ map uf_size (ur_files r) = map rawSize files
  /\ map uf_key (ur_files r)
     = map (fun f => generateFileKey siteId (normalizePath (rf_path f))) files
  /\ ur_totalSize r = fold_right Z.add 0 (map uf_size (ur_files r))
  /\ ur_domain r = siteId ++ ".webdb.site".
Proof.
  intros Hup. apply uploadSite_ok_inv in Hup as (_ & _ & _ & _ & ->). simpl.
  destruct (fileResults_map env now siteId (map (processed env now) files) (ledgerCalls w))
    as (-> & -> & ->).
  rewrite !map_map. simpl. repeat split. apply totalBytes_sum.
Qed.

(** *** Reading back what [uploadFiles] stored *)


(** *** The denylist looks at the last dot segment, in any letter case *)

Definition deniedExtensions : list string := ["exe"; "bat"; "sh"; "php"; "asp"; "jsp"].

Lemma toLowerCase_app (a b : string) :
  JS.toLowerCase (a ++ b) = JS.toLowerCase a ++ JS.toLowerCase b.
Proof.
  induction a as [| c a IH]; [reflexivity |].
  rewrite KeyFacts.append_cons. cbn [JS.toLowerCase].
  rewrite IH, KeyFacts.append_cons. reflexivity.
Qed.

Lemma append_assoc_char (acc : string) (c : ascii) (e : string) :
  (acc ++ String c "") ++ e = acc ++ String c e.
Proof.
  induction acc as [| a acc IH]; [reflexivity |].
  rewrite !KeyFacts.append_cons, IH. reflexivity.
Qed.

Lemma lastDotSegment_from_plain (acc e : string) :
  allChars KeyFacts.notDot e = true -> JS.lastDotSegment_from acc e = acc ++ e.
Proof.
  revert acc. induction e as [| c e IH]; intros acc He.
  - simpl. symmetry. apply Reference.app_empty_r.
  - simpl in He. apply andb_true_iff in He as [Hc He].
    cbn [JS.lastDotSegment_from]. unfold KeyFacts.notDot in Hc.
    destruct (Ascii.eqb c "."); [discriminate Hc |].
    rewrite IH by exact He. apply append_assoc_char.
Qed.

Lemma lastDotSegment_from_dot (acc stem e : string) :
  JS.lastDotSegment_from acc (stem ++ String "." e) = JS.lastDotSegment_from "" e.
Proof.
  revert acc. induction stem as [| c stem IH]; intros acc.
  - reflexivity.
  - rewrite KeyFacts.append_cons. cbn [JS.lastDotSegment_from].
    destruct (Ascii.eqb c "."); apply IH.
Qed.

(** A path that is a denied extension, or that ends with a dot and a
    denied extension, in any letter case, is suspicious. *)
Lemma suspiciousPath_denied (stem ext : string) :
  In (JS.toLowerCase ext) deniedExtensions ->
  suspiciousPath ext = true /\ suspiciousPath (stem ++ "." ++ ext) = true.
Proof.
  intros Hin.
  assert (Hplain : allChars KeyFacts.notDot (JS.toLowerCase ext) = true
                   /\ negb (String.eqb (JS.toLowerCase ext) "")
                      && inList ("." ++ JS.toLowerCase ext) suspiciousExtensions = true).
  { simpl in Hin.
    destruct Hin as [<- | [<- | [<- | [<- | [<- | [<- | []]]]]]]; split; reflexivity. }
  destruct Hplain as [Hplain Htest].
  unfold suspiciousPath. cbv zeta. split.
  - unfold JS.lastDotSegment. rewrite lastDotSegment_from_plain by exact Hplain. exact Htest.
  - change (stem ++ "." ++ ext) with (stem ++ String "." ext).
    rewrite toLowerCase_app. change (JS.toLowerCase (String "." ext))
      with (String "." (JS.toLowerCase ext)).
    unfold JS.lastDotSegment.
    rewrite lastDotSegment_from_dot, lastDotSegment_from_plain by exact Hplain.
    exact Htest.
Qed.

(** X8. [uploadSite] refuses, before any write, every batch with a file whose
    normalized path is a denied extension or ends with a dot and a denied
    extension (exe, bat, sh, php, asp, jsp), in any letter case. *)
Theorem uploadSite_denied_extension env now siteId files w :
  Exists (fun f => exists stem ext,
            In (JS.toLowerCase ext) deniedExtensions
            /\ (normalizePath (rf_path f) = stem ++ "." ++ ext
                \/ normalizePath (rf_path f) = ext)) files ->
  exists e, uploadSite env now siteId files w = (Throw e, w).
Proof.
  intros Hex. apply uploadSite_denies.
  apply Exists_exists in Hex as (f & Hin & stem & ext & Hext & Hpath).
  apply Exists_exists. exists f. split; [exact Hin |]. left.
  destruct (suspiciousPath_denied stem ext Hext) as [Hbare Hdotted].
  destruct Hpath as [-> | ->]; assumption.
Qed.


(** *** The hidden-file policy *)

Lemma forbiddenHiddenPath_iff (path : string) :
  forbiddenHiddenPath path = true <->
  JS.startsWith "." path = true
  /\ path <> ".htaccess" /\ path <> ".well-known"
  /\ JS.startsWith ".htaccess/" path = false
  /\ JS.startsWith ".well-known/" path = false.
Proof.
  unfold forbiddenHiddenPath, allowedHiddenFiles. cbn [existsb].
  rewrite andb_true_iff, negb_true_iff, !orb_false_iff.
  rewrite !String.eqb_neq.
  change (".htaccess" ++ "/") with ".htaccess/".
  change (".well-known" ++ "/") with ".well-known/".
  tauto.
Qed.

(** X9. [uploadSite] refuses, before any write, every batch with a file whose
    normalized path begins with a dot, unless the path is [.htaccess] or
    [.well-known] or lies under one of the two. *)
Theorem uploadSite_hidden_file env now siteId files w :
  Exists (fun f =>
            let path := normalizePath (rf_path f) in
            JS.startsWith "." path = true
            /\ path <> ".htaccess" /\ path <> ".well-known"
            /\ JS.startsWith ".htaccess/" path = false
            /\ JS.startsWith ".well-known/" path = false) files ->
  exists e, uploadSite env now siteId files w = (Throw e, w).
Proof.
  intros Hex. apply uploadSite_denies.
  apply Exists_exists in Hex as (f & Hin & Hf).
  apply Exists_exists. exists f. split; [exact Hin |]. right.
  apply forbiddenHiddenPath_iff. exact Hf.
Qed.


End UploadExtras.


(** ** The gateway *)

Section GatewayFacts.

Context {json : Json}.
Implicit Types (env : Env) (w : World) (now : Z) (siteId : string).
Import Gateway.

Lemma nonempty_match (s d : string) :
  s <> "" -> match s with EmptyString => d | _ => s end = s.
Proof. destruct s; [congruence | reflexivity]. Qed.

Lemma lifetime_seconds now later :
  later <= now + 30 * 24 * 60 * 60 * 1000 ->
  later / 1000 <= now / 1000 + 30 * 24 * 60 * 60.
Proof.
  intros H.
  replace (now / 1000 + 30 * 24 * 60 * 60) with ((now + 30 * 24 * 60 * 60 * 1000) / 1000).
  - apply Z.div_le_mono; lia.
  - replace (now + 30 * 24 * 60 * 60 * 1000) with (now + (30 * 24 * 60 * 60) * 1000) by lia.
    apply Z.div_add. lia.
Qed.

Lemma badPath_nonempty (p : string) : badPath p = false -> normalizePath p <> "".
Proof.
  unfold badPath. cbv zeta. intros H. apply orb_false_iff in H as [_ H].
  intros Hempty. rewrite Hempty in H. discriminate H.
Qed.

(** *** The subdomain middleware *)

Lemma startsWith_append (p r : string) : JS.startsWith p (p ++ r) = true.
Proof.
  induction p as [| c p IH]; [reflexivity |].
  rewrite KeyFacts.append_cons. cbn [JS.startsWith]. rewrite Ascii.eqb_refl. exact IH.
Qed.

Lemma dropChars_append (p r : string) : dropChars (String.length p) (p ++ r) = r.
Proof. induction p as [| c p IH]; [reflexivity | exact IH]. Qed.

Lemma endsWith_append (a suffix : string) : endsWith suffix (a ++ suffix) = true.
Proof.
  induction a as [| c a IH].
  - change ("" ++ suffix) with suffix.
    destruct suffix; cbn [endsWith]; rewrite String.eqb_refl; reflexivity.
  - rewrite KeyFacts.append_cons. cbn [endsWith]. rewrite IH. apply orb_true_r.
Qed.

Lemma removeFirst_suffix (siteId domain : string) :
  allChars KeyFacts.notDot siteId = true ->
  removeFirst (String "." domain) (siteId ++ String "." domain) = siteId.
Proof.
  intros Hplain. induction siteId as [| c s IH].
  - change ("" ++ String "." domain) with (String "." domain).
    cbn [removeFirst].
    pose proof (startsWith_append (String "." domain) "") as Hstart.
    pose proof (dropChars_append (String "." domain) "") as Hdrop.
    rewrite Reference.app_empty_r in Hstart, Hdrop.
    rewrite Hstart. exact Hdrop.
  - simpl in Hplain. apply andb_true_iff in Hplain as [Hc Hs].
    rewrite KeyFacts.append_cons. cbn [removeFirst JS.startsWith].
    unfold KeyFacts.notDot in Hc. rewrite Ascii.eqb_sym.
    destruct (Ascii.eqb c "."); [discriminate Hc |].
    f_equal. exact (IH Hs).
Qed.

Lemma append_length (a b : string) :
  String.length (a ++ b) = (String.length a + String.length b)%nat.
Proof.
  induction a as [| c a IH]; [reflexivity |].
  rewrite KeyFacts.append_cons. simpl. rewrite IH. reflexivity.
Qed.

Lemma host_not_domain (siteId domain : string) :
  String.eqb (siteId ++ "." ++ domain) domain = false.
Proof.
  apply String.eqb_neq. intros H. apply (f_equal String.length) in H.
  rewrite append_length in H. change ("." ++ domain) with (String "." domain) in H.
  simpl in H. lia.
Qed.

(** What the middleware does on the host [siteId.domain] with a request
    path [/p], [p] not empty, once the site is found and live. *)
Lemma subdomainHandler_file env now siteId domain (p : string) w metadata :
  allChars siteIdChar siteId = true ->
  p <> "" ->
  getSiteMetadata now siteId w = Some metadata ->
  now <= sm_btlExpiry metadata ->
  subdomainHandler env domain (siteId ++ "." ++ domain) ("/" ++ p) now w
  = Some match getFile now siteId p w with
         | Some file => serveFile env file
         | None =>
             if String.eqb p "index.html" then
               match getFile now siteId "index.htm" w with
               | Some indexHtm => serveFile env indexHtm
               | None => Html 404 (NotFoundPage "File not found")
               end
             else Html 404 (NotFoundPage "File not found")
         end.
Proof.
  intros Hvalid Hp Hmeta Hlive. unfold subdomainHandler.
  rewrite host_not_domain, endsWith_append. simpl negb. cbv zeta. cbn [andb].
  change ("." ++ domain) with (String "." domain).
  rewrite removeFirst_suffix by (apply KeyFacts.siteId_no_dot; exact Hvalid).
  rewrite Hmeta.
  replace (sm_btlExpiry metadata <? now) with false by (symmetry; apply Z.ltb_ge; exact Hlive).
  destruct p as [| c s]; [congruence |].
  change ("/" ++ String c s) with (String "/" (String c s)).
  replace (String.eqb (String "/" (String c s)) "/") with false
    by (symmetry; apply String.eqb_neq; discriminate).
  cbn [JS.startsWith JS.slice1]. rewrite Ascii.eqb_refl. cbn [JS.startsWith].
  replace (String.eqb (String c s) "") with false
    by (symmetry; apply String.eqb_neq; discriminate).
  rewrite orb_false_r. reflexivity.
Qed.

(** X10. A file of a batch that [uploadSite] stored (the last one of the
    batch written to its file of the storage directory) is served for
    thirty days by the subdomain middleware, when it handles a request on
    the host [siteId.domain] whose path is [/] followed by the normalized
    path of the file: the body is the submitted content, the content
    length is the length of the body and the content type is the one
    derived from the path. When that path is [index.html], the path
    route serves the same, its wildcard parameter undefined. *)
Theorem uploaded_site_is_served env now later siteId domain pre f post w r w' :
  uploadSite env now siteId (pre ++ f :: post)%list w = (Ok r, w') ->
  Forall (fun g => Path.storageFile (generateFileKey siteId (normalizePath (rf_path g)))
                   <> Path.storageFile (generateFileKey siteId (normalizePath (rf_path f))))
    post ->
  later <= now + 30 * 24 * 60 * 60 * 1000 ->
  exists served,
    subdomainHandler env domain (siteId ++ "." ++ domain)
      ("/" ++ normalizePath (rf_path f)) later w' = Some (File served)
    /\ body served = rf_content f
    /\ h_contentLength served = Z.of_nat (length (body served))
    /\ h_contentType served
       = orString (lookup env (normalizePath (rf_path f))) "application/octet-stream"
    /\ (normalizePath (rf_path f) = "index.html" ->
        getSitePath env later siteId "" w' = File served).
Proof.
  intros Hup Hpost Hlater.
  pose proof (lifetime_seconds now later Hlater) as Hsec.
  apply uploadSite_ok_inv in Hup as (Hschema & _ & Hall & -> & _).
  pose proof (uploadSchema_siteId _ _ Hschema) as Hvalid.
  assert (Hf : badPath (rf_path f) = false).
  { rewrite Forall_forall in Hall. apply (Hall f). apply elem_of_app. right. left. }
  set (sfs := map (processed env now) (pre ++ f :: post)).
  set (w1 := written (generateMetadataKey siteId)
               (metadataEntry now siteId (siteMetadata now siteId sfs))
               (storeAll now siteId sfs w)).
  assert (Hmeta : getSiteMetadata later siteId w1 = Some (siteMetadata now siteId sfs))
    by (apply getSiteMetadata_written; exact Hsec).
  assert (Hlive : later <= sm_btlExpiry (siteMetadata now siteId sfs)) by (simpl; lia).
  assert (Hget : getFile later siteId (normalizePath (rf_path f)) w1
                 = Some (processed env now f)).
  { apply (getFile_fileEntry now later siteId (processed env now f)); [exact Hsec |].
    unfold w1, written. simpl mirror.
    rewrite lookup_insert_ne by (apply not_eq_sym, generateFileKey_not_metadata).
    unfold sfs. rewrite map_app. simpl map. apply storeAll_last.
    apply List.Forall_map. eapply List.Forall_impl; [| exact Hpost].
    intros g Hfiles Hkeys. apply Hfiles. unfold fileKey in Hkeys. simpl in Hkeys.
    rewrite Hkeys. reflexivity. }
  exists {| h_contentType :=
              orString (lookup env (normalizePath (rf_path f))) "application/octet-stream";
            h_contentLength := rawSize f;
            h_lastModified := now;
            h_cacheControl := "public, max-age=3600";
            h_contentTypeOptions := "nosniff";
            h_frameOptions := "SAMEORIGIN";
            h_xssProtection := "1; mode=block";
            body := rf_content f |}.
  assert (Hserve : serveFile env (processed env now f) = File
            {| h_contentType :=
                 orString (lookup env (normalizePath (rf_path f))) "application/octet-stream";
               h_contentLength := rawSize f;
               h_lastModified := now;
               h_cacheControl := "public, max-age=3600";
               h_contentTypeOptions := "nosniff";
               h_frameOptions := "SAMEORIGIN";
               h_xssProtection := "1; mode=block";
               body := rf_content f |}).
  { unfold serveFile. cbv zeta. simpl. destruct (orString _ _); reflexivity. }
  split.
  - rewrite (subdomainHandler_file env later siteId domain _ w1 _ Hvalid
               (badPath_nonempty _ Hf) Hmeta Hlive).
    rewrite Hget, Hserve. reflexivity.
  - simpl. repeat split.
    intros Hindex. unfold getSitePath. cbv zeta. rewrite Hmeta.
    replace (sm_btlExpiry _ <? later) with false by (symmetry; apply Z.ltb_ge; exact Hlive).
    rewrite <- Hindex, Hget, Hserve. reflexivity.
Qed.

(** *** The lifetime of a site *)


End GatewayFacts.


(** ** GolemDBStorage *)

Section GolemDBStorageFacts.

Context {json : Json}.
Import GolemDBClient.

Lemma golemdb_storeFile_eq (rpc : GolemDBStorage.Rpc) (siteId : string)
    (file : SiteFile) (w : World) :
  GolemDBStorage.storeFile rpc siteId file w =
  if GolemDBStorage.MAX_FILE_SIZE <? sf_size file
  then (GolemDBStorage.Raised (GolemDBStorage.FileTooLarge (sf_path file)), w)
  else
    let entry := GolemDBStorage.fileEntry siteId file in
    let failed := {| mirror := mirror w; ledgerCalls := S (ledgerCalls w) |} in
    match GolemDBStorage.eth_sendTransaction rpc (ledgerCalls w) entry with
    | FetchRejects => (GolemDBStorage.Raised GolemDBStorage.FetchRejected, failed)
    | NotOk => (GolemDBStorage.Raised GolemDBStorage.WriteFailed, failed)
    | RpcError => (GolemDBStorage.Raised GolemDBStorage.RpcFailed, failed)
    | RpcResult _ =>
        (GolemDBStorage.Returned (generateFileKey siteId (sf_path file)),
         {| mirror := <[generateFileKey siteId (sf_path file) := entry]> (mirror w);
            ledgerCalls := S (ledgerCalls w) |})
    end.
Proof.
  unfold GolemDBStorage.storeFile, GolemDBStorage.writeToGolemDB.
  destruct (GolemDBStorage.MAX_FILE_SIZE <? sf_size file); [reflexivity |].
  cbv zeta. destruct (GolemDBStorage.eth_sendTransaction rpc (ledgerCalls w) _); reflexivity.
Qed.

(** X13. [storeFile] of GolemDBStorage succeeds only when the file is
    within the limit and the endpoint answers the transaction with a
    result, and then the entry is in the temporary storage; when it
    throws, the temporary storage is as it was. *)
Theorem golemdb_storeFile_needs_ledger (rpc : GolemDBStorage.Rpc) (siteId : string)
    (file : SiteFile) (w : World) :
  match GolemDBStorage.storeFile rpc siteId file w with
  | (GolemDBStorage.Returned key, w') =>
      key = generateFileKey siteId (sf_path file)
      /\ sf_size file <= GolemDBStorage.MAX_FILE_SIZE
      /\ (exists h, GolemDBStorage.eth_sendTransaction rpc (ledgerCalls w)
                      (GolemDBStorage.fileEntry siteId file) = RpcResult h)
      /\ mirror w' = <[key := GolemDBStorage.fileEntry siteId file]> (mirror w)
  | (GolemDBStorage.Raised e, w') =>
      mirror w' = mirror w
      /\ (e = GolemDBStorage.FileTooLarge (sf_path file) <->
          GolemDBStorage.MAX_FILE_SIZE < sf_size file)
  end.
Proof.
  rewrite golemdb_storeFile_eq.
  destruct (GolemDBStorage.MAX_FILE_SIZE <? sf_size file) eqn:Hsize.
  - apply Z.ltb_lt in Hsize. split; [reflexivity |]. split; [intros _; exact Hsize | reflexivity].
  - apply Z.ltb_ge in Hsize. cbv zeta.
    destruct (GolemDBStorage.eth_sendTransaction rpc (ledgerCalls w) _) as [| | | h] eqn:Hsend;
      simpl.
    1-3: split; [reflexivity |]; split; [discriminate | lia].
    repeat split; [exact Hsize | exists h; reflexivity].
Qed.

Lemma golemdb_storeSite_files_frame (rpc : GolemDBStorage.Rpc) (siteId : string)
    (files : list SiteFile) (keys : list string) (w : World) res w' key :
  GolemDBStorage.storeSite_files rpc siteId files keys w = (res, w') ->
  Forall (fun file => generateFileKey siteId (sf_path file) <> key) files ->
  mirror w' !! key = mirror w !! key.
Proof.
  revert keys w. induction files as [| file rest IH]; intros keys w; simpl.
  - intros [= _ <-] _. reflexivity.
  - intros H Hall. inversion Hall as [| ? ? Hne Hrest]; subst.
    rewrite golemdb_storeFile_eq in H.
    destruct (GolemDBStorage.MAX_FILE_SIZE <? sf_size file);
      [injection H as _ <-; reflexivity |].
    cbv zeta in H.
    destruct (GolemDBStorage.eth_sendTransaction rpc (ledgerCalls w) _);
      try (injection H as _ <-; reflexivity).
    apply IH in H; [| assumption]. rewrite H. simpl. apply lookup_insert_ne. exact Hne.
Qed.

(** X14. [storeSite] of GolemDBStorage refuses a batch over the site limit
    before any call; and whenever it throws, after whatever files were
    cached, the metadata entry is as it was. *)
Theorem golemdb_storeSite_failure (rpc : GolemDBStorage.Rpc) (now : Z) (siteId : string)
    (files : list SiteFile) (w : World) :
  (GolemDBStorage.MAX_SITE_SIZE < sumSizes files ->
   GolemDBStorage.storeSite rpc now siteId files w
   = (GolemDBStorage.Raised GolemDBStorage.SiteTooLarge, w))
  /\ (forall e w',
        GolemDBStorage.storeSite rpc now siteId files w = (GolemDBStorage.Raised e, w') ->
        mirror w' !! generateMetadataKey siteId = mirror w !! generateMetadataKey siteId).
Proof.
  unfold GolemDBStorage.storeSite. split.
  - intros Hbig. apply Z.ltb_lt in Hbig. rewrite Hbig. reflexivity.
  - intros e w'. destruct (GolemDBStorage.MAX_SITE_SIZE <? sumSizes files);
      [intros [= _ <-]; reflexivity |].
    destruct (GolemDBStorage.storeSite_files rpc siteId files [] w) as [[keys | e1] w1]
      eqn:Hfiles.
    + assert (Hw1 : mirror w1 !! generateMetadataKey siteId
                    = mirror w !! generateMetadataKey siteId).
      { eapply golemdb_storeSite_files_frame; [exact Hfiles |].
        apply Forall_forall. intros file _. apply generateFileKey_not_metadata. }
      cbv zeta. unfold GolemDBStorage.writeToGolemDB.
      destruct (GolemDBStorage.eth_sendTransaction rpc (ledgerCalls w1) _);
        intros [= _ <-]; exact Hw1.
    + intros [= _ <-].
      eapply golemdb_storeSite_files_frame; [exact Hfiles |].
      apply Forall_forall. intros file _. apply generateFileKey_not_metadata.
Qed.

(** X15. GolemDBStorage records the lifetime itself, thirty days in seconds,
    as the expiry of an entry, and [isExpired] compares it with the clock:
    once the clock is past the first thirty days after the epoch, a file
    that [storeFile] has stored and the metadata that [storeSite] has
    stored are in the temporary storage and are read as absent. *)
Theorem golemdb_reads_expired (rpc : GolemDBStorage.Rpc) (now0 now : Z) (siteId : string)
    (file : SiteFile) (files : list SiteFile) (w : World) :
  GolemDBStorage.DEFAULT_BTL < now / 1000 ->
  (forall key w',
     GolemDBStorage.storeFile rpc siteId file w = (GolemDBStorage.Returned key, w') ->
     mirror w' !! key = Some (GolemDBStorage.fileEntry siteId file)
     /\ fst (GolemDBStorage.getFile rpc now siteId (sf_path file) w') = None)
  /\ (forall metadata w',
        GolemDBStorage.storeSite rpc now0 siteId files w
        = (GolemDBStorage.Returned metadata, w') ->
        mirror w' !! generateMetadataKey siteId
        = Some (GolemDBStorage.metadataEntry now0 siteId metadata)
        /\ fst (GolemDBStorage.getSiteMetadata rpc now siteId w') = None).
Proof.
  intros Hnow. split.
  - intros key w' Hstore. rewrite golemdb_storeFile_eq in Hstore.
    destruct (GolemDBStorage.MAX_FILE_SIZE <? sf_size file); [discriminate |].
    cbv zeta in Hstore.
    destruct (GolemDBStorage.eth_sendTransaction rpc (ledgerCalls w) _); try discriminate.
    injection Hstore as <- <-.
    assert (Hlookup :
      mirror {| mirror := <[generateFileKey siteId (sf_path file) :=
                              GolemDBStorage.fileEntry siteId file]> (mirror w);
                ledgerCalls := S (ledgerCalls w) |}
        !! generateFileKey siteId (sf_path file)
      = Some (GolemDBStorage.fileEntry siteId file))
      by (simpl; apply lookup_insert_eq).
    split; [exact Hlookup |].
    unfold GolemDBStorage.getFile, GolemDBStorage.readFromGolemDB. rewrite Hlookup.
    replace (isExpired _ now) with true; [reflexivity |].
    symmetry. apply isExpired_true_iff. simpl. split; [reflexivity | exact Hnow].
  - intros metadata w'. unfold GolemDBStorage.storeSite.
    destruct (GolemDBStorage.MAX_SITE_SIZE <? sumSizes files); [discriminate |].
    destruct (GolemDBStorage.storeSite_files rpc siteId files [] w) as [[keys | e1] w1];
      [| discriminate].
    cbv zeta. unfold GolemDBStorage.writeToGolemDB.
    destruct (GolemDBStorage.eth_sendTransaction rpc (ledgerCalls w1) _); try discriminate.
    intros [= <- <-]. simpl mirror.
    assert (Hlookup :
      <[generateMetadataKey siteId :=
          GolemDBStorage.metadataEntry now0 siteId
            (GolemDBStorage.siteMetadata now0 siteId files)]> (mirror w1)
        !! generateMetadataKey siteId
      = Some (GolemDBStorage.metadataEntry now0 siteId
                (GolemDBStorage.siteMetadata now0 siteId files)))
      by apply lookup_insert_eq.
    split; [exact Hlookup |].
    unfold GolemDBStorage.getSiteMetadata, GolemDBStorage.readFromGolemDB.
    simpl mirror. rewrite Hlookup.
    replace (isExpired _ now) with true; [reflexivity |].
    symmetry. apply isExpired_true_iff. simpl. split; [reflexivity | exact Hnow].
Qed.

End GolemDBStorageFacts.

(** ** DemoStorage *)

Section DemoStorageFacts.

Context {json : Json}.

(** X16. Reading an expired entry from DemoStorage erases it: the read is
    absent, the key is gone from the map, no other key changes, and the
    path stays absent at any later read whatever the clock. A read that
    finds nothing expired changes nothing. *)
Theorem demo_expired_read_erases (now : Z) (siteId path : string)
    (m : gmap string DBChainEntry) :
  let key := generateFileKey siteId path in
  let after := snd (DemoStorage.getFile now siteId path m) in
  (forall entry,
     m !! key = Some entry -> isExpired entry now = true ->
     fst (DemoStorage.getFile now siteId path m) = None
     /\ after !! key = None
     /\ forall t, fst (DemoStorage.getFile t siteId path after) = None)
  /\ (forall other, other <> key -> after !! other = m !! other)
  /\ ((forall entry, m !! key = Some entry -> isExpired entry now = false) -> after = m).
Proof.
  intros key after. unfold after, DemoStorage.getFile. cbv zeta. fold key.
  split; [| split].
  - intros entry Hentry Hexp. rewrite Hentry, Hexp. simpl.
    split; [reflexivity |]. split; [apply lookup_delete_eq |].
    intros t. rewrite lookup_delete_eq. reflexivity.
  - intros other Hne. destruct (m !! key) as [entry |]; [| reflexivity].
    destruct (isExpired entry now); [| reflexivity].
    simpl. apply lookup_delete_ne. congruence.
  - intros Hfresh. destruct (m !! key) as [entry |]; [| reflexivity].
    rewrite (Hfresh entry eq_refl). reflexivity.
Qed.

Lemma demo_storeSite_files_storeAll (now : Z) (siteId : string) (files : list SiteFile)
    (m : gmap string DBChainEntry) (k : nat) :
  DemoStorage.storeSite_files now siteId files m
  = mirror (storeAll now siteId files {| mirror := m; ledgerCalls := k |}).
Proof.
  revert m k. induction files as [| file rest IH]; intros m k; [reflexivity |].
  simpl. rewrite (IH _ (S k)). reflexivity.
Qed.

(** X17. [storeSite] of DemoStorage always returns; within thirty days the
    metadata read back is the one returned, with the number of files of
    the batch and the sum of their sizes, and the last file written to a
    key is read back as it was given. Neither read changes the map. *)
Theorem demo_store_then_read (now later : Z) (siteId : string) (pre : list SiteFile)
    (file : SiteFile) (post : list SiteFile) (m : gmap string DBChainEntry) :
  later / 1000 <= now / 1000 + 30 * 24 * 60 * 60 ->
  Forall (fun other => fileKey siteId other <> fileKey siteId file) post ->
  let files := (pre ++ file :: post)%list in
  let metadata := fst (DemoStorage.storeSite now siteId files m) in
  let m' := snd (DemoStorage.storeSite now siteId files m) in
  DemoStorage.getSiteMetadata later siteId m' = (Some metadata, m')
  /\ sm_fileCount metadata = Z.of_nat (length files)
  /\ sm_totalSize metadata = sumSizes files
  /\ DemoStorage.getFile later siteId (sf_path file) m' = (Some file, m').
Proof.
  intros Hlater Hpost files metadata m'.
  unfold metadata, m', DemoStorage.storeSite. cbv zeta. simpl fst. simpl snd.
  split; [| split; [reflexivity | split; [reflexivity |]]].
  - unfold DemoStorage.getSiteMetadata. cbv zeta. rewrite lookup_insert_eq.
    replace (isExpired _ later) with false
      by (symmetry; apply isExpired_false_iff; right; exact Hlater).
    simpl e_value. unfold TextDecoder_decode, TextEncoder_encode.
    rewrite string_of_list_byte_of_string, JSON_parse_stringify. reflexivity.
  - unfold DemoStorage.getFile. cbv zeta.
    rewrite lookup_insert_ne by (apply not_eq_sym, generateFileKey_not_metadata).
    rewrite (demo_storeSite_files_storeAll now siteId files m 0).
    change (generateFileKey siteId (sf_path file)) with (fileKey siteId file).
    unfold files. rewrite storeAll_last by exact Hpost.
    rewrite fileEntry_not_expired by exact Hlater.
    destruct file; reflexivity.
Qed.

End DemoStorageFacts.


(** ** More on the ledger client *)

Module LedgerFacts.
Import GolemDBClient.

(** The first poll from [i] on, below [bound], that shows a receipt:
    polls that fail or show none are passed over. *)
Definition firstReceipt (ep : Endpoint) (txHash : string) (i bound : nat) (r : Receipt)
    : Prop :=
  exists j, (i <= j < bound)%nat
    /\ eth_getTransactionReceipt ep j txHash = RpcResult (Some r)
    /\ forall k r', (i <= k < j)%nat ->
         eth_getTransactionReceipt ep k txHash <> RpcResult (Some r').

Lemma waitForTransaction_from_spec (ep : Endpoint) (txHash : string) (remaining i : nat)
    (r : Receipt) :
  (i + remaining = maxRetries)%nat ->
  waitForTransaction_from ep txHash i remaining = Some r
  <-> firstReceipt ep txHash i maxRetries r.
Proof.
  revert i. induction remaining as [| k IH]; intros i Hsum.
  - simpl. split; [discriminate |].
    intros (j & Hj & _). lia.
  - rewrite GolemDBClientFacts.waitForTransaction_from_step.
    assert (Hnext : (S i + k = maxRetries)%nat) by lia.
    assert (Hskip : (forall r', eth_getTransactionReceipt ep i txHash <> RpcResult (Some r')) ->
              (waitForTransaction_from ep txHash (S i) k = Some r
               <-> firstReceipt ep txHash i maxRetries r)).
    { intros Hnone. rewrite (IH (S i) Hnext). split.
      - intros (j & Hj & Hrec & Hbefore). exists j. split; [lia |]. split; [exact Hrec |].
        intros q r' Hq. destruct (Nat.eq_dec q i) as [-> | Hne]; [apply Hnone |].
        apply Hbefore. lia.
      - intros (j & Hj & Hrec & Hbefore). exists j.
        assert (j <> i) by (intros ->; exact (Hnone r Hrec)).
        split; [lia |]. split; [exact Hrec |].
        intros q r' Hq. apply Hbefore. lia. }
    assert (Hlast : i = (maxRetries - 1)%nat ->
              waitForTransaction_from ep txHash (S i) k = None).
    { intros ->. assert (k = 0%nat) by lia. subst k. reflexivity. }
    destruct (eth_getTransactionReceipt ep i txHash) as [| | | [r0 |]] eqn:Hi.
    1-3: destruct (Nat.eqb i (maxRetries - 1)) eqn:Heq;
      [apply Nat.eqb_eq in Heq; rewrite <- (Hlast Heq) |];
      apply Hskip; intros r'; discriminate.
    + split.
      * intros [= ->]. exists i. split; [lia |]. split; [exact Hi |]. intros q r' Hq. lia.
      * intros (j & Hj & Hrec & Hbefore).
        destruct (Nat.eq_dec j i) as [-> | Hne]; [congruence |].
        exfalso. apply (Hbefore i r0); [lia | exact Hi].
    + apply Hskip. intros r'. discriminate.
Qed.

(** Either no poll before [j] shows a receipt, or one does. *)
Lemma classic_first (ep : Endpoint) (txHash : string) (j : nat) :
  (forall k r, (k < j)%nat -> eth_getTransactionReceipt ep k txHash <> RpcResult (Some r))
  \/ (exists k, (k < j)%nat /\ exists r,
         eth_getTransactionReceipt ep k txHash = RpcResult (Some r)).
Proof.
  induction j as [| j IH].
  - left. intros k r Hk. lia.
  - destruct IH as [Hnone | (k & Hk & r & Hr)].
    + destruct (eth_getTransactionReceipt ep j txHash) as [| | | [r |]] eqn:Hj.
      1-3,5: left; intros k r' Hk; destruct (Nat.eq_dec k j) as [-> | Hne];
        [rewrite Hj; discriminate | apply Hnone; lia].
      right. exists j. split; [lia |]. exists r. exact Hj.
    + right. exists k. split; [lia |]. exists r. exact Hr.
Qed.

(** X18. [waitForTransaction] returns the receipt of the first of its ten
    polls that shows one, whatever the earlier polls answered (no receipt
    yet, an error, a failed request); it returns [null] when none of the
    ten polls shows a receipt. *)
Theorem waitForTransaction_first_receipt (ep : Endpoint) (txHash : string) :
  (forall r, waitForTransaction ep txHash = Some r <-> firstReceipt ep txHash 0 10 r)
  /\ (waitForTransaction ep txHash = None <->
      forall j r, (j < 10)%nat ->
        eth_getTransactionReceipt ep j txHash <> RpcResult (Some r)).
Proof.
  assert (Hsome : forall r,
            waitForTransaction ep txHash = Some r <-> firstReceipt ep txHash 0 10 r).
  { intros r. unfold waitForTransaction.
    apply (waitForTransaction_from_spec ep txHash maxRetries 0 r). reflexivity. }
  split; [exact Hsome |]. split.
  - intros Hnone j r Hj Hrec.
    assert (Hex : exists i r', (i <= j)%nat
                  /\ eth_getTransactionReceipt ep i txHash = RpcResult (Some r')
                  /\ forall k r'', (0 <= k < i)%nat ->
                       eth_getTransactionReceipt ep k txHash <> RpcResult (Some r'')).
    { clear Hnone Hj. revert r Hrec.
      induction j as [j IH] using lt_wf_ind. intros r Hrec.
      destruct (classic_first ep txHash j) as [Hfirst | (k & Hk & r1 & Hr1)].
      - exists j, r. split; [lia |]. split; [exact Hrec |].
        intros q r'' Hq. apply Hfirst. lia.
      - destruct (IH k Hk r1 Hr1) as (i & r' & Hi & Hreci & Hbefore).
        exists i, r'. split; [lia |]. split; assumption. }
    destruct Hex as (i & r' & Hi & Hreci & Hbefore).
    assert (Hfound : waitForTransaction ep txHash = Some r').
    { apply Hsome. exists i. split; [lia |]. split; assumption. }
    congruence.
  - intros Hall. destruct (waitForTransaction ep txHash) as [r |] eqn:Hw; [| reflexivity].
    destruct (proj1 (Hsome r) eq_refl) as (j & Hj & Hrec & _).
    exfalso. apply (Hall j r); [lia | exact Hrec].
Qed.

(** X19. When [createEntity] returns, the entity key is the transaction hash
    that the submission returned; the receipt only supplies the block
    number, and a submission that is never confirmed is returned all the
    same. *)
Theorem createEntity_returns_hash (c : Client) (ep : Endpoint) key data btl (r : Entity) :
  createEntity c ep key data btl = Ok r <->
  exists n h,
    eth_getTransactionCount ep (account c) = RpcResult n
    /\ eth_sendRawTransaction ep (signTransaction c (txParams c n)) = RpcResult h
    /\ r = {| entityKey := h; transactionHash := h;
              entityBlockNumber := option_map blockNumber (waitForTransaction ep h) |}.
Proof.
  unfold createEntity, getNonce. split.
  - destruct (eth_getTransactionCount ep (account c)) as [| | | n]; try discriminate.
    destruct (eth_sendRawTransaction ep _) as [| | | h] eqn:Hs; try discriminate.
    intros [= <-]. exists n, h. repeat split. exact Hs.
  - intros (n & h & -> & -> & ->). reflexivity.
Qed.

End LedgerFacts.


(** ** Instances on the reference environment *)

Module Witnesses.
Import Reference.

Definition page : SiteFile :=
  {| sf_path := "index.html"; sf_content := bytes "<h1>hello</h1>";
     sf_contentType := "text/html"; sf_size := 14; sf_lastModified := 0 |}.

Lemma storeFile_ledger_failure_witness :
  isOk (GolemDBClient.createEntity (golemDB (envWith offline))
          (net (envWith offline) (ledgerCalls emptyWorld))
          (e_key (fileEntry 0 "s" page)) (e_value (fileEntry 0 "s" page))
          (e_btl (fileEntry 0 "s" page))) = false /\
  writeFile (envWith offline) (generateFileKey "s" (sf_path page)) = true /\
  storeFile (envWith offline) 0 "s" page emptyWorld
  = (Ok "site:s:file:index.html",
     written "site:s:file:index.html" (fileEntry 0 "s" page) emptyWorld).
Proof.
  split; [reflexivity |]. split; [reflexivity |].
  apply (proj2 (storeFile_ledger_failure (envWith offline) 0 "s" page emptyWorld));
    reflexivity.
Defined.

(** *** Worlds *)

Definition notes (content : string) : RawFile :=
  {| rf_path := "notes.txt"; rf_content := bytes content |}.

Definition env : Env := envWith online.

(** The world after site [s] was created at time 0 with a page and ten
    bytes of notes. *)
Definition created : World :=
  snd (uploadSite env 0 "s" [indexHtml; notes "0123456789"] emptyWorld).

Lemma created_ok : isOk (fst (uploadSite env 0 "s" [indexHtml; notes "0123456789"] emptyWorld)) = true.
Proof. vm_compute. reflexivity. Qed.

Lemma created_metadata :
  getSiteMetadata 1000 "s" created
  = Some {| sm_siteId := "s"; sm_name := "s"; sm_domain := "s.webdb.site";
            sm_totalSize := 24; sm_fileCount := 2;
            sm_createdAt := 0; sm_btlExpiry := 2592000000 |}.
Proof. vm_compute. reflexivity. Qed.

(** *** C2 *)

(** Against C2 as worded. The normalized path of [//b.txt] is [/b.txt]:
    it has an empty first segment, and the batch is stored, its sibling
    included. *)
Lemma empty_segment_accepted :
  let files := [indexHtml; {| rf_path := "//b.txt"; rf_content := bytes "b" |}] in
  let result := uploadSite env 0 "s" files emptyWorld in
  normalizePath "//b.txt" = "/b.txt"
  /\ JS.hasEmptySegment (normalizePath "//b.txt") = true
  /\ isOk (fst result) = true
  /\ (exists file, getFile 0 "s" "index.html" (snd result) = Some file)
  /\ (exists file, getFile 0 "s" "/b.txt" (snd result) = Some file).
Proof.
  cbv zeta. split; [reflexivity |]. split; [reflexivity |]. split; [vm_compute; reflexivity |].
  split; eexists; vm_compute; reflexivity.
Qed.

Definition traversal : list RawFile :=
  [indexHtml; {| rf_path := "../../etc/passwd"; rf_content := bytes "x" |}].

(** The reference environment with a site limit of thirty bytes. *)
Definition tight : Env :=
  {| golemDB := golemDB env; net := net env; writeFile := writeFile env;
     lookup := lookup env; maxFileSize := maxFileSize env; maxSiteSize := 30 |}.

(** The traversal batch is refused by [uploadSite]; seventeen bytes of
    notes in place of ten bring the site of twenty-four bytes to
    thirty-one, and [uploadFiles] refuses them under the limit of
    thirty. *)
Lemma rejected_batch_writes_nothing_witness :
  failsValidation env traversal
  /\ (exists e, uploadSite env 0 "s" traversal emptyWorld = (Throw e, emptyWorld))
  /\ getFile 0 "s" "index.html" (snd (uploadSite env 0 "s" traversal emptyWorld)) = None
  /\ (exists e, uploadFiles tight 1000 "s" [notes "0123456789abcdefg"] created
                = (Throw e, created)).
Proof.
  assert (Hfail : failsValidation env traversal).
  { left. apply Exists_cons_tl, Exists_cons_hd. reflexivity. }
  split; [exact Hfail |].
  destruct (rejected_batch_writes_nothing env 0 "s" traversal emptyWorld)
    as (Hsite & _ & _).
  destruct (Hsite Hfail) as (Hthrow & Hsame).
  split; [exact Hthrow |].
  split; [rewrite (Hsame _ 0 "index.html" eq_refl); reflexivity |].
  destruct (rejected_batch_writes_nothing tight 1000 "s" [notes "0123456789abcdefg"] created)
    as (_ & _ & Htotal).
  apply (Htotal _ [] (notes "0123456789abcdefg") [] created_metadata eq_refl).
  vm_compute. reflexivity.
Defined.

(** *** C3 *)

(** Against C3 as worded. On the site created above, a second creation
    with an empty batch
    fails on the schema, not on the existing site; and [storeSite] itself
    does not look for an existing site: it succeeds and replaces the
    metadata. *)
Lemma second_creation_without_conflict :
  let again := storeSite env 5000 "s" [page] created in
  (exists metadata, getSiteMetadata 5000 "s" created = Some metadata
                    /\ sm_createdAt metadata = 0 /\ sm_fileCount metadata = 2)
  /\ uploadSite env 5000 "s" [] created = (Throw InvalidUploadData, created)
  /\ isOk (fst again) = true
  /\ (exists metadata, getSiteMetadata 5000 "s" (snd again) = Some metadata
                       /\ sm_createdAt metadata = 5000 /\ sm_fileCount metadata = 1).
Proof.
  cbv zeta. split; [eexists; split; [vm_compute; reflexivity | split; reflexivity] |].
  split; [reflexivity |]. split; [vm_compute; reflexivity |].
  eexists; split; [vm_compute; reflexivity | split; reflexivity].
Qed.

Lemma uploadSite_existing_site_witness :
  (exists metadata, getSiteMetadata 5000 "s" created = Some metadata)
  /\ uploadSite env 5000 "s" [indexHtml] created = (Throw (SiteAlreadyExists "s"), created)
  /\ uploadSite env 5000 "s" [] created = (Throw InvalidUploadData, created).
Proof.
  assert (Hmeta : exists metadata, getSiteMetadata 5000 "s" created = Some metadata)
    by (eexists; vm_compute; reflexivity).
  split; [exact Hmeta |]. destruct Hmeta as [metadata Hmeta]. split.
  - destruct (uploadSite_existing_site env 5000 "s" [indexHtml] created metadata Hmeta)
      as (e & -> & Hvalid & _).
    rewrite (Hvalid eq_refl). reflexivity.
  - destruct (uploadSite_existing_site env 5000 "s" [] created metadata Hmeta)
      as (e & -> & _ & Hinvalid).
    rewrite (Hinvalid eq_refl). reflexivity.
Defined.

(** *** C4 *)

(** The batch of the site above, as [storeSite] receives it. *)
Definition storedTwo : Result StoredSite * World :=
  storeSite env 0 "s" [processed env 0 indexHtml; processed env 0 (notes "0123456789")]
    emptyWorld.

Lemma storedTwo_ok : exists r, storedTwo = (Ok r, snd storedTwo).
Proof. eexists. vm_compute. reflexivity. Qed.

(** The page is read back a day after [storeFile] stored it, and a day
    after [storeSite] stored it ahead of the notes. *)
Lemma stored_file_round_trip_witness :
  (exists got,
     getFile 86400000 "s" "index.html"
       (snd (storeFile env 0 "s" (processed env 0 indexHtml) emptyWorld)) = Some got
     /\ sf_content got = bytes "<h1>hello</h1>"
     /\ sf_contentType got = "text/html"
     /\ sf_size got = 14)
  /\ (exists got,
        getFile 86400000 "s" "index.html" (snd storedTwo) = Some got
        /\ sf_content got = bytes "<h1>hello</h1>"
        /\ sf_contentType got = "text/html"
        /\ sf_size got = 14).
Proof.
  split.
  - apply (stored_file_round_trip env 0 86400000 "s" indexHtml (processed env 0 indexHtml)
             emptyWorld (snd (storeFile env 0 "s" (processed env 0 indexHtml) emptyWorld))).
    + reflexivity.
    + left. eexists. vm_compute. reflexivity.
    + vm_compute. discriminate.
  - apply (stored_file_round_trip env 0 86400000 "s" indexHtml (processed env 0 indexHtml)
             emptyWorld (snd storedTwo)).
    + reflexivity.
    + right. destruct storedTwo_ok as [r Hr].
      exists [], [processed env 0 (notes "0123456789")], r.
      split; [exact Hr |]. split.
      * repeat constructor. vm_compute. discriminate.
      * vm_compute. discriminate.
    + vm_compute. discriminate.
Defined.

(** *** C5 *)

Definition styled : list RawFile :=
  [indexHtml; {| rf_path := "css/b.css"; rf_content := bytes "b{}" |}].

(** C5, where the code departs from it. The store writes each entry to
    a file named by its key and makes no directory but its own: on a free
    site identifier, a valid batch with an entry point and a style sheet
    in a subdirectory throws on the write of the style sheet and leaves
    no metadata. *)
Lemma valid_batch_without_metadata :
  let result := uploadSite env 0 "s" styled emptyWorld in
  uploadSchema "s" styled = true
  /\ getSiteMetadata 0 "s" emptyWorld = None
  /\ validBatch env styled
  /\ Path.storageFile (generateFileKey "s" "css/b.css")
     = ["tmp"; "webdb-storage"; "site:s:file:css"; "b.css.json"]
  /\ fst result = Throw (WriteFileFailed "site:s:file:css/b.css")
  /\ getSiteMetadata 0 "s" (snd result) = None.
Proof.
  cbv zeta. split; [reflexivity |]. split; [reflexivity |]. split.
  - unfold validBatch, styled. repeat split.
    + repeat constructor; vm_compute; discriminate.
    + vm_compute. discriminate.
    + apply Exists_cons_hd. left. reflexivity.
    + repeat constructor.
  - split; [vm_compute; reflexivity |]. split; vm_compute; reflexivity.
Qed.

Definition twoFiles : list RawFile := [indexHtml; notes "0123456789"].

Lemma twoFiles_valid : validBatch env twoFiles.
Proof.
  unfold validBatch, twoFiles. repeat split.
  - repeat constructor; vm_compute; discriminate.
  - vm_compute. discriminate.
  - apply Exists_cons_hd. left. reflexivity.
  - repeat constructor.
Defined.

Lemma uploadSite_then_getSiteMetadata_witness :
  exists r w' metadata,
    uploadSite env 0 "s" twoFiles emptyWorld = (Ok r, w')
    /\ getSiteMetadata 1000 "s" w' = Some metadata
    /\ sm_fileCount metadata = 2
    /\ sm_totalSize metadata = 24
    /\ ur_totalSize r = 24.
Proof.
  apply (uploadSite_then_getSiteMetadata env 0 1000 "s" twoFiles emptyWorld).
  - reflexivity.
  - reflexivity.
  - exact twoFiles_valid.
  - repeat constructor.
  - reflexivity.
  - vm_compute. discriminate.
Defined.

(** *** C6 and C10 *)

(** The ten bytes of notes are replaced by three. *)
Definition replaced : Result UploadResult * World :=
  uploadFiles env 1000 "s" [notes "abc"] created.

Definition replacedResult : UploadResult :=
  {| ur_siteId := "s"; ur_domain := "s.webdb.site";
     ur_files := [{| uf_path := "notes.txt"; uf_size := 3; uf_key := "0xfeed";
                     uf_txHash := None |}];
     ur_totalSize := 17; ur_indexTxHash := None |}.

Lemma replaced_ok : replaced = (Ok replacedResult, snd replaced).
Proof. vm_compute. reflexivity. Qed.

(** C6, where the code departs from it. The site above records
    twenty-four bytes, ten of them notes. A batch that holds the notes
    twice, three bytes and then two, leaves the page and two bytes of
    notes, sixteen bytes; the total returned is nine: the ten bytes found
    before the call are subtracted at both occurrences. Replacing the
    notes once returns the recorded total less the old size plus the new
    one. *)
Lemma uploadFiles_repeated_path :
  let twice := uploadFiles env 1000 "s" [notes "abc"; notes "xy"] created in
  option_map sm_totalSize (getSiteMetadata 1000 "s" created) = Some 24
  /\ option_map sf_size (getFile 1000 "s" "notes.txt" created) = Some 10
  /\ option_map ur_totalSize
       (match fst replaced with Ok r => Some r | Throw _ => None end) = Some (24 - 10 + 3)
  /\ option_map ur_totalSize
       (match fst twice with Ok r => Some r | Throw _ => None end) = Some 9
  /\ option_map sf_size (getFile 1000 "s" "index.html" (snd twice)) = Some 14
  /\ option_map sf_size (getFile 1000 "s" "notes.txt" (snd twice)) = Some 2.
Proof. cbv zeta. repeat split; vm_compute; reflexivity. Qed.

(** The returned total is 24 - 10 + 3, and the recorded one stays 24. *)
Lemma replaced_totals :
  ur_totalSize replacedResult = 24 - 10 + 3
  /\ option_map sm_totalSize (getSiteMetadata 1000 "s" (snd replaced)) = Some 24
  /\ option_map sf_size (getFile 1000 "s" "notes.txt" (snd replaced)) = Some 3.
Proof. repeat split; vm_compute; reflexivity. Qed.

Lemma uploadFiles_keeps_metadata_witness :
  mirror (snd replaced) !! generateMetadataKey "s" = mirror created !! generateMetadataKey "s"
  /\ (forall later, getSiteMetadata later "s" (snd replaced) = getSiteMetadata later "s" created)
  /\ (exists metadata, getSiteMetadata 1000 "s" created = Some metadata
                       /\ getSiteMetadata 1000 "s" (snd replaced) = Some metadata)
  /\ (forall key,
        Forall (fun f => generateFileKey "s" (normalizePath (rf_path f)) <> key)
          [notes "abc"] ->
        mirror (snd replaced) !! key = mirror created !! key).
Proof.
  exact (uploadFiles_keeps_metadata env 1000 "s" [notes "abc"] created replacedResult
           (snd replaced) replaced_ok).
Defined.

(** *** C7 *)

(** A record of the page with the given [btl]. *)
Definition fabricated (btl : Z) : DBChainEntry :=
  {| e_key := "site:s:file:index.html";
     e_value := bytes "<h1>hello</h1>";
     e_metadata := {| em_contentType := "text/html"; em_path := "index.html";
                      em_siteId := "s"; em_size := 14; em_lastModified := 0 |};
     e_btl := btl |}.

Definition day : Z := 24 * 60 * 60 * 1000.

(** The site above, with a file added on its twenty-ninth day. *)
Definition extended : World :=
  snd (uploadFiles env (29 * day) "s"
         [{| rf_path := "late.txt"; rf_content := bytes "late" |}] created).

(** Against C7 as worded. On the thirty-first day the site has expired:
    [getSiteMetadata] and the page stored at its creation are absent.
    The file added on the twenty-ninth day is returned by [getFile] all
    the same. *)
Lemma expired_site_file_is_read :
  isOk (fst (uploadFiles env (29 * day) "s"
               [{| rf_path := "late.txt"; rf_content := bytes "late" |}] created)) = true
  /\ getSiteMetadata (31 * day) "s" extended = None
  /\ getFile (31 * day) "s" "index.html" extended = None
  /\ option_map sf_content (getFile (31 * day) "s" "late.txt" extended) = Some (bytes "late").
Proof. repeat split; vm_compute; reflexivity. Qed.

(** On the thirty-first day, the page and the metadata that the creation
    wrote are absent, and their records are still in the storage
    directory. *)
Lemma expired_entry_absent_witness :
  mirror created !! generateFileKey "s" "index.html"
  = Some (fileEntry 0 "s" (processed env 0 indexHtml))
  /\ getFile (31 * day) "s" "index.html" created = None
  /\ (exists entry, mirror created !! generateMetadataKey "s" = Some entry)
  /\ getSiteMetadata (31 * day) "s" created = None
  /\ uploadFiles env (31 * day) "s" [notes "abc"] created
     = (Throw (SiteDoesNotExist "s"), created).
Proof.
  assert (Hfile : mirror created !! generateFileKey "s" "index.html"
                  = Some (fileEntry 0 "s" (processed env 0 indexHtml)))
    by (vm_compute; reflexivity).
  assert (Hmeta : mirror created !! generateMetadataKey "s"
                  = Some (metadataEntry 0 "s"
                            (siteMetadata 0 "s"
                               (map (processed env 0) [indexHtml; notes "0123456789"]))))
    by (vm_compute; reflexivity).
  destruct (expired_entry_absent env (31 * day) "s" "index.html"
              (fileEntry 0 "s" (processed env 0 indexHtml)) created
              ltac:(reflexivity) ltac:(reflexivity))
    as [Hget _].
  destruct (expired_entry_absent env (31 * day) "s" "index.html"
              (metadataEntry 0 "s"
                 (siteMetadata 0 "s"
                    (map (processed env 0) [indexHtml; notes "0123456789"]))) created
              ltac:(reflexivity) ltac:(reflexivity))
    as [_ Hsite].
  destruct (Hsite Hmeta) as (Hnone & Hadd & _).
  split; [exact Hfile |]. split; [exact (Hget Hfile) |].
  split; [eexists; exact Hmeta |]. split; [exact Hnone | apply Hadd].
Defined.

(** *** C8 *)

Definition shell : RawFile := {| rf_path := "shell.php"; rf_content := bytes "<?php" |}.
Definition dotenv : RawFile := {| rf_path := ".env"; rf_content := bytes "KEY=1" |}.

(** C8, where the code departs from it. [uploadSite] refuses a file with
    a denied extension and a hidden file; [uploadFiles] stores both on the
    site created above. *)
Lemma uploadFiles_skips_denylist :
  let added := uploadFiles env 1000 "s" [shell; dotenv] created in
  suspiciousPath (normalizePath (rf_path shell)) = true
  /\ forbiddenHiddenPath (normalizePath (rf_path dotenv)) = true
  /\ uploadSite env 0 "t" [indexHtml; shell] emptyWorld
     = (Throw (FileTypeNotAllowed "shell.php"), emptyWorld)
  /\ uploadSite env 0 "t" [indexHtml; dotenv] emptyWorld
     = (Throw (HiddenFileNotAllowed ".env"), emptyWorld)
  /\ isOk (fst added) = true
  /\ option_map sf_content (getFile 1000 "s" "shell.php" (snd added)) = Some (bytes "<?php")
  /\ option_map sf_content (getFile 1000 "s" ".env" (snd added)) = Some (bytes "KEY=1").
Proof. cbv zeta. repeat split; vm_compute; reflexivity. Qed.

(** *** C9 *)

(** Against C9 as worded. Two calls whose fetches both run before either
    signs: no envelope is submitted between the two fetches, the endpoint
    answers both with the pending count of the account, 7, and both calls
    sign an envelope with sequence number 7. *)
Lemma interleaved_calls_share_nonce :
  exists s,
    GolemDBClient.run client [(0, online); (1, online); (0, online); (1, online)]%nat
      (GolemDBClient.start 2) = Some s
    /\ GolemDBClient.signedNonce s 0 = Some 7
    /\ GolemDBClient.signedNonce s 1 = Some 7.
Proof.
  eexists. split; [vm_compute; reflexivity |].
  split; reflexivity.
Qed.

Lemma nonce_fetched_before_signing_witness :
  Interleaving.happensBefore (GolemDBClient.NonceFetched 1 7) (GolemDBClient.Signed 1 7)
    [GolemDBClient.Signed 1 7; GolemDBClient.Signed 0 7;
     GolemDBClient.NonceFetched 1 7; GolemDBClient.NonceFetched 0 7].
Proof.
  destruct (Interleaving.nonce_fetched_before_signing client 2
              [(0, online); (1, online); (0, online); (1, online)]%nat
              {| GolemDBClient.calls :=
                   [GolemDBClient.AwaitingSend
                      (GolemDBClient.signTransaction client (GolemDBClient.txParams client 7));
                    GolemDBClient.AwaitingSend
                      (GolemDBClient.signTransaction client (GolemDBClient.txParams client 7))];
                 GolemDBClient.trace :=
                   [GolemDBClient.Signed 1 7; GolemDBClient.Signed 0 7;
                    GolemDBClient.NonceFetched 1 7; GolemDBClient.NonceFetched 0 7] |}
              1%nat 7 eq_refl eq_refl) as [Hbefore _].
  exact Hbefore.
Defined.

End Witnesses.

(** ** More instances on the reference environment *)

Module MoreWitnesses.
Import Reference Witnesses.

(** *** A creation that fails half way *)

Definition nested : list RawFile :=
  [indexHtml; {| rf_path := "css/b.css"; rf_content := bytes "b{}" |}].

Lemma nested_fails :
  uploadSite env 0 "s" nested emptyWorld
  = (Throw (WriteFileFailed "site:s:file:css/b.css"),
     snd (uploadSite env 0 "s" nested emptyWorld)).
Proof. vm_compute. reflexivity. Qed.

Lemma failed_uploadSite_keeps_metadata_witness :
  (exists file, getFile 1000 "s" "index.html" (snd (uploadSite env 0 "s" nested emptyWorld))
                = Some file)
  /\ getSiteMetadata 1000 "s" (snd (uploadSite env 0 "s" nested emptyWorld)) = None
  /\ Gateway.getSitePath env 1000 "s" "index.html" (snd (uploadSite env 0 "s" nested emptyWorld))
     = Gateway.Html 404 (Gateway.NotFoundPage "Site not found").
Proof.
  destruct (failed_uploadSite_keeps_metadata env 0 "s" nested emptyWorld _ _ nested_fails)
    as (_ & Hread & Hroute).
  split; [eexists; vm_compute; reflexivity |].
  split; [rewrite Hread; reflexivity | apply Hroute; reflexivity].
Defined.

(** *** A creation that succeeds *)

Definition createdResult : UploadResult :=
  match fst (uploadSite env 0 "s" twoFiles emptyWorld) with
  | Ok r => r
  | Throw _ =>
      {| ur_siteId := ""; ur_domain := ""; ur_files := []; ur_totalSize := 0;
         ur_indexTxHash := None |}
  end.

Lemma created_result : uploadSite env 0 "s" twoFiles emptyWorld = (Ok createdResult, created).
Proof. vm_compute. reflexivity. Qed.

Definition offlineResult : UploadResult :=
  match fst (uploadSite (envWith offline) 0 "s" twoFiles emptyWorld) with
  | Ok r => r
  | Throw _ =>
      {| ur_siteId := ""; ur_domain := ""; ur_files := []; ur_totalSize := 0;
         ur_indexTxHash := None |}
  end.

Lemma offline_result :
  uploadSite (envWith offline) 0 "s" twoFiles emptyWorld
  = (Ok offlineResult, snd (uploadSite (envWith offline) 0 "s" twoFiles emptyWorld)).
Proof. vm_compute. reflexivity. Qed.

Lemma uploadSite_reported_hashes_witness :
  Forall (fun u => uf_txHash u = Some (uf_key u)) (ur_files offlineResult)
  /\ ur_indexTxHash offlineResult = Some "site:s:file:index.html".
Proof.
  destruct (uploadSite_reported_hashes (envWith offline) 0 "s" twoFiles emptyWorld _ _
              offline_result) as [_ Hdown].
  destruct Hdown as [Hfiles Hindex]; [intros k key data btl; reflexivity |].
  split; [exact Hfiles |].
  apply Hindex. apply Exists_cons_hd. reflexivity.
Defined.

Lemma uploadSite_result_lists_batch_witness :
  map uf_path (ur_files createdResult) = ["index.html"; "notes.txt"]
  /\ map uf_size (ur_files createdResult) = [14; 10]
  /\ map uf_key (ur_files createdResult) = ["site:s:file:index.html"; "site:s:file:notes.txt"]
  /\ ur_totalSize createdResult = 24
  /\ ur_domain createdResult = "s.webdb.site".
Proof.
  destruct (uploadSite_result_lists_batch env 0 "s" twoFiles emptyWorld _ _ created_result)
    as (Hpaths & Hsizes & Hkeys & Htotal & Hdomain).
  rewrite Hpaths, Hsizes, Hkeys, Hdomain, Htotal, Hsizes. repeat split.
Defined.

Lemma uploads_touch_one_site_witness :
  (forall later,
     getFile later "t" "index.html" (snd (uploadSite env 0 "s" twoFiles emptyWorld))
     = getFile later "t" "index.html" emptyWorld)
  /\ (forall later,
        getSiteMetadata later "t" (snd (uploadFiles env 1000 "s" [notes "abc"] created))
        = getSiteMetadata later "t" created)
  /\ Path.storageFile "site:s:file:notes.txt"
     <> Path.storageFile (generateFileKey "t" "notes.txt").
Proof.
  split; [| split].
  - destruct (uploads_touch_one_site env 0 "s" "t" twoFiles emptyWorld
                eq_refl ltac:(discriminate)) as (Hfile & _ & _).
    intros later. apply Hfile. reflexivity.
  - destruct (uploads_touch_one_site env 1000 "s" "t" [notes "abc"] created
                eq_refl ltac:(discriminate)) as (_ & _ & Hadd & _).
    destruct (Hadd eq_refl) as [_ Hmeta]. exact Hmeta.
  - destruct (uploads_touch_one_site env 1000 "s" "t" [notes "abc"] created
                eq_refl ltac:(discriminate)) as (_ & _ & _ & Hfiles).
    apply Hfiles.
    + right. split; [reflexivity |]. vm_compute. discriminate.
    + right. exists "notes.txt". split; reflexivity.
Defined.

Lemma uploadSite_writes_no_traversal_key_witness :
  mirror (snd (uploadSite env 0 "s" twoFiles emptyWorld)) !! "site:s:file:index.html"
  <> mirror emptyWorld !! "site:s:file:index.html"
  /\ JS.includes ".." "site:s:file:index.html" = false.
Proof.
  assert (Hdiff : mirror (snd (uploadSite env 0 "s" twoFiles emptyWorld))
                    !! "site:s:file:index.html"
                  <> mirror emptyWorld !! "site:s:file:index.html")
    by (vm_compute; discriminate).
  split; [exact Hdiff |].
  exact (uploadSite_writes_no_traversal_key env 0 "s" twoFiles emptyWorld _ Hdiff).
Defined.


Definition upperCaseShell : RawFile :=
  {| rf_path := "admin\Shell.PhP"; rf_content := bytes "<?php" |}.

Lemma uploadSite_denied_extension_witness :
  normalizePath (rf_path upperCaseShell) = "admin/Shell.PhP"
  /\ exists e, uploadSite env 0 "s" [indexHtml; upperCaseShell] emptyWorld
               = (Throw e, emptyWorld).
Proof.
  split; [reflexivity |].
  apply (uploadSite_denied_extension env 0 "s" [indexHtml; upperCaseShell] emptyWorld).
  apply Exists_cons_tl, Exists_cons_hd. exists "admin/Shell", "PhP".
  split; [do 3 right; left; reflexivity | left; reflexivity].
Defined.

Lemma uploadSite_hidden_file_witness :
  exists e, uploadSite env 0 "s" [indexHtml; dotenv] emptyWorld = (Throw e, emptyWorld).
Proof.
  apply (uploadSite_hidden_file env 0 "s" [indexHtml; dotenv] emptyWorld).
  apply Exists_cons_tl, Exists_cons_hd. cbv zeta.
  repeat split; (reflexivity || discriminate).
Defined.

(** *** The storage directory *)

Lemma directory_by_key_witness :
  readLocally "site:s:file:index.html" emptyWorld
  = Disk.readLocally "site:s:file:index.html" ∅
  /\ agree (mirror (snd (storeLocally env "site:s:file:index.html" (fabricated 10) emptyWorld)))
       (Disk.storeLocally "site:s:file:index.html" (fabricated 10) ∅).
Proof.
  assert (Hkey : canonical "site:s:file:index.html").
  { split; [reflexivity |]. vm_compute. repeat constructor. }
  assert (Hagree : agree (mirror emptyWorld) ∅).
  { intros key _. rewrite lookup_empty. symmetry. apply lookup_empty. }
  destruct (directory_by_key env "site:s:file:index.html" (fabricated 10) emptyWorld ∅
              Hkey Hagree) as (Hread & Hstore & _).
  split; [exact Hread |]. apply Hstore. reflexivity.
Defined.

(** *** The gateway *)

Lemma uploaded_site_is_served_witness :
  (exists served,
     Gateway.subdomainHandler env "webdb.site" "s.webdb.site" "/notes.txt" 86400000 created
     = Some (Gateway.File served)
     /\ Gateway.body served = bytes "0123456789"
     /\ Gateway.h_contentLength served = 10
     /\ Gateway.h_contentType served = "text/plain")
  /\ (exists served,
        Gateway.getSitePath env 86400000 "s" "" created = Gateway.File served
        /\ Gateway.body served = bytes "<h1>hello</h1>").
Proof.
  split.
  - destruct (uploaded_site_is_served env 0 86400000 "s" "webdb.site" [indexHtml]
                (notes "0123456789") [] emptyWorld createdResult created created_result)
      as (served & Hroute & Hbody & Hlength & Htype & _).
    + constructor.
    + vm_compute. discriminate.
    + exists served. split; [exact Hroute |]. split; [exact Hbody |].
      split; [rewrite Hlength, Hbody; reflexivity | rewrite Htype; reflexivity].
  - destruct (uploaded_site_is_served env 0 86400000 "s" "webdb.site" [] indexHtml
                [notes "0123456789"] emptyWorld createdResult created created_result)
      as (served & _ & Hbody & _ & _ & Hindex).
    + repeat constructor. vm_compute. discriminate.
    + vm_compute. discriminate.
    + exists served. split; [apply Hindex; reflexivity | exact Hbody].
Defined.



(** *** GolemDBStorage and DemoStorage *)

(** An endpoint that answers the first transaction and refuses the
    others. *)
Definition firstOnly : GolemDBStorage.Rpc :=
  {| GolemDBStorage.eth_sendTransaction := fun k _ =>
       if Nat.eqb k 0 then GolemDBClient.RpcResult "0x01" else GolemDBClient.NotOk;
     GolemDBStorage.eth_call := fun _ _ => GolemDBClient.RpcResult None |}.

Lemma golemdb_storeSite_failure_witness :
  (exists w',
     GolemDBStorage.storeSite firstOnly 0 "s" [page] emptyWorld
     = (GolemDBStorage.Raised GolemDBStorage.WriteFailed, w')
     /\ mirror w' !! "site:s:file:index.html" = Some (GolemDBStorage.fileEntry "s" page)
     /\ mirror w' !! generateMetadataKey "s" = None).
Proof.
  exists (snd (GolemDBStorage.storeSite firstOnly 0 "s" [page] emptyWorld)).
  assert (Hfail : GolemDBStorage.storeSite firstOnly 0 "s" [page] emptyWorld
                  = (GolemDBStorage.Raised GolemDBStorage.WriteFailed,
                     snd (GolemDBStorage.storeSite firstOnly 0 "s" [page] emptyWorld)))
    by (vm_compute; reflexivity).
  split; [exact Hfail |]. split; [vm_compute; reflexivity |].
  rewrite (proj2 (golemdb_storeSite_failure firstOnly 0 "s" [page] emptyWorld) _ _ Hfail).
  reflexivity.
Defined.

Lemma golemdb_reads_expired_witness :
  mirror (snd (GolemDBStorage.storeFile firstOnly "s" page emptyWorld))
    !! "site:s:file:index.html" = Some (GolemDBStorage.fileEntry "s" page)
  /\ fst (GolemDBStorage.getFile firstOnly 1700000000000 "s" "index.html"
            (snd (GolemDBStorage.storeFile firstOnly "s" page emptyWorld))) = None.
Proof.
  apply (proj1 (golemdb_reads_expired firstOnly 0 1700000000000 "s" page [] emptyWorld
                  ltac:(reflexivity)) "site:s:file:index.html").
  vm_compute. reflexivity.
Defined.

Lemma demo_expired_read_erases_witness :
  let m : gmap string DBChainEntry := {["site:s:file:index.html" := fabricated 10]} in
  fst (DemoStorage.getFile 5000000 "s" "index.html" m) = None
  /\ snd (DemoStorage.getFile 5000000 "s" "index.html" m) !! "site:s:file:index.html" = None
  /\ forall t, fst (DemoStorage.getFile t "s" "index.html"
                      (snd (DemoStorage.getFile 5000000 "s" "index.html" m))) = None.
Proof.
  intros m.
  apply (proj1 (demo_expired_read_erases 5000000 "s" "index.html" m) (fabricated 10));
    vm_compute; reflexivity.
Defined.

Lemma demo_store_then_read_witness :
  let stored := DemoStorage.storeSite 0 "s" [page] ∅ in
  DemoStorage.getSiteMetadata 1000 "s" (snd stored) = (Some (fst stored), snd stored)
  /\ sm_fileCount (fst stored) = 1
  /\ sm_totalSize (fst stored) = 14
  /\ DemoStorage.getFile 1000 "s" "index.html" (snd stored) = (Some page, snd stored).
Proof.
  apply (demo_store_then_read 0 1000 "s" [] page [] ∅).
  - vm_compute. discriminate.
  - constructor.
Defined.

End MoreWitnesses.
